(** * purl: target normalisation, trust policy and protocol detection

    A shallow embedding of the Go packages [internal/target],
    [internal/transport], [internal/protocol] and [internal/errors] of
    purl, of the request builder of [internal/request], of the flag
    reader of [internal/cli] and of the command itself, together with the
    parts of the Go standard library that [ParseTarget] calls ([strings],
    [net/url] and [net], transcribed from Go 1.21) and the calls of
    [net/http], [os], [crypto/tls], [time] and urfave/cli that reach
    outside the process or the repository, which are answered by an
    explicit environment.

    Go strings are byte strings: they are modelled by [string], whose
    characters are the 256 values of [ascii].  An index result of [-1]
    is modelled by [None], a nil pointer or a nil error by [None] too.
    Durations are integers, in nanoseconds. *)

From Stdlib Require Import String Ascii List ZArith NArith Bool Lia.
From ExtLib Require Import Structures.Monad Structures.MonadState
  Structures.MonadExc Data.Monads.EitherMonad Data.Monads.StateMonad.
Import ListNotations.
Import MonadNotation.

Local Open Scope string_scope.
Local Open Scope monad_scope.

(* ===================================================================== *)
(** ** Package [strings] *)
(* ===================================================================== *)

Module strings.

(** [s[:n]] *)
Fixpoint slice_to (n : nat) (s : string) : string :=
  match n, s with
  | S n', String c s' => String c (slice_to n' s')
  | _, _ => ""
  end.

(** [s[n:]] *)
Fixpoint slice_from (n : nat) (s : string) : string :=
  match n, s with
  | S n', String _ s' => slice_from n' s'
  | _, _ => s
  end.

Fixpoint HasPrefix (s prefix : string) {struct prefix} : bool :=
  match prefix with
  | "" => true
  | String p prefix' =>
      match s with
      | String c s' => Ascii.eqb c p && HasPrefix s' prefix'
      | "" => false
      end
  end.

Definition HasSuffix (s suffix : string) : bool :=
  (String.length suffix <=? String.length s)%nat
  && String.eqb (slice_from (String.length s - String.length suffix) s) suffix.

(** Index of the first instance of [substr] in [s]; [None] is Go's -1. *)
Fixpoint Index (s substr : string) : option nat :=
  if HasPrefix s substr then Some 0%nat
  else match s with
       | "" => None
       | String _ s' => option_map S (Index s' substr)
       end.

(** Index of the last instance of [substr] in [s]. *)
Fixpoint LastIndex (s substr : string) : option nat :=
  match s with
  | "" => if HasPrefix s substr then Some 0%nat else None
  | String _ s' =>
      match LastIndex s' substr with
      | Some i => Some (S i)
      | None => if HasPrefix s substr then Some 0%nat else None
      end
  end.

Definition Contains (s substr : string) : bool :=
  match Index s substr with Some _ => true | None => false end.

(** [strings.Cut]: the text before and after the first [sep]. *)
Definition Cut (s sep : string) : string * string * bool :=
  match Index s sep with
  | Some i => (slice_to i s, slice_from (i + String.length sep) s, true)
  | None => (s, "", false)
  end.

(** [strings.Count] at a separator of one byte. *)
Fixpoint CountByte (s : string) (c : ascii) : nat :=
  match s with
  | "" => 0
  | String a s' => (if Ascii.eqb a c then 1 else 0) + CountByte s' c
  end.

Definition TrimPrefix (s prefix : string) : string :=
  if HasPrefix s prefix then slice_from (String.length prefix) s else s.

Definition TrimSuffix (s suffix : string) : string :=
  if HasSuffix s suffix then slice_to (String.length s - String.length suffix) s else s.

Definition between (lo hi c : ascii) : bool :=
  (N_of_ascii lo <=? N_of_ascii c)%N && (N_of_ascii c <=? N_of_ascii hi)%N.

Definition lower_byte (c : ascii) : ascii :=
  if between "A" "Z" c then ascii_of_N (N_of_ascii c + 32) else c.

(** [strings.ToLower] on a string of ASCII bytes (the only strings it is
    applied to here are URL schemes, which [getScheme] restricts to
    ASCII letters, digits, [+], [-] and [.]). *)
Fixpoint ToLower (s : string) : string :=
  match s with
  | "" => ""
  | String c s' => String (lower_byte c) (ToLower s')
  end.

End strings.

(* ===================================================================== *)
(** ** Package [net/url]: [Parse], [Hostname], [Port] *)
(* ===================================================================== *)

Module url.
Import strings.

Record Userinfo := mkUserinfo
  { username : string; password : string; passwordSet : bool }.

(** [url.URL].  [RawPath] and [RawFragment], the encoding hints that only
    [String] reads, are left out. *)
Record URL := mkURL
  { Scheme : string;
    Opaque : string;
    User : option Userinfo;
    Host : string;
    Path : string;
    OmitHost : bool;
    ForceQuery : bool;
    RawQuery : string;
    Fragment : string }.

Definition withScheme (u : URL) (v : string) : URL :=
  mkURL v (Opaque u) (User u) (Host u) (Path u) (OmitHost u)
        (ForceQuery u) (RawQuery u) (Fragment u).

Inductive err :=
| errorString (msg : string)
| EscapeError (s : string)
| InvalidHostError (s : string)
| invalidPort (colonPort : string).

(** [*url.Error] *)
Record Error := mkError { Op : string; URL_ : string; Err : err }.

Inductive encoding :=
| encodePath | encodePathSegment | encodeHost | encodeZone
| encodeUserPassword | encodeQueryComponent | encodeFragment.

Definition is_encodeHost (m : encoding) : bool :=
  match m with encodeHost => true | _ => false end.
Definition is_encodeZone (m : encoding) : bool :=
  match m with encodeZone => true | _ => false end.
Definition is_encodeQueryComponent (m : encoding) : bool :=
  match m with encodeQueryComponent => true | _ => false end.

Definition ishex (c : ascii) : bool :=
  between "0" "9" c || between "a" "f" c || between "A" "F" c.

Definition unhex (c : ascii) : N :=
  if between "0" "9" c then N_of_ascii c - N_of_ascii "0"
  else if between "a" "f" c then N_of_ascii c - N_of_ascii "a" + 10
  else if between "A" "F" c then N_of_ascii c - N_of_ascii "A" + 10
  else 0.

Fixpoint mem_byte (c : ascii) (s : string) : bool :=
  match s with
  | "" => false
  | String a s' => Ascii.eqb a c || mem_byte c s'
  end.

(** The double-quote byte. *)
Definition dquote : ascii := ascii_of_N 34.

Definition alnum (c : ascii) : bool :=
  between "a" "z" c || between "A" "Z" c || between "0" "9" c.

(** [shouldEscape(c, encodeHost)]: the only mode [unescape] asks about. *)
Definition shouldEscape_host (c : ascii) : bool :=
  if alnum c then false
  else if mem_byte c "!$&'()*+,;=:[]<>" || Ascii.eqb c dquote then false
  else if mem_byte c "-_.~" then false
  else true.

(** First loop of [unescape]: every [%] is followed by two hex digits,
    and the bytes allowed in a host or zone are checked.  [None] when
    the string is well formed. *)
Fixpoint unescape_scan (mode : encoding) (s : string) : option err :=
  match s with
  | "" => None
  | String c rest =>
      if Ascii.eqb c "%" then
        match rest with
        | String h1 (String h2 rest') =>
            if negb (ishex h1) || negb (ishex h2) then
              Some (EscapeError (slice_to 3 s))
            else if is_encodeHost mode && (unhex h1 <? 8)%N
                    && negb (String.eqb (slice_to 3 s) "%25") then
              Some (EscapeError (slice_to 3 s))
            else if is_encodeZone mode
                    && (let v := ascii_of_N (N.lor (N.shiftl (unhex h1) 4) (unhex h2)) in
                        negb (String.eqb (slice_to 3 s) "%25")
                        && negb (Ascii.eqb v " ") && shouldEscape_host v) then
              Some (EscapeError (slice_to 3 s))
            else unescape_scan mode rest'
        | _ => Some (EscapeError (slice_to 3 s))
        end
      else if Ascii.eqb c "+" then unescape_scan mode rest
      else if (is_encodeHost mode || is_encodeZone mode)
              && (N_of_ascii c <? 128)%N && shouldEscape_host c then
        Some (InvalidHostError (String c ""))
      else unescape_scan mode rest
  end.

(** Second loop of [unescape]: the decoded bytes. *)
Fixpoint unescape_build (mode : encoding) (s : string) : string :=
  match s with
  | "" => ""
  | String c rest =>
      if Ascii.eqb c "%" then
        match rest with
        | String h1 (String h2 rest') =>
            String (ascii_of_N (N.lor (N.shiftl (unhex h1) 4) (unhex h2)))
                   (unescape_build mode rest')
        | _ => ""
        end
      else if Ascii.eqb c "+" then
        String (if is_encodeQueryComponent mode then " " else "+")%char
               (unescape_build mode rest)
      else String c (unescape_build mode rest)
  end.

(** [unescape]; the shortcut that returns [s] itself when it holds nothing
    to decode gives the same string as the second loop. *)
Definition unescape (s : string) (mode : encoding) : err + string :=
  match unescape_scan mode s with
  | Some e => inl e
  | None => inr (unescape_build mode s)
  end.

(** [getScheme]: the loop over [rawURL[i]], with [s = rawURL[i:]]. *)
Fixpoint getScheme_loop (rawURL : string) (i : nat) (s : string)
  : err + (string * string) :=
  match s with
  | "" => inr ("", rawURL)
  | String c s' =>
      if between "a" "z" c || between "A" "Z" c then
        getScheme_loop rawURL (S i) s'
      else if between "0" "9" c || Ascii.eqb c "+" || Ascii.eqb c "-"
              || Ascii.eqb c "." then
        if (i =? 0)%nat then inr ("", rawURL)
        else getScheme_loop rawURL (S i) s'
      else if Ascii.eqb c ":" then
        if (i =? 0)%nat then inl (errorString "missing protocol scheme")
        else inr (slice_to i rawURL, slice_from (S i) rawURL)
      else inr ("", rawURL)
  end.

Definition getScheme (rawURL : string) : err + (string * string) :=
  getScheme_loop rawURL 0 rawURL.

Fixpoint stringContainsCTLByte (s : string) : bool :=
  match s with
  | "" => false
  | String b s' =>
      (N_of_ascii b <? N_of_ascii " ")%N || (N_of_ascii b =? 127)%N
      || stringContainsCTLByte s'
  end.

Fixpoint all_digits (s : string) : bool :=
  match s with
  | "" => true
  | String b s' => between "0" "9" b && all_digits s'
  end.

Definition validOptionalPort (port : string) : bool :=
  match port with
  | "" => true
  | String c digits => Ascii.eqb c ":" && all_digits digits
  end.

Fixpoint validUserinfo (s : string) : bool :=
  match s with
  | "" => true
  | String r s' =>
      (alnum r || mem_byte r "-._:~!$&'()*+,;=%@") && validUserinfo s'
  end.

Definition parseHost (host : string) : err + string :=
  let plain := unescape host encodeHost in
  if HasPrefix host "[" then
    match LastIndex host "]" with
    | None => inl (errorString "missing ']' in host")
    | Some i =>
        let colonPort := slice_from (i + 1) host in
        if negb (validOptionalPort colonPort) then inl (invalidPort colonPort)
        else
          match Index (slice_to i host) "%25" with
          | Some zone =>
              host1 <- unescape (slice_to zone host) encodeHost ;;
              host2 <- unescape (slice_to (i - zone) (slice_from zone host)) encodeZone ;;
              host3 <- unescape (slice_from i host) encodeHost ;;
              ret (host1 ++ host2 ++ host3)
          | None => plain
          end
    end
  else
    match LastIndex host ":" with
    | Some i =>
        let colonPort := slice_from i host in
        if negb (validOptionalPort colonPort) then inl (invalidPort colonPort)
        else plain
    | None => plain
    end.

Definition parseAuthority (authority : string)
  : err + (option Userinfo * string) :=
  match LastIndex authority "@" with
  | None =>
      host <- parseHost authority ;;
      ret (None, host)
  | Some i =>
      host <- parseHost (slice_from (i + 1) authority) ;;
      let userinfo := slice_to i authority in
      if negb (validUserinfo userinfo) then
        inl (errorString "net/url: invalid userinfo")
      else if negb (Contains userinfo ":") then
        userinfo <- unescape userinfo encodeUserPassword ;;
        ret (Some (mkUserinfo userinfo "" false), host)
      else
        let '(username, password, _) := Cut userinfo ":" in
        username <- unescape username encodeUserPassword ;;
        password <- unescape password encodeUserPassword ;;
        ret (Some (mkUserinfo username password true), host)
  end.

(** [parse(rawURL, viaRequest)]. *)
Definition parse (rawURL : string) (viaRequest : bool) : err + URL :=
  if stringContainsCTLByte rawURL then
    inl (errorString "net/url: invalid control character in URL")
  else if String.eqb rawURL "" && viaRequest then
    inl (errorString "empty url")
  else if String.eqb rawURL "*" then
    inr (mkURL "" "" None "" "*" false false "" "")
  else
    '(scheme, rest) <- getScheme rawURL ;;
    let scheme := ToLower scheme in
    let '(rest, forceQuery, rawQuery) :=
      if HasSuffix rest "?" && (CountByte rest "?" =? 1)%nat then
        (slice_to (String.length rest - 1) rest, true, "")
      else
        let '(before, after, _) := Cut rest "?" in (before, false, after) in
    if negb (HasPrefix rest "/") && negb (String.eqb scheme "") then
      (* rootless paths are opaque *)
      inr (mkURL scheme rest None "" "" false forceQuery rawQuery "")
    else if negb (HasPrefix rest "/") && viaRequest then
      inl (errorString "invalid URI for request")
    else if negb (HasPrefix rest "/")
            && Contains (fst (fst (Cut rest "/"))) ":" then
      inl (errorString "first path segment in URL cannot contain colon")
    else if (negb (String.eqb scheme "")
             || negb viaRequest && negb (HasPrefix rest "///"))
            && HasPrefix rest "//" then
      let authority := slice_from 2 rest in
      let '(authority, rest) :=
        match Index authority "/" with
        | Some i => (slice_to i authority, slice_from i authority)
        | None => (authority, "")
        end in
      '(user, host) <- parseAuthority authority ;;
      path <- unescape rest encodePath ;;
      ret (mkURL scheme "" user host path false forceQuery rawQuery "")
    else
      let omitHost := negb (String.eqb scheme "") && HasPrefix rest "/" in
      path <- unescape rest encodePath ;;
      ret (mkURL scheme "" None "" path omitHost forceQuery rawQuery "").

Definition setFragment (u : URL) (f : string) : err + URL :=
  frag <- unescape f encodeFragment ;;
  ret (mkURL (Scheme u) (Opaque u) (User u) (Host u) (Path u) (OmitHost u)
             (ForceQuery u) (RawQuery u) frag).

(** [url.Parse] *)
Definition Parse (rawURL : string) : Error + URL :=
  let '(u, frag, _) := Cut rawURL "#" in
  match parse u false with
  | inl e => inl (mkError "parse" u e)
  | inr url =>
      if String.eqb frag "" then inr url
      else match setFragment url frag with
           | inl e => inl (mkError "parse" rawURL e)
           | inr url' => inr url'
           end
  end.

Definition splitHostPort (hostPort : string) : string * string :=
  let host := hostPort in
  let '(host, port) :=
    match LastIndex host ":" with
    | Some colon =>
        if validOptionalPort (slice_from colon host)
        then (slice_to colon host, slice_from (colon + 1) host)
        else (host, "")
    | None => (host, "")
    end in
  let host :=
    if HasPrefix host "[" && HasSuffix host "]"
    then slice_to (String.length host - 2) (slice_from 1 host)
    else host in
  (host, port).

Definition Hostname (u : URL) : string := fst (splitHostPort (Host u)).
Definition Port (u : URL) : string := snd (splitHostPort (Host u)).

End url.

(* ===================================================================== *)
(** ** Package [net]: [SplitHostPort] *)
(* ===================================================================== *)

Module net.
Import strings.

(** [*net.AddrError] *)
Record AddrError := mkAddrError { Err : string; Addr : string }.

Definition missingPort := "missing port in address".
Definition tooManyColons := "too many colons in address".

Definition addrErr {A : Type} (addr why : string) : AddrError + A :=
  inl (mkAddrError why addr).

(** The host together with the offsets [j], [k] from which a stray
    bracket is looked for; [i] is the index of the last colon. *)
Definition splitHost (hostport : string) (i : nat)
  : AddrError + (string * nat * nat) :=
  if HasPrefix hostport "[" then
    (* expect the first ']' just before the last ':' *)
    match Index hostport "]" with
    | None => addrErr hostport "missing ']' in address"
    | Some end_ =>
        if (end_ + 1 =? String.length hostport)%nat then
          addrErr hostport missingPort
        else if (end_ + 1 =? i)%nat then
          inr (slice_to (end_ - 1) (slice_from 1 hostport), 1%nat, (end_ + 1)%nat)
        else if HasPrefix (slice_from (end_ + 1) hostport) ":" then
          addrErr hostport tooManyColons
        else addrErr hostport missingPort
    end
  else
    let host := slice_to i hostport in
    if Contains host ":" then addrErr hostport tooManyColons
    else inr (host, 0%nat, 0%nat).

Definition SplitHostPort (hostport : string)
  : AddrError + (string * string) :=
  match LastIndex hostport ":" with
  | None => addrErr hostport missingPort
  | Some i =>
      match splitHost hostport i with
      | inl e => inl e
      | inr (host, j, k) =>
          if Contains (slice_from j hostport) "[" then
            addrErr hostport "unexpected '[' in address"
          else if Contains (slice_from k hostport) "]" then
            addrErr hostport "unexpected ']' in address"
          else inr (host, slice_from (i + 1) hostport)
      end
  end.

End net.

(* ===================================================================== *)
(** ** Package [internal/errors] *)
(* ===================================================================== *)

(** An error value whose type is declared outside purl (a [*url.Error]
    returned by [client.Do], an [*fs.PathError], the result of
    [fmt.Errorf]): the program only ever reads its [Error()] text and
    asks whether it has a [Timeout() bool] method answering true. *)
Module goerror.
Record t := mk { Error : string; Timeout : option bool }.

(** [fmt.Errorf(prefix + "%w", err)]: a [*fmt.wrapError], which has no
    [Timeout] method of its own. *)
Definition Errorf (prefix : string) (cause : option t) : t :=
  mk (prefix ++ match cause with Some e => Error e | None => "" end) None.
End goerror.

Module errors.

(** The text of [URLParseError.Message]: a literal, or
    [fmt.Sprintf(prefix + "%v", err)] kept with its cause. *)
Inductive message :=
| Text (s : string)
| Sprintf_v (prefix : string) (cause : url.Error).

(** The dynamic types of the error values purl creates. *)
Inductive error :=
| URLParseError (Input : string) (Message : message)
| ConnectionError (Host Port : string) (Cause : goerror.t)
| TimeoutError (Duration : Z) (Phase : string)
| TLSError (Host : string) (Cause : goerror.t)
| UnknownFlagError (Flag : string)
| NoRouteError (Host : string) (Cause : goerror.t)
| foreign (e : goerror.t).

Definition ExitSuccess : Z := 0.
Definition ExitUnknownFlag : Z := 2.
Definition ExitURLParse : Z := 3.
Definition ExitNoRoute : Z := 6.
Definition ExitConnectFailed : Z := 7.
Definition ExitTimeout : Z := 28.
Definition ExitTLSError : Z := 35.

Definition MapErrorToExitCode (err : option error) : Z :=
  match err with
  | None => ExitSuccess
  | Some (URLParseError _ _) => ExitURLParse
  | Some (UnknownFlagError _) => ExitUnknownFlag
  | Some (NoRouteError _ _) => ExitNoRoute
  | Some (ConnectionError _ _ _) => ExitConnectFailed
  | Some (TimeoutError _ _) => ExitTimeout
  | Some (TLSError _ _) => ExitTLSError
  | Some (foreign _) => ExitConnectFailed
  end.

End errors.

(* ===================================================================== *)
(** ** Package [internal/target] *)
(* ===================================================================== *)

Module target.
Import strings.

(** [URL] is a pointer: [None] is nil.  [ParseTarget] never returns a nil
    [URL]; the tests of [NewTransport] build targets that have none. *)
Record ParsedTarget := mkParsedTarget
  { URL : option url.URL;
    IsIP : bool;
    HasExplicitProto : bool;
    OriginalInput : string }.

Section WithParseIP.

(** [net.ParseIP(s) != nil]: whether the text is an IPv4 or IPv6
    literal.  The address grammar is the standard library's. *)
Variable net_ParseIP_ok : string -> bool.

Definition isIPAddress (host : string) : bool :=
  let testHost := TrimPrefix (TrimSuffix host "]") "[" in
  net_ParseIP_ok testHost.

Definition ParseTarget (input : string) : errors.error + ParsedTarget :=
  if String.eqb input "" then
    inl (errors.URLParseError input (errors.Text "target cannot be empty"))
  else if Contains input "://" then
    (* the input already has a scheme *)
    match url.Parse input with
    | inl err =>
        inl (errors.URLParseError input (errors.Sprintf_v "invalid URL: " err))
    | inr parsedURL =>
        if String.eqb (url.Host parsedURL) "" then
          inl (errors.URLParseError input (errors.Text "URL must contain a host"))
        else
          inr (mkParsedTarget (Some parsedURL)
                              (isIPAddress (url.Hostname parsedURL))
                              true input)
    end
  else
    let '(hostPort, path) :=
      match Index input "/" with
      | Some slashIdx => (slice_to slashIdx input, slice_from slashIdx input)
      | None => (input, "/")
      end in
    let '(host, port) :=
      match net.SplitHostPort hostPort with
      | inr hp => hp
      | inl _ => (hostPort, "")
      end in
    if String.eqb host "" then
      inl (errors.URLParseError input (errors.Text "target must contain a host"))
    else
      let urlStr :=
        if negb (String.eqb port "")
        then "http://" ++ host ++ ":" ++ port ++ path
        else "http://" ++ host ++ path in
      match url.Parse urlStr with
      | inl err =>
          inl (errors.URLParseError input
                 (errors.Sprintf_v "invalid target format: " err))
      | inr parsedURL =>
          inr (mkParsedTarget (Some parsedURL) (isIPAddress host) false input)
      end.

End WithParseIP.

End target.

(* ===================================================================== *)
(** ** Package [internal/cli]: the options record *)
(* ===================================================================== *)

Module cli.

Record Options := mkOptions
  { Target : string;
    Proto : string;
    Method : string;
    Headers : list string;
    Data : string;
    DataRaw : string;
    User : string;
    Cookie : string;
    UserAgent : string;
    Referer : string;
    Verbose : bool;
    VerboseTLS : bool;
    Output : string;
    Head : bool;
    JSON : bool;
    Insecure : bool;
    CACert : string;
    Cert : string;
    Key : string;
    StrictSSL : bool;
    Timeout : Z;            (* time.Duration, in nanoseconds *)
    ConnectTimeout : Z }.

(** [probeOpts := *opts; probeOpts.Timeout = t; probeOpts.ConnectTimeout = c] *)
Definition withTimeouts (o : Options) (t c : Z) : Options :=
  mkOptions (Target o) (Proto o) (Method o) (Headers o) (Data o) (DataRaw o)
            (User o) (Cookie o) (UserAgent o) (Referer o) (Verbose o)
            (VerboseTLS o) (Output o) (Head o) (JSON o) (Insecure o)
            (CACert o) (Cert o) (Key o) (StrictSSL o) t c.

End cli.

Module time.
Definition Nanosecond : Z := 1.
Definition Millisecond : Z := 1000000.
Definition Second : Z := 1000000000.
End time.

(* ===================================================================== *)
(** ** Package [internal/transport] *)
(* ===================================================================== *)

Module transport.

(** [tls.Certificate]: the chain and the private key of a loaded pair. *)
Record Certificate := mkCertificate
  { Chain : list string; PrivateKey : string }.

(** [tls.Config], the fields [NewTransport] sets.  A certificate pool
    built by [NewCertPool] and one [AppendCertsFromPEM] is identified
    with the PEM data it was filled from. *)
Record tls_Config := mkConfig
  { InsecureSkipVerify : bool;
    RootCAs : option string;
    Certificates : list Certificate }.

(** [http.Transport], the fields [NewTransport] sets. *)
Record Transport := mkTransport
  { DialTimeout : Z;
    TLSHandshakeTimeout : Z;
    TLSClientConfig : tls_Config }.

(** The files the process can see. *)
Record Files := mkFiles
  { os_ReadFile : string -> goerror.t + string;
    (** [x509.NewCertPool().AppendCertsFromPEM(pem)] *)
    AppendCertsFromPEM : string -> bool;
    tls_LoadX509KeyPair : string -> string -> goerror.t + Certificate }.

Section WithFiles.
Variable fs : Files.

Definition NewTransport (opts : cli.Options) (parsedTarget : target.ParsedTarget)
  : errors.error + Transport :=
  (* InsecureSkipVerify from the target type and the flags *)
  let insecureSkipVerify :=
    if target.IsIP parsedTarget && negb (cli.StrictSSL opts) then true
    else if cli.Insecure opts then true
    else false in
  (* the host for the error messages; [parsedTarget] itself has been
     dereferenced above, only its URL can still be nil *)
  let host :=
    match target.URL parsedTarget with
    | Some u => url.Host u
    | None => "unknown"
    end in
  (* CA certificate *)
  rootCAs <-
    (if negb (String.eqb (cli.CACert opts) "") then
       match os_ReadFile fs (cli.CACert opts) with
       | inl err =>
           inl (errors.TLSError host
                  (goerror.Errorf "failed to read CA certificate: " (Some err)))
       | inr caCert =>
           if negb (AppendCertsFromPEM fs caCert) then
             inl (errors.TLSError host
                    (goerror.Errorf "failed to parse CA certificate" None))
           else inr (Some caCert)
       end
     else inr None) ;;
  (* client certificate and key *)
  certificates <-
    (if negb (String.eqb (cli.Cert opts) "") && negb (String.eqb (cli.Key opts) "") then
       match tls_LoadX509KeyPair fs (cli.Cert opts) (cli.Key opts) with
       | inl err =>
           inl (errors.TLSError host
                  (goerror.Errorf "failed to load client certificate: " (Some err)))
       | inr cert => inr [cert]
       end
     else if negb (String.eqb (cli.Cert opts) "") then
       inl (errors.TLSError host
              (goerror.Errorf "--cert requires --key to be specified" None))
     else if negb (String.eqb (cli.Key opts) "") then
       inl (errors.TLSError host
              (goerror.Errorf "--key requires --cert to be specified" None))
     else inr []) ;;
  ret (mkTransport (cli.ConnectTimeout opts) (cli.ConnectTimeout opts)
                   (mkConfig insecureSkipVerify rootCAs certificates)).

End WithFiles.

Definition ApplyTimeouts (opts : cli.Options) : Z :=
  if (cli.Timeout opts >? 0)%Z then cli.Timeout opts
  else (10 * time.Second)%Z.

Definition GetConnectTimeout (opts : cli.Options) : Z :=
  if (cli.ConnectTimeout opts >? 0)%Z then cli.ConnectTimeout opts
  else (10 * time.Second)%Z.

End transport.

(* ===================================================================== *)
(** ** Package [net/http] as the detector uses it *)
(* ===================================================================== *)

Module http.

(** [http.Header]: the values set under each key. *)
Definition Header := list (string * string).

(** The request built by [http.NewRequestWithContext(ctx, method, url, body)];
    [Deadline] is the timeout of [ctx]. *)
Record Request := mkRequest
  { Method : string;
    URL : string;
    Deadline : Z;
    Headers : Header;
    Body_ : option string }.

Record Client := mkClient
  { Transport : transport.Transport; Timeout : Z }.

(** [*http.Response]: the status code and the handle of the open body. *)
Record Response := mkResponse { StatusCode : Z; Body : nat }.

(** One call of [client.Do]. *)
Record Exchange := mkExchange { client : Client; req : Request }.

(** What the network answers to one call of [client.Do]: the time it
    took and a transport error or the status code of the response. *)
Record Answer := mkAnswer { took : Z; result : goerror.t + Z }.

(** Everything outside the process that the detector talks to. *)
Record Network := mkNetwork
  { (** the answer to a call, given the calls made before it *)
    answer : list Exchange -> Exchange -> Answer;
    (** the error of [http.NewRequestWithContext(ctx, method, url, nil)] *)
    NewRequest_err : string -> string -> option goerror.t;
    (** what the [String] method of a URL writes after the scheme *)
    url_tail : url.URL -> string }.

(** The state the calls act on: the clock, the calls made so far in
    order, the response bodies opened and not yet closed, and the errors
    printed on the standard error stream. *)
Record World := mkWorld
  { now : Z;
    sent : list Exchange;
    open_bodies : list nat;
    printed : list errors.error }.

(** A run-time panic ends the program. *)
Inductive panic := nil_pointer_dereference.

(** A computation of the program: from a world, a panic or a value and
    the world it leaves. *)
Definition io : Type -> Type := stateT World (sum panic).

#[local] Existing Instance Monad_stateT.

Section WithNetwork.
Variable nw : Network.

(** The [String] method of a URL: the scheme and a colon when the scheme is
    set, then the rest of the serialisation. *)
Definition URL_String (u : url.URL) : string :=
  (if negb (String.eqb (url.Scheme u) "") then url.Scheme u ++ ":" else "")
  ++ url_tail nw u.

Definition NewRequestWithContext (deadline : Z) (method url_ : string)
           (body : option string) : goerror.t + Request :=
  match NewRequest_err nw method url_ with
  | Some err => inl err
  | None => inr (mkRequest method url_ deadline [] body)
  end.

Definition time_Now : io Z :=
  w <- get ;; ret (now w).

Definition time_Since (start : Z) : io Z :=
  w <- get ;; ret (now w - start)%Z.

(** [client.Do(req)]: the call is recorded, the clock advances, and a
    response comes with a freshly opened body. *)
Definition Client_Do (client : Client) (r : Request)
  : io (goerror.t + Response) :=
  w <- get ;;
  let x := mkExchange client r in
  let a := answer nw (sent w) x in
  match result a with
  | inl err =>
      put (mkWorld (now w + took a) (sent w ++ [x]) (open_bodies w) (printed w)) ;;
      ret (inl err)
  | inr status =>
      let body := List.length (sent w) in
      put (mkWorld (now w + took a) (sent w ++ [x]) (body :: open_bodies w)
                   (printed w)) ;;
      ret (inr (mkResponse status body))
  end.

(** [resp.Body.Close()] *)
Definition Body_Close (resp : Response) : io unit :=
  w <- get ;;
  put (mkWorld (now w) (sent w)
         (List.filter (fun h => negb (Nat.eqb h (Body resp))) (open_bodies w))
         (printed w)).

End WithNetwork.

End http.

(* ===================================================================== *)
(** ** Package [internal/protocol] *)
(* ===================================================================== *)

Module protocol.

Record ProbeResult := mkProbeResult
  { Protocol : string;
    StatusCode : Z;
    Duration : Z;
    Response : option http.Response;
    Error : option errors.error }.

(** [contains], as written. *)
Definition contains (s substr : string) : bool :=
  (String.length substr <=? String.length s)%nat
  && (String.eqb s substr
      || (String.length substr =? 0)%nat
      || ((0 <? String.length s)%nat && (0 <? String.length substr)%nat)).

Definition reports_timeout (err : goerror.t) : bool :=
  match goerror.Timeout err with
  | Some b => b
  | None => false
  end.

(** [mapProbeError]; [None] is a nil [parsedTarget]. *)
Definition mapProbeError (err : option goerror.t)
           (parsedTarget : option target.ParsedTarget) : option errors.error :=
  match err with
  | None => None
  | Some err =>
      let errStr := goerror.Error err in
      if reports_timeout err then
        Some (errors.TimeoutError 0 "request")
      else
        let default := Some (errors.ConnectionError "unknown" "unknown" err) in
        match parsedTarget with
        | Some (target.mkParsedTarget (Some URL) _ _ _) =>
            let host := url.Hostname URL in
            if negb (String.eqb host "") then
              if contains errStr "connection refused" then
                Some (errors.ConnectionError host (url.Port URL) err)
              else if contains errStr "no such host"
                      || contains errStr "name resolution" then
                Some (errors.NoRouteError host err)
              else if contains errStr "certificate" || contains errStr "tls"
                      || contains errStr "ssl" then
                Some (errors.TLSError host err)
              else default
            else default
        | _ => default
        end
  end.

#[local] Existing Instance Monad_stateT.

Section WithWorld.
Variable fs : transport.Files.
Variable nw : http.Network.

(** [constructURL]: copying the URL dereferences the pointer. *)
Definition constructURL (parsedTarget : target.ParsedTarget) (proto : string)
  : http.io string :=
  match target.URL parsedTarget with
  | None => raise http.nil_pointer_dereference
  | Some u =>
      let probeURL := url.withScheme u proto in
      ret (http.URL_String nw probeURL)
  end.

Definition probeProtocolWithTimeout
           (parsedTarget : target.ParsedTarget) (opts : cli.Options)
           (proto : string) (timeout : Z) : http.io ProbeResult :=
  let probeOpts := cli.withTimeouts opts timeout timeout in
  match transport.NewTransport fs probeOpts parsedTarget with
  | inl err => ret (mkProbeResult proto 0 0 None (Some err))
  | inr tr =>
      let client := http.mkClient tr timeout in
      probeURL <- constructURL parsedTarget proto ;;
      (* a HEAD request as a lightweight probe *)
      match http.NewRequestWithContext nw timeout "HEAD" probeURL None with
      | inl err =>
          ret (mkProbeResult proto 0 0 None
                 (Some (errors.foreign
                          (goerror.Errorf "failed to create request: " (Some err)))))
      | inr req =>
          startTime <- http.time_Now ;;
          r <- http.Client_Do nw client req ;;
          duration <- http.time_Since startTime ;;
          match r with
          | inl err =>
              ret (mkProbeResult proto 0 duration None
                     (mapProbeError (Some err) (Some parsedTarget)))
          | inr resp =>
              ret (mkProbeResult proto (http.StatusCode resp) duration
                     (Some resp) None)
          end
      end
  end.

Definition probeProtocol (parsedTarget : target.ParsedTarget)
           (opts : cli.Options) (proto : string) : http.io ProbeResult :=
  let timeout := transport.ApplyTimeouts opts in
  probeProtocolWithTimeout parsedTarget opts proto timeout.

Definition isNil {A : Type} (e : option A) : bool :=
  match e with None => true | Some _ => false end.

(** [DetectProtocol]: the result and the returned [error]. *)
Definition DetectProtocol (parsedTarget : target.ParsedTarget) (opts : cli.Options)
  : http.io (ProbeResult * option errors.error) :=
  if negb (String.eqb (cli.Proto opts) "")
     && negb (String.eqb (cli.Proto opts) "auto") then
    (* the protocol is given: use it directly *)
    result <- probeProtocol parsedTarget opts (cli.Proto opts) ;;
    ret (result, Error result)
  else
    (* auto mode: HTTP first, then HTTPS *)
    httpResult <- probeProtocolWithTimeout parsedTarget opts "http" (3 * time.Second) ;;
    if isNil (Error httpResult)
       && (StatusCode httpResult >=? 200)%Z && (StatusCode httpResult <? 400)%Z then
      ret (httpResult, None)
    else
      httpsResult <- probeProtocolWithTimeout parsedTarget opts "https" (7 * time.Second) ;;
      if isNil (Error httpsResult) then
        ret (httpsResult, None)
      else
        (* both failed: the HTTPS result with its error *)
        ret (httpsResult, None).

End WithWorld.

End protocol.

(* ===================================================================== *)
(** ** Package [internal/request] *)
(* ===================================================================== *)

Module request.
Import strings.

(** The pure library functions [BuildRequest] calls on header text. *)
Record Text := mkText
  { strings_TrimSpace : string -> string;
    textproto_CanonicalMIMEHeaderKey : string -> string;
    base64_EncodeToString : string -> string }.

#[local] Existing Instance Monad_stateT.

Section WithText.
Variable tx : Text.
Variable nw : http.Network.

(** [req.Header.Set(name, value)]: the values under the canonical key are
    replaced. *)
Definition Header_Set (r : http.Request) (name value : string) : http.Request :=
  let key := textproto_CanonicalMIMEHeaderKey tx name in
  http.mkRequest (http.Method r) (http.URL r) (http.Deadline r)
    ((key, value)
       :: List.filter (fun kv => negb (String.eqb (fst kv) key)) (http.Headers r))
    (http.Body_ r).

Definition addBasicAuth (r : http.Request) (user : string) : http.Request :=
  let encoded := base64_EncodeToString tx user in
  Header_Set r "Authorization" ("Basic " ++ encoded).

(** One turn of the loop over the [-H] flags: [strings.SplitN(header, ":", 2)]
    has two parts exactly when the header holds a colon. *)
Definition add_header (r : http.Request) (header : string) : http.Request :=
  match Cut header ":" with
  | (name, value, true) =>
      Header_Set r (strings_TrimSpace tx name) (strings_TrimSpace tx value)
  | _ => r
  end.

(** [BuildRequest(ctx, parsedTarget, opts)]; [deadline] is the timeout of
    [ctx]. *)
Definition BuildRequest (deadline : Z) (parsedTarget : target.ParsedTarget)
           (opts : cli.Options) : http.io (errors.error + http.Request) :=
  let method :=
    if String.eqb (cli.Method opts) "" then
      if negb (String.eqb (cli.Data opts) "") || negb (String.eqb (cli.DataRaw opts) "")
      then "POST"
      else if cli.Head opts then "HEAD"
      else "GET"
    else cli.Method opts in
  let body :=
    if negb (String.eqb (cli.DataRaw opts) "") then Some (cli.DataRaw opts)
    else if negb (String.eqb (cli.Data opts) "") then Some (cli.Data opts)
    else None in
  match target.URL parsedTarget with
  | None => raise http.nil_pointer_dereference
  | Some u =>
      match http.NewRequestWithContext nw deadline method (http.URL_String nw u) body with
      | inl err =>
          ret (inl (errors.foreign
                      (goerror.Errorf "failed to create request: " (Some err))))
      | inr req =>
          let req := List.fold_left add_header (cli.Headers opts) req in
          let req :=
            if negb (String.eqb (cli.User opts) "")
            then addBasicAuth req (cli.User opts) else req in
          let req :=
            if negb (String.eqb (cli.Cookie opts) "")
            then Header_Set req "Cookie" (cli.Cookie opts) else req in
          let req :=
            if negb (String.eqb (cli.UserAgent opts) "")
            then Header_Set req "User-Agent" (cli.UserAgent opts) else req in
          let req :=
            if negb (String.eqb (cli.Referer opts) "")
            then Header_Set req "Referer" (cli.Referer opts) else req in
          let req :=
            if cli.JSON opts
            then Header_Set (Header_Set req "Content-Type" "application/json")
                            "Accept" "application/json"
            else req in
          ret (inr req)
      end
  end.

End WithText.

End request.

(* ===================================================================== *)
(** ** The command: [run] *)
(* ===================================================================== *)

Module main.

#[local] Existing Instance Monad_stateT.

Section WithEnvironment.
Variable net_ParseIP_ok : string -> bool.
Variable fs : transport.Files.
Variable nw : http.Network.
Variable tx : request.Text.

(** The error of [output.NewHandler(opts).WriteResponse(req, result)], the
    output stage: it prints the status line and copies the body of the
    response it is given; it opens and closes no response body. *)
Variable WriteResponse_err :
  cli.Options -> http.Request -> protocol.ProbeResult -> option goerror.t.

Definition printError (err : option errors.error) : http.io unit :=
  match err with
  | Some e =>
      w <- get ;;
      put (http.mkWorld (http.now w) (http.sent w) (http.open_bodies w)
                        (http.printed w ++ [e]))
  | None => ret tt
  end.

(** [run(opts)]: the exit code. *)
Definition run (opts : cli.Options) : http.io Z :=
  (* Step 1: parse the target *)
  match target.ParseTarget net_ParseIP_ok (cli.Target opts) with
  | inl err =>
      printError (Some err) ;; ret (errors.MapErrorToExitCode (Some err))
  | inr parsedTarget =>
      (* Step 2: detect the protocol *)
      '(probeResult, err) <- protocol.DetectProtocol fs nw parsedTarget opts ;;
      if negb (protocol.isNil err) then
        printError err ;; ret (errors.MapErrorToExitCode err)
      else if negb (protocol.isNil (protocol.Error probeResult)) then
        printError (protocol.Error probeResult) ;;
        ret (errors.MapErrorToExitCode (protocol.Error probeResult))
      else
        (* Step 3: parsedTarget.URL.Scheme = probeResult.Protocol *)
        match target.URL parsedTarget with
        | None => raise http.nil_pointer_dereference
        | Some u =>
            let parsedTarget :=
              target.mkParsedTarget
                (Some (url.withScheme u (protocol.Protocol probeResult)))
                (target.IsIP parsedTarget) (target.HasExplicitProto parsedTarget)
                (target.OriginalInput parsedTarget) in
            (* Step 4: build the actual request *)
            built <- request.BuildRequest tx nw (transport.ApplyTimeouts opts)
                                          parsedTarget opts ;;
            match built with
            | inl err =>
                printError (Some err) ;; ret (errors.MapErrorToExitCode (Some err))
            | inr req =>
                (* Step 5: transport, client, request *)
                match transport.NewTransport fs opts parsedTarget with
                | inl err =>
                    printError (Some err) ;;
                    ret (errors.MapErrorToExitCode (Some err))
                | inr tr =>
                    let client := http.mkClient tr (transport.ApplyTimeouts opts) in
                    r <- http.Client_Do nw client req ;;
                    match r with
                    | inl err =>
                        printError (Some (errors.foreign err)) ;;
                        ret (errors.MapErrorToExitCode (Some (errors.foreign err)))
                    | inr resp =>
                        (* the probe result now carries the actual response *)
                        let probeResult :=
                          protocol.mkProbeResult
                            (protocol.Protocol probeResult) (http.StatusCode resp)
                            (protocol.Duration probeResult) (Some resp)
                            (protocol.Error probeResult) in
                        (* Step 6: output *)
                        code <-
                          match WriteResponse_err opts req probeResult with
                          | Some err =>
                              printError (Some (errors.foreign err)) ;;
                              ret errors.ExitConnectFailed
                          | None => ret errors.ExitSuccess
                          end ;;
                        (* defer resp.Body.Close() *)
                        http.Body_Close resp ;;
                        ret code
                    end
                end
            end
        end
  end.

End WithEnvironment.

End main.

(* ===================================================================== *)
(** ** Vocabulary of the statements about the normaliser *)
(* ===================================================================== *)

Module scheme.

Fixpoint all_bytes (p : ascii -> bool) (s : string) : bool :=
  match s with
  | "" => true
  | String c s' => p c && all_bytes p s'
  end.

Definition letter (c : ascii) : bool :=
  strings.between "a" "z" c || strings.between "A" "Z" c.

(** The bytes a scheme may hold after its first letter. *)
Definition scheme_byte (c : ascii) : bool :=
  letter c
  || (strings.between "0" "9" c || Ascii.eqb c "+" || Ascii.eqb c "-"
      || Ascii.eqb c ".").

(** A scheme as RFC 3986 writes it: a letter, then letters, digits, plus,
    minus and dot. *)
Definition well_formed (s : string) : bool :=
  match s with
  | "" => false
  | String c s' => letter c && all_bytes scheme_byte s'
  end.

Definition lower_case (s : string) : bool :=
  all_bytes (fun c => negb (strings.between "A" "Z" c)) s.

End scheme.

(* ===================================================================== *)
(** ** Vocabulary of the statements about the prober *)
(* ===================================================================== *)

Module prober.

(** The test under which the HTTP result of auto mode is final. *)
Definition accepted (r : protocol.ProbeResult) : Prop :=
  protocol.Error r = None
  /\ (200 <= protocol.StatusCode r)%Z /\ (protocol.StatusCode r < 400)%Z.

(** A call of [client.Do] that is a probe of [proto] bounded by [timeout]:
    a HEAD request to a URL of that scheme, with the timeout as deadline of
    the context, of the client, of the dial and of the TLS handshake. *)
Definition head_probe (proto : string) (timeout : Z) (x : http.Exchange) : Prop :=
  http.Method (http.req x) = "HEAD"
  /\ strings.HasPrefix (http.URL (http.req x)) (proto ++ ":") = true
  /\ http.Deadline (http.req x) = timeout
  /\ http.Timeout (http.client x) = timeout
  /\ transport.DialTimeout (http.Transport (http.client x)) = timeout
  /\ transport.TLSHandshakeTimeout (http.Transport (http.client x)) = timeout.

(** Between [w] and [w'] the network saw one attempt on [proto]: at most
    one call, and that call a probe of [proto]. *)
Definition one_attempt (proto : string) (timeout : Z) (w w' : http.World) : Prop :=
  exists calls,
    http.sent w' = (http.sent w ++ calls)%list
    /\ (List.length calls <= 1)%nat
    /\ Forall (head_probe proto timeout) calls.

(** Every open body was opened by one of the calls made so far: a handle
    is the position of its call in [sent]. *)
Definition handles_fresh (w : http.World) : Prop :=
  Forall (fun h => (h < List.length (http.sent w))%nat) (http.open_bodies w).

End prober.

(* ===================================================================== *)
(** ** Concrete environments and inputs used in the examples *)
(* ===================================================================== *)

Module fixtures.

(** What [cli.ParseArgs] starts from: automatic detection, ten seconds. *)
Definition default_opts : cli.Options :=
  cli.mkOptions "" "auto" "" [] "" "" "" "" "" "" false false "" false false
                false "" "" "" false (10 * time.Second) 0.

Definition with_proto (o : cli.Options) (proto : string) : cli.Options :=
  cli.mkOptions (cli.Target o) proto (cli.Method o) (cli.Headers o) (cli.Data o)
    (cli.DataRaw o) (cli.User o) (cli.Cookie o) (cli.UserAgent o) (cli.Referer o)
    (cli.Verbose o) (cli.VerboseTLS o) (cli.Output o) (cli.Head o) (cli.JSON o)
    (cli.Insecure o) (cli.CACert o) (cli.Cert o) (cli.Key o) (cli.StrictSSL o)
    (cli.Timeout o) (cli.ConnectTimeout o).

Definition with_target (o : cli.Options) (target_ : string) : cli.Options :=
  cli.mkOptions target_ (cli.Proto o) (cli.Method o) (cli.Headers o) (cli.Data o)
    (cli.DataRaw o) (cli.User o) (cli.Cookie o) (cli.UserAgent o) (cli.Referer o)
    (cli.Verbose o) (cli.VerboseTLS o) (cli.Output o) (cli.Head o) (cli.JSON o)
    (cli.Insecure o) (cli.CACert o) (cli.Cert o) (cli.Key o) (cli.StrictSSL o)
    (cli.Timeout o) (cli.ConnectTimeout o).

Definition with_tls (o : cli.Options) (insecure strict : bool)
           (cacert cert key : string) : cli.Options :=
  cli.mkOptions (cli.Target o) (cli.Proto o) (cli.Method o) (cli.Headers o) (cli.Data o)
    (cli.DataRaw o) (cli.User o) (cli.Cookie o) (cli.UserAgent o) (cli.Referer o)
    (cli.Verbose o) (cli.VerboseTLS o) (cli.Output o) (cli.Head o) (cli.JSON o)
    insecure cacert cert key strict
    (cli.Timeout o) (cli.ConnectTimeout o).

(** A file system holding no file at all. *)
Definition no_files : transport.Files :=
  transport.mkFiles
    (fun name => inl (goerror.mk ("open " ++ name ++ ": no such file or directory") None))
    (fun _ => false)
    (fun cert _ => inl (goerror.mk ("open " ++ cert ++ ": no such file or directory") None)).

(** A file system with one client certificate and its key. *)
Definition client_pair : transport.Certificate :=
  transport.mkCertificate ["client-der"] "client-key".

Definition pair_files : transport.Files :=
  transport.mkFiles
    (fun name => inl (goerror.mk ("open " ++ name ++ ": no such file or directory") None))
    (fun _ => false)
    (fun cert key =>
       if String.eqb cert "client.pem" && String.eqb key "client.key"
       then inr client_pair
       else inl (goerror.mk ("open " ++ cert ++ ": no such file or directory") None)).

(** The endpoint [10.0.0.1:443], an IP literal. *)
Definition ip_target : target.ParsedTarget :=
  target.mkParsedTarget
    (Some (url.mkURL "http" "" None "10.0.0.1:443" "/" false false "" ""))
    true false "10.0.0.1:443".

(** The endpoint [example.invalid:80], a host name. *)
Definition name_target : target.ParsedTarget :=
  target.mkParsedTarget
    (Some (url.mkURL "http" "" None "example.invalid:80" "/" false false "" ""))
    false false "example.invalid:80".

(** The error of a failed name lookup, as [client.Do] reports it. *)
Definition no_such_host_error : goerror.t :=
  goerror.mk "dial tcp: lookup example.invalid: no such host" (Some false).

(** An expired certificate, as [client.Do] reports it. *)
Definition certificate_error : goerror.t :=
  goerror.mk "x509: certificate has expired or is not yet valid" (Some false).

(** A refused connection. *)
Definition refused_error : goerror.t :=
  goerror.mk "dial tcp 10.0.0.1:443: connect: connection refused" (Some false).

(** What [String] writes after the scheme of a URL that has only a host
    and a path. *)
Definition plain_tail (u : url.URL) : string :=
  "//" ++ url.Host u ++ url.Path u.

Definition is_http (x : http.Exchange) : bool :=
  strings.HasPrefix (http.URL (http.req x)) "http:".

(** A server that speaks plain HTTP only and has no such page: 404 over
    HTTP after 5 ms, nothing listening for HTTPS. *)
Definition http_404_only : http.Network :=
  http.mkNetwork
    (fun _ x =>
       if is_http x then http.mkAnswer (5 * time.Millisecond) (inr 404%Z)
       else http.mkAnswer time.Millisecond (inl refused_error))
    (fun _ _ => None)
    plain_tail.

(** A server that answers 200 over plain HTTP. *)
Definition http_200_only : http.Network :=
  http.mkNetwork
    (fun _ x =>
       if is_http x then http.mkAnswer (5 * time.Millisecond) (inr 200%Z)
       else http.mkAnswer time.Millisecond (inl refused_error))
    (fun _ _ => None)
    plain_tail.

(** Nothing listens at all. *)
Definition unreachable : http.Network :=
  http.mkNetwork
    (fun _ _ => http.mkAnswer time.Millisecond (inl refused_error))
    (fun _ _ => None)
    plain_tail.

(** A field of the URL of a parsed target, when there is one. *)
Definition field {A : Type} (f : url.URL -> A)
           (r : errors.error + target.ParsedTarget) : option A :=
  match r with
  | inr t => option_map f (target.URL t)
  | inl _ => None
  end.

Definition rejected (r : errors.error + target.ParsedTarget) : bool :=
  match r with
  | inl (errors.URLParseError _ _) => true
  | _ => false
  end.

(** The world before the first call. *)
Definition start : http.World := http.mkWorld 0 [] [] [].

(** The endpoint of the input [https://example.com/], as [ParseTarget]
    returns it: the scheme is explicit. *)
Definition explicit_https_target : target.ParsedTarget :=
  target.mkParsedTarget
    (Some (url.mkURL "https" "" None "example.com" "/" false false "" ""))
    false true "https://example.com/".

End fixtures.

(* ===================================================================== *)
(** ** Vocabulary of the statements about plain inputs *)
(* ===================================================================== *)

Module shape.

Definition all_bool (f : bool -> bool) : bool := f true && f false.

(** [P] holds of each of the 256 bytes. *)
Definition all_ascii (P : ascii -> bool) : bool :=
  all_bool (fun b0 => all_bool (fun b1 => all_bool (fun b2 => all_bool (fun b3 =>
  all_bool (fun b4 => all_bool (fun b5 => all_bool (fun b6 => all_bool (fun b7 =>
    P (Ascii b0 b1 b2 b3 b4 b5 b6 b7))))))))).

(** No byte of [s] is [c]. *)
Definition without (c : ascii) (s : string) : bool :=
  scheme.all_bytes (fun x => negb (Ascii.eqb x c)) s.

(** The bytes of a host name: letters, digits, minus and dot. *)
Definition host_byte (c : ascii) : bool :=
  url.alnum c || Ascii.eqb c "-" || Ascii.eqb c ".".

(** The bytes of a path that needs no escaping. *)
Definition path_byte (c : ascii) : bool :=
  url.alnum c || url.mem_byte c "/-_.~".

Definition hostname (s : string) : bool :=
  negb (String.eqb s "") && scheme.all_bytes host_byte s.

Definition port (s : string) : bool :=
  negb (String.eqb s "") && url.all_digits s.

(** A path: a slash, then bytes that need no escaping. *)
Definition path (s : string) : bool :=
  strings.HasPrefix s "/" && scheme.all_bytes path_byte s.

(** A path or nothing. *)
Definition opt_path (s : string) : bool := String.eqb s "" || path s.

(** Above the control bytes, and not DEL. *)
Definition visible (c : ascii) : bool :=
  negb ((N_of_ascii c <? N_of_ascii " ")%N || (N_of_ascii c =? 127)%N).

(** A byte that [unescape] copies as it is, in the given mode. *)
Definition literal (mode : url.encoding) (c : ascii) : bool :=
  negb (Ascii.eqb c "%") && negb (Ascii.eqb c "+")
  && negb ((url.is_encodeHost mode || url.is_encodeZone mode)
           && (N_of_ascii c <? 128)%N && url.shouldEscape_host c).

(** The bytes of a host with its port. *)
Definition authority_byte (c : ascii) : bool :=
  host_byte c || Ascii.eqb c ":".

(** The bytes of a query that needs no escaping. *)
Definition query_byte (c : ascii) : bool :=
  path_byte c || Ascii.eqb c "=" || Ascii.eqb c "&".

(** A query: at least one byte. *)
Definition query (s : string) : bool :=
  negb (String.eqb s "") && scheme.all_bytes query_byte s.

(** The bytes of an authority that may hold an IP literal in brackets. *)
Definition netloc_byte (c : ascii) : bool :=
  authority_byte c || Ascii.eqb c "[" || Ascii.eqb c "]".

(** The bytes of an IPv6 literal: hexadecimal digits, colons and dots. *)
Definition ip6_byte (c : ascii) : bool :=
  url.ishex c || Ascii.eqb c ":" || Ascii.eqb c ".".

(** An IP literal as it is written between brackets. *)
Definition ip6 (s : string) : bool :=
  negb (String.eqb s "") && scheme.all_bytes ip6_byte s.

(** The bytes of the plain URLs the round trips are about. *)
Definition plain_byte (c : ascii) : bool :=
  scheme.scheme_byte c || netloc_byte c || path_byte c || query_byte c
  || Ascii.eqb c "?".

End shape.

(* ===================================================================== *)
(** ** Vocabulary of the statements about results and worlds *)
(* ===================================================================== *)

Module attempt.

(** The result reports a response: no error, the status of the response,
    and a body that the last call of [w] opened and that is still open. *)
Definition answered (r : protocol.ProbeResult) (w : http.World) : Prop :=
  exists resp,
    protocol.Response r = Some resp
    /\ protocol.Error r = None
    /\ protocol.StatusCode r = http.StatusCode resp
    /\ S (http.Body resp) = List.length (http.sent w)
    /\ In (http.Body resp) (http.open_bodies w).

(** The result reports an error: no response and the status zero. *)
Definition failed (r : protocol.ProbeResult) : Prop :=
  exists e,
    protocol.Error r = Some e
    /\ protocol.Response r = None
    /\ protocol.StatusCode r = 0%Z.

(** The world [w] after [e] has been printed. *)
Definition printing (e : errors.error) (w : http.World) : http.World :=
  http.mkWorld (http.now w) (http.sent w) (http.open_bodies w)
               (http.printed w ++ [e]).

(** A call bounded in time: the client has a positive timeout, and the
    context of the request has the same one. *)
Definition bounded (x : http.Exchange) : Prop :=
  (0 < http.Timeout (http.client x))%Z
  /\ http.Deadline (http.req x) = http.Timeout (http.client x).

End attempt.

(* ===================================================================== *)
(** ** Vocabulary of the statements about the options *)
(* ===================================================================== *)

Module plan.

(** Two records of options agree on what is probed and for how long: on
    the target, the protocol and the two timeouts. *)
Definition same (o o' : cli.Options) : Prop :=
  cli.Target o = cli.Target o'
  /\ cli.Proto o = cli.Proto o'
  /\ cli.Timeout o = cli.Timeout o'
  /\ cli.ConnectTimeout o = cli.ConnectTimeout o'.

(** The values of the protocol flag. *)
Definition protocols : list string := ["auto"; "http"; "https"].

(** The flags that hold a duration. *)
Definition durations : list string := ["timeout"; "connect-timeout"; "max-time"].

End plan.

(* ===================================================================== *)
(** ** Package [net/http]: reading a header *)
(* ===================================================================== *)

Module header.

Section WithText.
Variable tx : request.Text.

(** [h.Get(name)]: the value under the canonical key, or the empty string
    when there is none. *)
Definition Get (h : http.Header) (name : string) : string :=
  match List.find
          (fun kv => String.eqb (fst kv)
                       (request.textproto_CanonicalMIMEHeaderKey tx name)) h with
  | Some kv => snd kv
  | None => ""
  end.

(** The names of the headers that [BuildRequest] sets from flags. *)
Definition flag_names : list string :=
  ["Authorization"; "Cookie"; "User-Agent"; "Referer"; "Content-Type"; "Accept"].

End WithText.

End header.

(* ===================================================================== *)
(** ** Package [internal/cli]: reading the flags *)
(* ===================================================================== *)

Module cli_parser.
Import strings.

(** [opts.F = v], field by field. *)
Definition set_Target (o : cli.Options) (v : string) : cli.Options :=
  cli.mkOptions v (cli.Proto o) (cli.Method o) (cli.Headers o) (cli.Data o) (cli.DataRaw
    o) (cli.User o) (cli.Cookie o) (cli.UserAgent o) (cli.Referer o) (cli.Verbose o)
    (cli.VerboseTLS o) (cli.Output o) (cli.Head o) (cli.JSON o) (cli.Insecure o)
    (cli.CACert o) (cli.Cert o) (cli.Key o) (cli.StrictSSL o) (cli.Timeout o)
    (cli.ConnectTimeout o).
Definition set_Proto (o : cli.Options) (v : string) : cli.Options :=
  cli.mkOptions (cli.Target o) v (cli.Method o) (cli.Headers o) (cli.Data o)
    (cli.DataRaw o) (cli.User o) (cli.Cookie o) (cli.UserAgent o) (cli.Referer o)
    (cli.Verbose o) (cli.VerboseTLS o) (cli.Output o) (cli.Head o) (cli.JSON o)
    (cli.Insecure o) (cli.CACert o) (cli.Cert o) (cli.Key o) (cli.StrictSSL o)
    (cli.Timeout o) (cli.ConnectTimeout o).
Definition set_Method (o : cli.Options) (v : string) : cli.Options :=
  cli.mkOptions (cli.Target o) (cli.Proto o) v (cli.Headers o) (cli.Data o) (cli.DataRaw
    o) (cli.User o) (cli.Cookie o) (cli.UserAgent o) (cli.Referer o) (cli.Verbose o)
    (cli.VerboseTLS o) (cli.Output o) (cli.Head o) (cli.JSON o) (cli.Insecure o)
    (cli.CACert o) (cli.Cert o) (cli.Key o) (cli.StrictSSL o) (cli.Timeout o)
    (cli.ConnectTimeout o).
Definition set_Headers (o : cli.Options) (v : list string) : cli.Options :=
  cli.mkOptions (cli.Target o) (cli.Proto o) (cli.Method o) v (cli.Data o) (cli.DataRaw
    o) (cli.User o) (cli.Cookie o) (cli.UserAgent o) (cli.Referer o) (cli.Verbose o)
    (cli.VerboseTLS o) (cli.Output o) (cli.Head o) (cli.JSON o) (cli.Insecure o)
    (cli.CACert o) (cli.Cert o) (cli.Key o) (cli.StrictSSL o) (cli.Timeout o)
    (cli.ConnectTimeout o).
Definition set_Data (o : cli.Options) (v : string) : cli.Options :=
  cli.mkOptions (cli.Target o) (cli.Proto o) (cli.Method o) (cli.Headers o) v
    (cli.DataRaw o) (cli.User o) (cli.Cookie o) (cli.UserAgent o) (cli.Referer o)
    (cli.Verbose o) (cli.VerboseTLS o) (cli.Output o) (cli.Head o) (cli.JSON o)
    (cli.Insecure o) (cli.CACert o) (cli.Cert o) (cli.Key o) (cli.StrictSSL o)
    (cli.Timeout o) (cli.ConnectTimeout o).
Definition set_DataRaw (o : cli.Options) (v : string) : cli.Options :=
  cli.mkOptions (cli.Target o) (cli.Proto o) (cli.Method o) (cli.Headers o) (cli.Data o)
    v (cli.User o) (cli.Cookie o) (cli.UserAgent o) (cli.Referer o) (cli.Verbose o)
    (cli.VerboseTLS o) (cli.Output o) (cli.Head o) (cli.JSON o) (cli.Insecure o)
    (cli.CACert o) (cli.Cert o) (cli.Key o) (cli.StrictSSL o) (cli.Timeout o)
    (cli.ConnectTimeout o).
Definition set_User (o : cli.Options) (v : string) : cli.Options :=
  cli.mkOptions (cli.Target o) (cli.Proto o) (cli.Method o) (cli.Headers o) (cli.Data o)
    (cli.DataRaw o) v (cli.Cookie o) (cli.UserAgent o) (cli.Referer o) (cli.Verbose o)
    (cli.VerboseTLS o) (cli.Output o) (cli.Head o) (cli.JSON o) (cli.Insecure o)
    (cli.CACert o) (cli.Cert o) (cli.Key o) (cli.StrictSSL o) (cli.Timeout o)
    (cli.ConnectTimeout o).
Definition set_Cookie (o : cli.Options) (v : string) : cli.Options :=
  cli.mkOptions (cli.Target o) (cli.Proto o) (cli.Method o) (cli.Headers o) (cli.Data o)
    (cli.DataRaw o) (cli.User o) v (cli.UserAgent o) (cli.Referer o) (cli.Verbose o)
    (cli.VerboseTLS o) (cli.Output o) (cli.Head o) (cli.JSON o) (cli.Insecure o)
    (cli.CACert o) (cli.Cert o) (cli.Key o) (cli.StrictSSL o) (cli.Timeout o)
    (cli.ConnectTimeout o).
Definition set_UserAgent (o : cli.Options) (v : string) : cli.Options :=
  cli.mkOptions (cli.Target o) (cli.Proto o) (cli.Method o) (cli.Headers o) (cli.Data o)
    (cli.DataRaw o) (cli.User o) (cli.Cookie o) v (cli.Referer o) (cli.Verbose o)
    (cli.VerboseTLS o) (cli.Output o) (cli.Head o) (cli.JSON o) (cli.Insecure o)
    (cli.CACert o) (cli.Cert o) (cli.Key o) (cli.StrictSSL o) (cli.Timeout o)
    (cli.ConnectTimeout o).
Definition set_Referer (o : cli.Options) (v : string) : cli.Options :=
  cli.mkOptions (cli.Target o) (cli.Proto o) (cli.Method o) (cli.Headers o) (cli.Data o)
    (cli.DataRaw o) (cli.User o) (cli.Cookie o) (cli.UserAgent o) v (cli.Verbose o)
    (cli.VerboseTLS o) (cli.Output o) (cli.Head o) (cli.JSON o) (cli.Insecure o)
    (cli.CACert o) (cli.Cert o) (cli.Key o) (cli.StrictSSL o) (cli.Timeout o)
    (cli.ConnectTimeout o).
Definition set_Verbose (o : cli.Options) (v : bool) : cli.Options :=
  cli.mkOptions (cli.Target o) (cli.Proto o) (cli.Method o) (cli.Headers o) (cli.Data o)
    (cli.DataRaw o) (cli.User o) (cli.Cookie o) (cli.UserAgent o) (cli.Referer o) v
    (cli.VerboseTLS o) (cli.Output o) (cli.Head o) (cli.JSON o) (cli.Insecure o)
    (cli.CACert o) (cli.Cert o) (cli.Key o) (cli.StrictSSL o) (cli.Timeout o)
    (cli.ConnectTimeout o).
Definition set_VerboseTLS (o : cli.Options) (v : bool) : cli.Options :=
  cli.mkOptions (cli.Target o) (cli.Proto o) (cli.Method o) (cli.Headers o) (cli.Data o)
    (cli.DataRaw o) (cli.User o) (cli.Cookie o) (cli.UserAgent o) (cli.Referer o)
    (cli.Verbose o) v (cli.Output o) (cli.Head o) (cli.JSON o) (cli.Insecure o)
    (cli.CACert o) (cli.Cert o) (cli.Key o) (cli.StrictSSL o) (cli.Timeout o)
    (cli.ConnectTimeout o).
Definition set_Output (o : cli.Options) (v : string) : cli.Options :=
  cli.mkOptions (cli.Target o) (cli.Proto o) (cli.Method o) (cli.Headers o) (cli.Data o)
    (cli.DataRaw o) (cli.User o) (cli.Cookie o) (cli.UserAgent o) (cli.Referer o)
    (cli.Verbose o) (cli.VerboseTLS o) v (cli.Head o) (cli.JSON o) (cli.Insecure o)
    (cli.CACert o) (cli.Cert o) (cli.Key o) (cli.StrictSSL o) (cli.Timeout o)
    (cli.ConnectTimeout o).
Definition set_Head (o : cli.Options) (v : bool) : cli.Options :=
  cli.mkOptions (cli.Target o) (cli.Proto o) (cli.Method o) (cli.Headers o) (cli.Data o)
    (cli.DataRaw o) (cli.User o) (cli.Cookie o) (cli.UserAgent o) (cli.Referer o)
    (cli.Verbose o) (cli.VerboseTLS o) (cli.Output o) v (cli.JSON o) (cli.Insecure o)
    (cli.CACert o) (cli.Cert o) (cli.Key o) (cli.StrictSSL o) (cli.Timeout o)
    (cli.ConnectTimeout o).
Definition set_JSON (o : cli.Options) (v : bool) : cli.Options :=
  cli.mkOptions (cli.Target o) (cli.Proto o) (cli.Method o) (cli.Headers o) (cli.Data o)
    (cli.DataRaw o) (cli.User o) (cli.Cookie o) (cli.UserAgent o) (cli.Referer o)
    (cli.Verbose o) (cli.VerboseTLS o) (cli.Output o) (cli.Head o) v (cli.Insecure o)
    (cli.CACert o) (cli.Cert o) (cli.Key o) (cli.StrictSSL o) (cli.Timeout o)
    (cli.ConnectTimeout o).
Definition set_Insecure (o : cli.Options) (v : bool) : cli.Options :=
  cli.mkOptions (cli.Target o) (cli.Proto o) (cli.Method o) (cli.Headers o) (cli.Data o)
    (cli.DataRaw o) (cli.User o) (cli.Cookie o) (cli.UserAgent o) (cli.Referer o)
    (cli.Verbose o) (cli.VerboseTLS o) (cli.Output o) (cli.Head o) (cli.JSON o) v
    (cli.CACert o) (cli.Cert o) (cli.Key o) (cli.StrictSSL o) (cli.Timeout o)
    (cli.ConnectTimeout o).
Definition set_CACert (o : cli.Options) (v : string) : cli.Options :=
  cli.mkOptions (cli.Target o) (cli.Proto o) (cli.Method o) (cli.Headers o) (cli.Data o)
    (cli.DataRaw o) (cli.User o) (cli.Cookie o) (cli.UserAgent o) (cli.Referer o)
    (cli.Verbose o) (cli.VerboseTLS o) (cli.Output o) (cli.Head o) (cli.JSON o)
    (cli.Insecure o) v (cli.Cert o) (cli.Key o) (cli.StrictSSL o) (cli.Timeout o)
    (cli.ConnectTimeout o).
Definition set_Cert (o : cli.Options) (v : string) : cli.Options :=
  cli.mkOptions (cli.Target o) (cli.Proto o) (cli.Method o) (cli.Headers o) (cli.Data o)
    (cli.DataRaw o) (cli.User o) (cli.Cookie o) (cli.UserAgent o) (cli.Referer o)
    (cli.Verbose o) (cli.VerboseTLS o) (cli.Output o) (cli.Head o) (cli.JSON o)
    (cli.Insecure o) (cli.CACert o) v (cli.Key o) (cli.StrictSSL o) (cli.Timeout o)
    (cli.ConnectTimeout o).
Definition set_Key (o : cli.Options) (v : string) : cli.Options :=
  cli.mkOptions (cli.Target o) (cli.Proto o) (cli.Method o) (cli.Headers o) (cli.Data o)
    (cli.DataRaw o) (cli.User o) (cli.Cookie o) (cli.UserAgent o) (cli.Referer o)
    (cli.Verbose o) (cli.VerboseTLS o) (cli.Output o) (cli.Head o) (cli.JSON o)
    (cli.Insecure o) (cli.CACert o) (cli.Cert o) v (cli.StrictSSL o) (cli.Timeout o)
    (cli.ConnectTimeout o).
Definition set_StrictSSL (o : cli.Options) (v : bool) : cli.Options :=
  cli.mkOptions (cli.Target o) (cli.Proto o) (cli.Method o) (cli.Headers o) (cli.Data o)
    (cli.DataRaw o) (cli.User o) (cli.Cookie o) (cli.UserAgent o) (cli.Referer o)
    (cli.Verbose o) (cli.VerboseTLS o) (cli.Output o) (cli.Head o) (cli.JSON o)
    (cli.Insecure o) (cli.CACert o) (cli.Cert o) (cli.Key o) v (cli.Timeout o)
    (cli.ConnectTimeout o).
Definition set_Timeout (o : cli.Options) (v : Z) : cli.Options :=
  cli.mkOptions (cli.Target o) (cli.Proto o) (cli.Method o) (cli.Headers o) (cli.Data o)
    (cli.DataRaw o) (cli.User o) (cli.Cookie o) (cli.UserAgent o) (cli.Referer o)
    (cli.Verbose o) (cli.VerboseTLS o) (cli.Output o) (cli.Head o) (cli.JSON o)
    (cli.Insecure o) (cli.CACert o) (cli.Cert o) (cli.Key o) (cli.StrictSSL o) v
    (cli.ConnectTimeout o).
Definition set_ConnectTimeout (o : cli.Options) (v : Z) : cli.Options :=
  cli.mkOptions (cli.Target o) (cli.Proto o) (cli.Method o) (cli.Headers o) (cli.Data o)
    (cli.DataRaw o) (cli.User o) (cli.Cookie o) (cli.UserAgent o) (cli.Referer o)
    (cli.Verbose o) (cli.VerboseTLS o) (cli.Output o) (cli.Head o) (cli.JSON o)
    (cli.Insecure o) (cli.CACert o) (cli.Cert o) (cli.Key o) (cli.StrictSSL o)
    (cli.Timeout o) v.

(** [*cli.Context] of urfave/cli, as [parseFlags] and the action read it:
    whether a flag was given, its value at each type, and the positional
    arguments. *)
Record Context := mkContext
  { IsSet : string -> bool;
    String_ : string -> string;
    Bool_ : string -> bool;
    StringSlice : string -> list string;
    NArg : nat;
    Args_Get : nat -> string }.

(** [strings.IndexAny] at a set of ASCII bytes. *)
Fixpoint IndexAny (s chars : string) : option nat :=
  match s with
  | "" => None
  | String c s' =>
      if url.mem_byte c chars then Some 0%nat
      else option_map S (IndexAny s' chars)
  end.

(** The line feed. *)
Definition newline : ascii := ascii_of_N 10.

Definition extractFlagName (errMsg : string) : string :=
  match Index errMsg "flag provided but not defined: -" with
  | Some idx =>
      let start := (idx + String.length "flag provided but not defined: ")%nat in
      match IndexAny (slice_from start errMsg) (String " " (String newline "")) with
      | None => slice_from start errMsg
      | Some end_ => slice_from start (slice_to (start + end_) errMsg)
      end
  | None => "unknown"
  end.

(** The options [ParseArgs] starts from. *)
Definition initial : cli.Options :=
  cli.mkOptions "" "auto" "" [] "" "" "" "" "" "" false false "" false false
                false "" "" "" false (10 * time.Second) 0.

Section WithParseDuration.

(** [time.ParseDuration] *)
Variable time_ParseDuration : string -> goerror.t + Z.

Definition set_string (c : Context) (flag : string)
           (set : cli.Options -> string -> cli.Options) (opts : cli.Options)
  : cli.Options :=
  if IsSet c flag then set opts (String_ c flag) else opts.

Definition set_bool (c : Context) (flag : string)
           (set : cli.Options -> bool -> cli.Options) (opts : cli.Options)
  : cli.Options :=
  if IsSet c flag then set opts (Bool_ c flag) else opts.

(** One of the three duration flags: the text is parsed when the flag is
    given. *)
Definition set_duration (c : Context) (flag : string)
           (set : cli.Options -> Z -> cli.Options) (opts : cli.Options)
  : goerror.t + cli.Options :=
  if IsSet c flag then
    match time_ParseDuration (String_ c flag) with
    | inl err => inl (goerror.Errorf ("invalid " ++ flag ++ " format: ") (Some err))
    | inr duration => inr (set opts duration)
    end
  else inr opts.

Definition parseFlags (c : Context) (opts : cli.Options) : goerror.t + cli.Options :=
  (* request method, headers, data *)
  let opts := set_string c "request" set_Method opts in
  let opts := if IsSet c "header" then set_Headers opts (StringSlice c "header")
              else opts in
  let opts := set_string c "data" set_Data opts in
  let opts := set_string c "data-raw" set_DataRaw opts in
  (* authentication, cookies and headers *)
  let opts := set_string c "user" set_User opts in
  let opts := set_string c "cookie" set_Cookie opts in
  let opts := set_string c "user-agent" set_UserAgent opts in
  let opts := set_string c "referer" set_Referer opts in
  (* output control *)
  let opts := set_bool c "verbose" set_Verbose opts in
  let opts := set_bool c "verbose-tls" set_VerboseTLS opts in
  let opts := set_string c "output" set_Output opts in
  let opts := set_bool c "head" set_Head opts in
  let opts := set_bool c "json" set_JSON opts in
  (* TLS *)
  let opts := set_bool c "insecure" set_Insecure opts in
  let opts := set_string c "cacert" set_CACert opts in
  let opts := set_string c "cert" set_Cert opts in
  let opts := set_string c "key" set_Key opts in
  let opts := set_bool c "strict-ssl" set_StrictSSL opts in
  (* protocol *)
  opts <-
    (if IsSet c "proto" then
       let proto := String_ c "proto" in
       if negb (String.eqb proto "auto") && negb (String.eqb proto "http")
          && negb (String.eqb proto "https") then
         inl (goerror.mk ("invalid protocol: " ++ proto
                          ++ " (must be auto, http, or https)") None)
       else inr (set_Proto opts proto)
     else inr opts) ;;
  (* timeouts; max-time is an alias for timeout *)
  opts <- set_duration c "timeout" set_Timeout opts ;;
  opts <- set_duration c "connect-timeout" set_ConnectTimeout opts ;;
  opts <- set_duration c "max-time" set_Timeout opts ;;
  ret opts.

(** The action [ParseArgs] gives to the application. *)
Definition Action (c : Context) (opts : cli.Options) : goerror.t + cli.Options :=
  if (NArg c =? 0)%nat then inl (goerror.mk "target URL required" None)
  else parseFlags c (set_Target opts (Args_Get c 0%nat)).

End WithParseDuration.

(** [ParseArgs(args)].  [app_Run] is [app.Run(args)] of urfave/cli, which
    may run the action on the options: its error and the options as it
    leaves them. *)
Definition ParseArgs (app_Run : list string -> cli.Options -> option goerror.t * cli.Options)
           (args : list string) : errors.error + cli.Options :=
  let '(err, opts) := app_Run args initial in
  match err with
  | Some err =>
      if Contains (goerror.Error err) "flag provided but not defined"
         || Contains (goerror.Error err) "unknown flag" then
        inl (errors.UnknownFlagError (extractFlagName (goerror.Error err)))
      else inl (errors.foreign err)
  | None => inr opts
  end.

End cli_parser.

(* ===================================================================== *)
(** * Properties *)
(* ===================================================================== *)

Local Open Scope Z_scope.

(** ** The unit tests of the repository, run on the model *)

Section UnitTests.
Variable ip : string -> bool.

(** [TestParseTarget_FullURL] *)
Example test_full_url :
  let r := target.ParseTarget ip "http://example.com:8080/api/v1" in
  fixtures.field url.Scheme r = Some "http" /\ fixtures.field url.Hostname r = Some "example.com"
  /\ fixtures.field url.Port r = Some "8080" /\ fixtures.field url.Path r = Some "/api/v1".
Proof. repeat split. Qed.

(** [TestParseTarget_IPPortPath], [TestParseTarget_HostPort] *)
Example test_ip_port_path :
  let r := target.ParseTarget ip "192.168.1.1:8080/api" in
  fixtures.field url.Hostname r = Some "192.168.1.1" /\ fixtures.field url.Port r = Some "8080"
  /\ fixtures.field url.Path r = Some "/api"
  /\ option_map target.HasExplicitProto (match r with inr t => Some t | _ => None end)
     = Some false.
Proof. repeat split. Qed.

Example test_host_only :
  let r := target.ParseTarget ip "example.com" in
  fixtures.field url.Hostname r = Some "example.com" /\ fixtures.field url.Port r = Some ""
  /\ fixtures.field url.Path r = Some "/".
Proof. repeat split. Qed.

(** [TestParseTarget_IPv6] *)
Example test_ipv6 :
  fixtures.field url.Hostname (target.ParseTarget ip "http://[::1]:8080/path") = Some "::1"
  /\ fixtures.field url.Hostname (target.ParseTarget ip "http://[2001:db8::1]:443")
     = Some "2001:db8::1".
Proof. repeat split. Qed.

(** [TestParseTarget_ErrorCases] *)
Example test_error_cases :
  fixtures.rejected (target.ParseTarget ip "") = true
  /\ fixtures.rejected (target.ParseTarget ip "ht!tp://example.com") = true
  /\ fixtures.rejected (target.ParseTarget ip "http://") = true.
Proof. repeat split. Qed.

(** [TestParseTarget_EdgeCases] *)
Example test_fragment :
  fixtures.field url.Fragment (target.ParseTarget ip "example.com:8080/path#section")
  = Some "section".
Proof. reflexivity. Qed.

(** [TestNewTransport_IPAddressInsecureSkipVerify], on targets without URL *)
Example test_skip_verify_table :
  let skip isIP strict insecure :=
    match transport.NewTransport fixtures.no_files
            (fixtures.with_tls fixtures.default_opts insecure strict "" "" "")
            (target.mkParsedTarget None isIP false "") with
    | inr tr => Some (transport.InsecureSkipVerify (transport.TLSClientConfig tr))
    | inl _ => None
    end in
  skip true false false = Some true /\ skip true true false = Some false
  /\ skip true false true = Some true /\ skip false false false = Some false
  /\ skip false false true = Some true.
Proof. repeat split. Qed.

End UnitTests.

(** ** Trust policy: [NewTransport] *)

Section TrustPolicy.
Variable fs : transport.Files.

Lemma eqb_empty_false (s : string) : s <> "" -> String.eqb s "" = false.
Proof. intros H. apply String.eqb_neq. exact H. Qed.

(** Without certificate material a transport is always built. *)
Lemma NewTransport_plain (opts : cli.Options) (pt : target.ParsedTarget) :
  cli.CACert opts = "" -> cli.Cert opts = "" -> cli.Key opts = "" ->
  exists tr, transport.NewTransport fs opts pt = inr tr.
Proof.
  intros Hca Hc Hk. unfold transport.NewTransport.
  rewrite Hca, Hc, Hk. cbn. eexists. reflexivity.
Qed.

(** The skip-verification flag of any transport that is built. *)
Lemma NewTransport_skip_eq (opts : cli.Options) (pt : target.ParsedTarget)
      (tr : transport.Transport) :
  transport.NewTransport fs opts pt = inr tr ->
  transport.InsecureSkipVerify (transport.TLSClientConfig tr)
  = cli.Insecure opts || (target.IsIP pt && negb (cli.StrictSSL opts)).
Proof.
  unfold transport.NewTransport. intros H.
  repeat match type of H with
         | context [match ?c with _ => _ end] =>
             lazymatch c with
             | context [target.IsIP] => fail
             | context [cli.Insecure] => fail
             | _ => destruct c eqn:?; cbn in H; try discriminate H
             end
         end;
    inversion H; subst; cbn;
    destruct (target.IsIP pt), (cli.StrictSSL opts), (cli.Insecure opts);
    reflexivity.
Qed.

End TrustPolicy.

Section CertificateMaterial.
Variable fs : transport.Files.
Variables (opts : cli.Options) (pt : target.ParsedTarget).

(** A CA file that cannot be read or parsed is a TLS error. *)
Lemma NewTransport_bad_ca :
  cli.CACert opts <> "" ->
  (forall pem, transport.os_ReadFile fs (cli.CACert opts) = inr pem ->
               transport.AppendCertsFromPEM fs pem = false) ->
  exists host cause,
    transport.NewTransport fs opts pt = inl (errors.TLSError host cause).
Proof.
  intros Hca Hbad. unfold transport.NewTransport.
  rewrite (eqb_empty_false _ Hca). cbn.
  destruct (transport.os_ReadFile fs (cli.CACert opts)) as [e | pem] eqn:Hread.
  - cbn. eauto.
  - rewrite (Hbad pem eq_refl). cbn. eauto.
Qed.

(** A certificate without its key, or a key without its certificate. *)
Lemma NewTransport_half_pair :
  (cli.Cert opts <> "" /\ cli.Key opts = "")
  \/ (cli.Cert opts = "" /\ cli.Key opts <> "") ->
  exists host cause,
    transport.NewTransport fs opts pt = inl (errors.TLSError host cause).
Proof.
  intros Hhalf. unfold transport.NewTransport.
  assert (Hpair :
    (String.eqb (cli.Cert opts) "" = false /\ String.eqb (cli.Key opts) "" = true)
    \/ (String.eqb (cli.Cert opts) "" = true /\ String.eqb (cli.Key opts) "" = false)).
  { destruct Hhalf as [[Hc Hk] | [Hc Hk]]; [left | right]; split;
      first [ now apply eqb_empty_false | now apply String.eqb_eq ]. }
  destruct (negb (cli.CACert opts =? "")%string).
  - destruct (transport.os_ReadFile fs (cli.CACert opts)) as [e | pem]; cbn; eauto.
    destruct (transport.AppendCertsFromPEM fs pem); cbn; eauto.
    destruct Hpair as [[-> ->] | [-> ->]]; cbn; eauto.
  - destruct Hpair as [[-> ->] | [-> ->]]; cbn; eauto.
Qed.

(** With both set, a transport is only built around the loaded pair. *)
Lemma NewTransport_pair_presented (tr : transport.Transport) :
  cli.Cert opts <> "" -> cli.Key opts <> "" ->
  transport.NewTransport fs opts pt = inr tr ->
  exists cert,
    transport.tls_LoadX509KeyPair fs (cli.Cert opts) (cli.Key opts) = inr cert
    /\ transport.Certificates (transport.TLSClientConfig tr) = [cert].
Proof.
  intros Hc Hk. unfold transport.NewTransport.
  rewrite (eqb_empty_false _ Hc), (eqb_empty_false _ Hk). cbn.
  destruct (negb (cli.CACert opts =? "")%string).
  - destruct (transport.os_ReadFile fs (cli.CACert opts)) as [e | pem]; cbn;
      [discriminate |].
    destruct (transport.AppendCertsFromPEM fs pem); cbn; [| discriminate].
    destruct (transport.tls_LoadX509KeyPair fs (cli.Cert opts) (cli.Key opts))
      as [e | cert]; cbn; [discriminate |].
    intros H. inversion H. subst. cbn. eauto.
  - destruct (transport.tls_LoadX509KeyPair fs (cli.Cert opts) (cli.Key opts))
      as [e | cert]; cbn; [discriminate |].
    intros H. inversion H. subst. cbn. eauto.
Qed.

(** With both set and loadable, and no CA file asked for, the transport
    is built. *)
Lemma NewTransport_pair_loaded (cert : transport.Certificate) :
  cli.CACert opts = "" ->
  cli.Cert opts <> "" -> cli.Key opts <> "" ->
  transport.tls_LoadX509KeyPair fs (cli.Cert opts) (cli.Key opts) = inr cert ->
  exists tr,
    transport.NewTransport fs opts pt = inr tr
    /\ transport.Certificates (transport.TLSClientConfig tr) = [cert].
Proof.
  intros Hca Hc Hk Hload. unfold transport.NewTransport.
  rewrite Hca, (eqb_empty_false _ Hc), (eqb_empty_false _ Hk), Hload. cbn.
  eexists. split; reflexivity.
Qed.

End CertificateMaterial.

(** C7.  Whenever [NewTransport] builds a transport, its TLS configuration
    skips certificate verification exactly when [Insecure] is set or the
    target is an IP literal and [StrictSSL] is not set.  In particular, for
    an IP literal without [Insecure] the flag is the negation of
    [StrictSSL], and [Insecure] alone forces it. *)
Theorem NewTransport_InsecureSkipVerify
        (fs : transport.Files) (opts : cli.Options) (pt : target.ParsedTarget)
        (tr : transport.Transport) :
  transport.NewTransport fs opts pt = inr tr ->
  let skip := transport.InsecureSkipVerify (transport.TLSClientConfig tr) in
  (skip = true <->
     cli.Insecure opts = true
     \/ (target.IsIP pt = true /\ cli.StrictSSL opts = false))
  /\ (target.IsIP pt = true -> cli.Insecure opts = false ->
      skip = negb (cli.StrictSSL opts))
  /\ (cli.Insecure opts = true -> skip = true).
Proof.
  intros Hnew skip. subst skip.
  rewrite (NewTransport_skip_eq fs opts pt tr Hnew).
  destruct (cli.Insecure opts), (target.IsIP pt), (cli.StrictSSL opts); cbn;
    intuition discriminate.
Qed.

Lemma NewTransport_InsecureSkipVerify_witness :
  exists tr,
    transport.NewTransport fixtures.no_files fixtures.default_opts fixtures.ip_target
    = inr tr
    /\ transport.InsecureSkipVerify (transport.TLSClientConfig tr) = true.
Proof.
  eexists. split; [reflexivity |].
  destruct (NewTransport_InsecureSkipVerify
              fixtures.no_files fixtures.default_opts fixtures.ip_target _ eq_refl)
    as [Hiff _].
  apply Hiff. right. split; reflexivity.
Defined.

(** C8.  A CA file that is set but cannot be read or parsed makes
    [NewTransport] fail with a TLS error, whatever the verification flags;
    so does a client certificate without key or a key without certificate;
    with both set, the transport presents the loaded pair. *)
Theorem NewTransport_certificate_material
        (fs : transport.Files) (opts : cli.Options) (pt : target.ParsedTarget) :
  (cli.CACert opts <> "" ->
   (forall pem, transport.os_ReadFile fs (cli.CACert opts) = inr pem ->
                transport.AppendCertsFromPEM fs pem = false) ->
   exists host cause,
     transport.NewTransport fs opts pt = inl (errors.TLSError host cause))
  /\ ((cli.Cert opts <> "" /\ cli.Key opts = "")
      \/ (cli.Cert opts = "" /\ cli.Key opts <> "") ->
      exists host cause,
        transport.NewTransport fs opts pt = inl (errors.TLSError host cause))
  /\ (cli.Cert opts <> "" -> cli.Key opts <> "" ->
      (forall tr, transport.NewTransport fs opts pt = inr tr ->
         exists cert,
           transport.tls_LoadX509KeyPair fs (cli.Cert opts) (cli.Key opts) = inr cert
           /\ transport.Certificates (transport.TLSClientConfig tr) = [cert])
      /\ (forall cert,
            cli.CACert opts = "" ->
            transport.tls_LoadX509KeyPair fs (cli.Cert opts) (cli.Key opts) = inr cert ->
            exists tr,
              transport.NewTransport fs opts pt = inr tr
              /\ transport.Certificates (transport.TLSClientConfig tr) = [cert])).
Proof.
  split; [| split].
  - apply NewTransport_bad_ca.
  - apply NewTransport_half_pair.
  - intros Hc Hk. split.
    + intros tr. now apply NewTransport_pair_presented.
    + intros cert Hca. now apply NewTransport_pair_loaded.
Qed.

Lemma NewTransport_certificate_material_witness :
  (* an unreadable CA file, with verification switched off by -k *)
  (exists host cause,
     transport.NewTransport fixtures.no_files
       (fixtures.with_tls fixtures.default_opts true false "ca.pem" "" "")
       fixtures.ip_target = inl (errors.TLSError host cause))
  (* a certificate without its key *)
  /\ (exists host cause,
        transport.NewTransport fixtures.pair_files
          (fixtures.with_tls fixtures.default_opts false false "" "client.pem" "")
          fixtures.name_target = inl (errors.TLSError host cause))
  (* the pair is presented *)
  /\ (exists tr,
        transport.NewTransport fixtures.pair_files
          (fixtures.with_tls fixtures.default_opts false false "" "client.pem" "client.key")
          fixtures.name_target = inr tr
        /\ transport.Certificates (transport.TLSClientConfig tr)
           = [fixtures.client_pair]).
Proof.
  split; [| split].
  - apply (proj1 (NewTransport_certificate_material fixtures.no_files
                    (fixtures.with_tls fixtures.default_opts true false "ca.pem" "" "")
                    fixtures.ip_target)).
    + discriminate.
    + intros pem H. discriminate H.
  - apply (proj1 (proj2 (NewTransport_certificate_material fixtures.pair_files
                    (fixtures.with_tls fixtures.default_opts false false "" "client.pem" "")
                    fixtures.name_target))).
    left. split; [discriminate | reflexivity].
  - refine (proj2 (proj2 (proj2 (NewTransport_certificate_material fixtures.pair_files
                    (fixtures.with_tls fixtures.default_opts false false "" "client.pem" "client.key")
                    fixtures.name_target)) _ _) fixtures.client_pair eq_refl eq_refl);
      discriminate.
Defined.

(** ** Result classification: [mapProbeError] *)

(** [contains] only compares lengths. *)
Lemma contains_is_length_test (s substr : string) :
  protocol.contains s substr
  = (String.length substr <=? String.length s)%nat.
Proof.
  unfold protocol.contains.
  destruct (Nat.leb_spec (String.length substr) (String.length s)) as [Hle | Hlt];
    [| reflexivity].
  cbn. destruct (String.length substr) as [| n] eqn:Hsub.
  - now rewrite orb_true_r.
  - destruct (String.length s) as [| m]; [lia |].
    cbn. now rewrite orb_true_r.
Qed.

Section Classifier.
Variables (err : goerror.t) (pt : target.ParsedTarget).
Hypothesis not_timeout : protocol.reports_timeout err = false.
Variable u : url.URL.
Hypothesis has_url : target.URL pt = Some u.
Hypothesis has_host : url.Hostname u <> "".

(** Every error text of eighteen bytes or more, the length of the text
    looked for first, is classified as a refused connection. *)
Lemma mapProbeError_long_text :
  (18 <= String.length (goerror.Error err))%nat ->
  protocol.mapProbeError (Some err) (Some pt)
  = Some (errors.ConnectionError (url.Hostname u) (url.Port u) err).
Proof.
  intros Hlen. unfold protocol.mapProbeError. destruct pt as [URL isIP explicit input].
  cbn in has_url. subst URL.
  rewrite not_timeout, (eqb_empty_false _ has_host). cbn [negb].
  rewrite contains_is_length_test.
  change (String.length "connection refused") with 18%nat.
  destruct (Nat.leb_spec 18 (String.length (goerror.Error err))); [reflexivity | lia].
Qed.

End Classifier.

(** C4.  A lookup failure whose text contains [no such host] and not
    [connection refused], and a certificate failure whose text contains
    neither, are both classified as [ConnectionError]: not as
    [NoRouteError], not as [TLSError]. *)
Theorem mapProbeError_misclassifies :
  strings.Contains (goerror.Error fixtures.no_such_host_error) "no such host" = true
  /\ strings.Contains (goerror.Error fixtures.no_such_host_error) "connection refused" = false
  /\ protocol.mapProbeError (Some fixtures.no_such_host_error) (Some fixtures.name_target)
     = Some (errors.ConnectionError "example.invalid" "80" fixtures.no_such_host_error)
  /\ strings.Contains (goerror.Error fixtures.certificate_error) "certificate" = true
  /\ strings.Contains (goerror.Error fixtures.certificate_error) "connection refused" = false
  /\ strings.Contains (goerror.Error fixtures.certificate_error) "no such host" = false
  /\ protocol.mapProbeError (Some fixtures.certificate_error) (Some fixtures.name_target)
     = Some (errors.ConnectionError "example.invalid" "80" fixtures.certificate_error).
Proof. repeat split; reflexivity. Qed.

(** ** Running a computation *)

#[local] Existing Instance Monad_stateT.

Lemma run_bind {A B : Type} (c : http.io A) (f : A -> http.io B) (w : http.World) :
  runStateT (bind c f) w
  = match runStateT c w with
    | inl p => inl p
    | inr (a, w') => runStateT (f a) w'
    end.
Proof. cbn. destruct (runStateT c w) as [p | [a w']]; reflexivity. Qed.

Lemma run_ret {A : Type} (a : A) (w : http.World) :
  runStateT (ret a : http.io A) w = inr (a, w).
Proof. reflexivity. Qed.

(** ** The prober: one attempt *)

Section Probe.
Variable fs : transport.Files.
Variable nw : http.Network.
Variables (pt : target.ParsedTarget) (opts : cli.Options).

(** What one attempt does, step by step. *)
Lemma probe_run (proto : string) (timeout : Z) (w : http.World) :
  runStateT (protocol.probeProtocolWithTimeout fs nw pt opts proto timeout) w
  = match transport.NewTransport fs (cli.withTimeouts opts timeout timeout) pt with
    | inl err => inr (protocol.mkProbeResult proto 0 0 None (Some err), w)
    | inr tr =>
        match target.URL pt with
        | None => inl http.nil_pointer_dereference
        | Some u =>
            let probeURL := http.URL_String nw (url.withScheme u proto) in
            match http.NewRequest_err nw "HEAD" probeURL with
            | Some err =>
                inr (protocol.mkProbeResult proto 0 0 None
                       (Some (errors.foreign
                                (goerror.Errorf "failed to create request: " (Some err)))),
                     w)
            | None =>
                let x := http.mkExchange (http.mkClient tr timeout)
                           (http.mkRequest "HEAD" probeURL timeout [] None) in
                let a := http.answer nw (http.sent w) x in
                let now' := http.now w + http.took a in
                match http.result a with
                | inl err =>
                    inr (protocol.mkProbeResult proto 0 (now' - http.now w) None
                           (protocol.mapProbeError (Some err) (Some pt)),
                         http.mkWorld now' (http.sent w ++ [x]) (http.open_bodies w)
                                      (http.printed w))
                | inr status =>
                    let body := List.length (http.sent w) in
                    inr (protocol.mkProbeResult proto status (now' - http.now w)
                           (Some (http.mkResponse status body)) None,
                         http.mkWorld now' (http.sent w ++ [x])
                                      (body :: http.open_bodies w) (http.printed w))
                end
            end
        end
    end.
Proof.
  unfold protocol.probeProtocolWithTimeout.
  destruct (transport.NewTransport fs (cli.withTimeouts opts timeout timeout) pt)
    as [err | tr]; [reflexivity |].
  unfold protocol.constructURL.
  destruct (target.URL pt) as [u |]; [| reflexivity].
  rewrite run_bind, run_ret. unfold http.NewRequestWithContext.
  destruct (http.NewRequest_err nw "HEAD" _) as [err |]; [reflexivity |].
  cbn. unfold http.Client_Do. cbn.
  destruct (http.result _) as [err | status]; reflexivity.
Qed.

(** On a target that has a URL an attempt always returns. *)
Lemma probe_returns (proto : string) (timeout : Z) (w : http.World) :
  target.URL pt <> None ->
  exists r w',
    runStateT (protocol.probeProtocolWithTimeout fs nw pt opts proto timeout) w
    = inr (r, w').
Proof.
  intros Hurl. rewrite probe_run.
  destruct (target.URL pt) as [u |]; [| congruence].
  cbv zeta.
  repeat match goal with
         | |- context [match ?c with _ => _ end] => destruct c
         end; eauto.
Qed.

End Probe.

Lemma HasPrefix_app (p s : string) : strings.HasPrefix (p ++ s) p = true.
Proof.
  induction p as [| c p IH]; cbn; [reflexivity |].
  now rewrite Ascii.eqb_refl, IH.
Qed.

Lemma NewTransport_timeouts (fs : transport.Files) (opts : cli.Options)
      (pt : target.ParsedTarget) (tr : transport.Transport) :
  transport.NewTransport fs opts pt = inr tr ->
  transport.DialTimeout tr = cli.ConnectTimeout opts
  /\ transport.TLSHandshakeTimeout tr = cli.ConnectTimeout opts.
Proof.
  unfold transport.NewTransport. intros H.
  repeat match type of H with
         | context [match ?c with _ => _ end] =>
             lazymatch c with
             | context [target.IsIP] => fail
             | context [cli.Insecure] => fail
             | _ => destruct c eqn:?; cbn in H; try discriminate H
             end
         end;
    inversion H; subst; split; reflexivity.
Qed.

(** Case analysis on a run of one attempt, once [probe_run] has been
    rewritten into [H]: each way an attempt can return. *)
Ltac probe_cases H :=
  cbv zeta in H;
  repeat match type of H with
         | context [match ?c with _ => _ end] => destruct c eqn:?
         end;
  inversion H; subst; clear H.

Section ProbeFacts.
Variable fs : transport.Files.
Variable nw : http.Network.
Variables (pt : target.ParsedTarget) (opts : cli.Options).
Variables (proto : string) (timeout : Z).
Variables (w w' : http.World) (r : protocol.ProbeResult).
Hypothesis Hrun :
  runStateT (protocol.probeProtocolWithTimeout fs nw pt opts proto timeout) w
  = inr (r, w').

Lemma probe_Protocol : protocol.Protocol r = proto.
Proof.
  rewrite probe_run in Hrun. probe_cases Hrun; reflexivity.
Qed.

(** An attempt makes at most one call, a HEAD probe of its scheme bounded
    by its timeout; the scheme of the parsed URL plays no part. *)
Lemma probe_one_attempt : proto <> "" -> prober.one_attempt proto timeout w w'.
Proof.
  intros Hproto. rewrite probe_run in Hrun.
  destruct (transport.NewTransport fs (cli.withTimeouts opts timeout timeout) pt)
    as [err | tr] eqn:Htr.
  { inversion Hrun; subst. exists []. rewrite app_nil_r. cbn. auto. }
  destruct (target.URL pt) as [u |]; [| discriminate Hrun].
  cbv zeta in Hrun.
  destruct (http.NewRequest_err nw "HEAD" _).
  { inversion Hrun; subst. exists []. rewrite app_nil_r. cbn. auto. }
  destruct (NewTransport_timeouts _ _ _ _ Htr) as [Hdial Htls].
  assert (Hhead : prober.head_probe proto timeout
            (http.mkExchange (http.mkClient tr timeout)
               (http.mkRequest "HEAD" (http.URL_String nw (url.withScheme u proto))
                               timeout [] None))).
  { unfold prober.head_probe. cbn. repeat split; try assumption.
    unfold http.URL_String. cbn.
    rewrite (eqb_empty_false _ Hproto). cbn. apply HasPrefix_app. }
  destruct (http.result _); inversion Hrun; subst; cbn;
    (eexists; split; [reflexivity | split; [cbn; lia | auto]]).
Qed.

(** An attempt closes no response body. *)
Lemma probe_keeps_bodies :
  incl (http.open_bodies w) (http.open_bodies w').
Proof.
  rewrite probe_run in Hrun.
  probe_cases Hrun; cbn; auto using incl_refl, incl_tl.
Qed.

End ProbeFacts.

(** ** The prober: [DetectProtocol] *)

Section Detect.
Variable fs : transport.Files.
Variable nw : http.Network.
Variables (pt : target.ParsedTarget) (opts : cli.Options).

(** The test written in [DetectProtocol] is [prober.accepted]. *)
Lemma accepted_test (r : protocol.ProbeResult) :
  protocol.isNil (protocol.Error r)
  && (protocol.StatusCode r >=? 200) && (protocol.StatusCode r <? 400) = true
  <-> prober.accepted r.
Proof.
  unfold prober.accepted, protocol.isNil.
  rewrite !andb_true_iff, Z.geb_le, Z.ltb_lt.
  destruct (protocol.Error r); intuition (auto; discriminate).
Qed.

Lemma accepted_dec (r : protocol.ProbeResult) :
  prober.accepted r \/ ~ prober.accepted r.
Proof.
  destruct (protocol.isNil (protocol.Error r) && (protocol.StatusCode r >=? 200)
            && (protocol.StatusCode r <? 400)) eqn:Htest.
  - left. now apply accepted_test.
  - right. intros Hacc. apply accepted_test in Hacc. congruence.
Qed.

Lemma manual_test :
  cli.Proto opts <> "" -> cli.Proto opts <> "auto" ->
  negb (cli.Proto opts =? "")%string && negb (cli.Proto opts =? "auto")%string = true.
Proof.
  intros H1 H2.
  apply String.eqb_neq in H1. apply String.eqb_neq in H2.
  now rewrite H1, H2.
Qed.

Lemma auto_test :
  cli.Proto opts = "" \/ cli.Proto opts = "auto" ->
  negb (cli.Proto opts =? "")%string && negb (cli.Proto opts =? "auto")%string = false.
Proof. intros [-> | ->]; reflexivity. Qed.

(** Manual mode is one attempt with the scheme of the flag. *)
Lemma detect_manual (w : http.World) :
  cli.Proto opts <> "" -> cli.Proto opts <> "auto" ->
  runStateT (protocol.DetectProtocol fs nw pt opts) w
  = match runStateT (protocol.probeProtocolWithTimeout fs nw pt opts (cli.Proto opts)
              (transport.ApplyTimeouts opts)) w with
    | inl p => inl p
    | inr (r, w') => inr ((r, protocol.Error r), w')
    end.
Proof.
  intros H1 H2.
  unfold protocol.DetectProtocol. rewrite (manual_test H1 H2).
  unfold protocol.probeProtocol. rewrite run_bind.
  destruct (runStateT _ w) as [p | [r w']]; reflexivity.
Qed.

(** Auto mode stops after an accepted HTTP attempt. *)
Lemma detect_auto_http (w : http.World) :
  cli.Proto opts = "" \/ cli.Proto opts = "auto" ->
  forall r w1,
    runStateT (protocol.probeProtocolWithTimeout fs nw pt opts "http"
              (3 * time.Second)) w = inr (r, w1) ->
    prober.accepted r ->
    runStateT (protocol.DetectProtocol fs nw pt opts) w = inr ((r, None), w1).
Proof.
  intros Hauto r w1 Hrun Hacc.
  unfold protocol.DetectProtocol. rewrite (auto_test Hauto).
  rewrite run_bind, Hrun. apply accepted_test in Hacc. rewrite Hacc.
  reflexivity.
Qed.

(** Otherwise auto mode makes the HTTPS attempt and returns its result. *)
Lemma detect_auto_https (w : http.World) :
  cli.Proto opts = "" \/ cli.Proto opts = "auto" ->
  forall r w1,
    runStateT (protocol.probeProtocolWithTimeout fs nw pt opts "http"
              (3 * time.Second)) w = inr (r, w1) ->
    ~ prober.accepted r ->
    runStateT (protocol.DetectProtocol fs nw pt opts) w
    = match runStateT (protocol.probeProtocolWithTimeout fs nw pt opts "https"
              (7 * time.Second)) w1 with
      | inl p => inl p
      | inr (r', w2) => inr ((r', None), w2)
      end.
Proof.
  intros Hauto r w1 Hrun Hrej.
  unfold protocol.DetectProtocol. rewrite (auto_test Hauto).
  rewrite run_bind, Hrun.
  destruct (protocol.isNil (protocol.Error r) && (protocol.StatusCode r >=? 200)
            && (protocol.StatusCode r <? 400)) eqn:Htest.
  - exfalso. apply Hrej. now apply accepted_test.
  - rewrite run_bind. destruct (runStateT _ w1) as [p | [r' w2]]; [reflexivity |].
    destruct (protocol.isNil (protocol.Error r')); reflexivity.
Qed.

(** In auto mode the returned error is nil on every path. *)
Lemma detect_auto_nil (w w' : http.World)
      (result : protocol.ProbeResult) (err : option errors.error) :
  cli.Proto opts = "" \/ cli.Proto opts = "auto" ->
  runStateT (protocol.DetectProtocol fs nw pt opts) w = inr ((result, err), w') -> err = None.
Proof.
  intros Hauto Hrun.
  destruct (runStateT (protocol.probeProtocolWithTimeout fs nw pt opts "http"
              (3 * time.Second)) w) as [p | [r w1]] eqn:Hhttp.
  - unfold protocol.DetectProtocol in Hrun.
    rewrite (auto_test Hauto), run_bind, Hhttp in Hrun. discriminate Hrun.
  - destruct (accepted_dec r) as [Hacc | Hrej].
    + rewrite (detect_auto_http w Hauto r w1 Hhttp Hacc) in Hrun. now inversion Hrun.
    + rewrite (detect_auto_https w Hauto r w1 Hhttp Hrej) in Hrun.
      destruct (runStateT (protocol.probeProtocolWithTimeout fs nw pt opts "https"
              (7 * time.Second)) w1) as [p | [r' w2]];
        [discriminate Hrun | now inversion Hrun].
Qed.

End Detect.

(** C1.  In auto mode, on a target that has a URL, the prober first makes
    the HTTP attempt, bounded by three seconds.  If that attempt has no
    error and a status in [200, 400) it is the result and nothing more is
    sent.  Otherwise the prober makes the HTTPS attempt, bounded by seven
    seconds, after it, and the result is that of the HTTPS attempt, whether
    it failed or not; the world it leaves is the one after that attempt,
    so nothing follows it. *)
Theorem DetectProtocol_auto_mode
        (fs : transport.Files) (nw : http.Network)
        (pt : target.ParsedTarget) (opts : cli.Options) (w : http.World) :
  target.URL pt <> None ->
  cli.Proto opts = "" \/ cli.Proto opts = "auto" ->
  exists httpResult w1,
    runStateT (protocol.probeProtocolWithTimeout fs nw pt opts "http" (3 * time.Second)) w
    = inr (httpResult, w1)
    /\ prober.one_attempt "http" (3 * time.Second) w w1
    /\ ((prober.accepted httpResult
         /\ runStateT (protocol.DetectProtocol fs nw pt opts) w
            = inr ((httpResult, None), w1))
        \/ (~ prober.accepted httpResult
            /\ exists httpsResult w2,
                runStateT (protocol.probeProtocolWithTimeout
                             fs nw pt opts "https" (7 * time.Second)) w1
                = inr (httpsResult, w2)
                /\ prober.one_attempt "https" (7 * time.Second) w1 w2
                /\ runStateT (protocol.DetectProtocol fs nw pt opts) w
                   = inr ((httpsResult, None), w2)
                /\ protocol.Protocol httpsResult = "https"
                /\ httpsResult <> httpResult)).
Proof.
  intros Hurl Hauto.
  destruct (probe_returns fs nw pt opts "http" (3 * time.Second) w Hurl)
    as (httpResult & w1 & Hhttp).
  exists httpResult, w1. split; [exact Hhttp |]. split.
  { eapply probe_one_attempt; [exact Hhttp | discriminate]. }
  destruct (accepted_dec httpResult) as [Hacc | Hrej].
  - left. split; [exact Hacc |]. now apply detect_auto_http.
  - right. split; [exact Hrej |].
    destruct (probe_returns fs nw pt opts "https" (7 * time.Second) w1 Hurl)
      as (httpsResult & w2 & Hhttps).
    exists httpsResult, w2. split; [exact Hhttps |]. split.
    { eapply probe_one_attempt; [exact Hhttps | discriminate]. }
    split.
    { rewrite (detect_auto_https fs nw pt opts w Hauto httpResult w1 Hhttp Hrej).
      now rewrite Hhttps. }
    pose proof (probe_Protocol _ _ _ _ _ _ _ _ _ Hhttps) as Hp.
    pose proof (probe_Protocol _ _ _ _ _ _ _ _ _ Hhttp) as Hp'.
    split; [exact Hp |]. intros Heq. subst httpsResult.
    rewrite Hp in Hp'. discriminate Hp'.
Qed.

Lemma DetectProtocol_auto_mode_witness :
  exists final w',
    runStateT (protocol.DetectProtocol fixtures.no_files fixtures.http_404_only
                 fixtures.name_target fixtures.default_opts) fixtures.start
    = inr ((final, None), w')
    /\ protocol.Protocol final = "https"
    /\ List.length (http.sent w') = 2%nat.
Proof.
  destruct (DetectProtocol_auto_mode fixtures.no_files fixtures.http_404_only
              fixtures.name_target fixtures.default_opts fixtures.start)
    as (httpResult & w1 & Hhttp & _ & [[Hacc _] | (_ & r & w2 & _ & _ & Hrun & Hp & _)]).
  - discriminate.
  - right. reflexivity.
  - exfalso. vm_compute in Hhttp. inversion Hhttp; subst.
    destruct Hacc as (_ & _ & Hlt). cbn in Hlt. lia.
  - exists r, w2. split; [exact Hrun |]. split; [exact Hp |].
    vm_compute in Hrun. inversion Hrun. reflexivity.
Defined.

(** C2.  With the flag set to http or https, on a target that has a URL,
    the prober makes one attempt, on the scheme of the flag whatever the
    scheme of the parsed URL, bounded by the timeout [ApplyTimeouts] reads
    from the options (the configured one when it is positive), and returns
    its result as it is: the world it leaves is the one after that
    attempt. *)
Theorem DetectProtocol_manual_mode
        (fs : transport.Files) (nw : http.Network)
        (pt : target.ParsedTarget) (opts : cli.Options) (w : http.World) :
  target.URL pt <> None ->
  cli.Proto opts = "http" \/ cli.Proto opts = "https" ->
  exists r w',
    runStateT (protocol.probeProtocolWithTimeout fs nw pt opts (cli.Proto opts)
                 (transport.ApplyTimeouts opts)) w = inr (r, w')
    /\ prober.one_attempt (cli.Proto opts) (transport.ApplyTimeouts opts) w w'
    /\ runStateT (protocol.DetectProtocol fs nw pt opts) w
       = inr ((r, protocol.Error r), w')
    /\ protocol.Protocol r = cli.Proto opts
    /\ (0 < cli.Timeout opts -> transport.ApplyTimeouts opts = cli.Timeout opts).
Proof.
  intros Hurl Hmanual.
  assert (Hset : cli.Proto opts <> "" /\ cli.Proto opts <> "auto").
  { destruct Hmanual as [-> | ->]; split; discriminate. }
  destruct Hset as [Hne Hna].
  destruct (probe_returns fs nw pt opts (cli.Proto opts)
              (transport.ApplyTimeouts opts) w Hurl) as (r & w' & Hrun).
  exists r, w'. split; [exact Hrun |]. split.
  { eapply probe_one_attempt; [exact Hrun | exact Hne]. }
  split.
  { rewrite (detect_manual fs nw pt opts w Hne Hna). now rewrite Hrun. }
  split; [exact (probe_Protocol _ _ _ _ _ _ _ _ _ Hrun) |].
  intros Hpos. unfold transport.ApplyTimeouts.
  destruct (Z.gtb_spec (cli.Timeout opts) 0); [reflexivity | lia].
Qed.

Lemma DetectProtocol_manual_mode_witness :
  option_map url.Scheme (target.URL fixtures.explicit_https_target) = Some "https"
  /\ exists r w',
      runStateT (protocol.DetectProtocol fixtures.no_files fixtures.http_200_only
                   fixtures.explicit_https_target
                   (fixtures.with_proto fixtures.default_opts "http")) fixtures.start
      = inr ((r, protocol.Error r), w')
      /\ protocol.Protocol r = "http"
      /\ List.map (fun x => http.URL (http.req x)) (http.sent w')
         = ["http://example.com/"].
Proof.
  split; [reflexivity |].
  destruct (DetectProtocol_manual_mode fixtures.no_files fixtures.http_200_only
              fixtures.explicit_https_target
              (fixtures.with_proto fixtures.default_opts "http") fixtures.start)
    as (r & w' & _ & _ & Hrun & Hp & _).
  - discriminate.
  - left. reflexivity.
  - exists r, w'. split; [exact Hrun |]. split; [exact Hp |].
    vm_compute in Hrun. inversion Hrun. reflexivity.
Defined.

(** C10.  The error returned next to the result is nil in auto mode,
    whatever happened to the two attempts, and is the [Error] field of the
    result in manual mode. *)
Theorem DetectProtocol_returned_error
        (fs : transport.Files) (nw : http.Network)
        (pt : target.ParsedTarget) (opts : cli.Options) (w : http.World)
        (result : protocol.ProbeResult) (err : option errors.error)
        (w' : http.World) :
  runStateT (protocol.DetectProtocol fs nw pt opts) w = inr ((result, err), w') ->
  (cli.Proto opts = "" \/ cli.Proto opts = "auto" -> err = None)
  /\ (cli.Proto opts <> "" -> cli.Proto opts <> "auto" ->
      err = protocol.Error result).
Proof.
  intros Hrun. split.
  - intros Hauto. exact (detect_auto_nil fs nw pt opts w w' result err Hauto Hrun).
  - intros H1 H2. rewrite (detect_manual fs nw pt opts w H1 H2) in Hrun.
    destruct (runStateT _ w) as [p | [r w1]]; [discriminate Hrun |].
    now inversion Hrun.
Qed.

Lemma DetectProtocol_returned_error_witness :
  (* auto mode with nothing listening: both attempts fail, nil is returned *)
  (exists result w',
     runStateT (protocol.DetectProtocol fixtures.no_files fixtures.unreachable
                  fixtures.name_target fixtures.default_opts) fixtures.start
     = inr ((result, None), w')
     /\ protocol.Error result <> None)
  (* manual mode: the error of the result is returned *)
  /\ (exists result e w',
        runStateT (protocol.DetectProtocol fixtures.no_files fixtures.unreachable
                     fixtures.name_target
                     (fixtures.with_proto fixtures.default_opts "https")) fixtures.start
        = inr ((result, Some e), w')
        /\ protocol.Error result = Some e).
Proof.
  split.
  - destruct (runStateT (protocol.DetectProtocol fixtures.no_files fixtures.unreachable
                           fixtures.name_target fixtures.default_opts) fixtures.start)
      as [p | [[result err] w']] eqn:Hrun; [vm_compute in Hrun; discriminate Hrun |].
    destruct (DetectProtocol_returned_error _ _ _ _ _ _ _ _ Hrun) as [Hauto _].
    rewrite (Hauto (or_intror eq_refl)).
    exists result, w'. split; [reflexivity |].
    vm_compute in Hrun. inversion Hrun. discriminate.
  - destruct (runStateT (protocol.DetectProtocol fixtures.no_files fixtures.unreachable
                           fixtures.name_target
                           (fixtures.with_proto fixtures.default_opts "https"))
                fixtures.start)
      as [p | [[result err] w']] eqn:Hrun; [vm_compute in Hrun; discriminate Hrun |].
    destruct (DetectProtocol_returned_error _ _ _ _ _ _ _ _ Hrun) as [_ Hmanual].
    assert (Herr : err = protocol.Error result)
      by (apply Hmanual; discriminate).
    destruct err as [e |].
    + exists result, e, w'. split; [reflexivity | now symmetry].
    + exfalso. vm_compute in Hrun. inversion Hrun.
Defined.

(** ** The explicit-scheme flag and the response bodies *)

(** [DetectProtocol] never reads [HasExplicitProto]. *)
Lemma DetectProtocol_ignores_HasExplicitProto
      (fs : transport.Files) (nw : http.Network)
      (pt : target.ParsedTarget) (opts : cli.Options) (b : bool) :
  protocol.DetectProtocol fs nw pt opts
  = protocol.DetectProtocol fs nw
      (target.mkParsedTarget (target.URL pt) (target.IsIP pt) b
                             (target.OriginalInput pt)) opts.
Proof. destruct pt. reflexivity. Qed.

(** [DetectProtocol] closes no response body. *)
Lemma DetectProtocol_keeps_bodies
      (fs : transport.Files) (nw : http.Network)
      (pt : target.ParsedTarget) (opts : cli.Options)
      (w w' : http.World) (out : protocol.ProbeResult * option errors.error) :
  runStateT (protocol.DetectProtocol fs nw pt opts) w = inr (out, w') ->
  incl (http.open_bodies w) (http.open_bodies w').
Proof.
  unfold protocol.DetectProtocol, protocol.probeProtocol.
  destruct (negb (cli.Proto opts =? "")%string && negb (cli.Proto opts =? "auto")%string);
    rewrite run_bind.
  - destruct (runStateT _ w) as [p | [r w1]] eqn:H1; [discriminate |].
    cbn. intros H. inversion H; subst.
    exact (probe_keeps_bodies _ _ _ _ _ _ _ _ _ H1).
  - destruct (runStateT _ w) as [p | [r w1]] eqn:H1; [discriminate |].
    pose proof (probe_keeps_bodies _ _ _ _ _ _ _ _ _ H1) as I1.
    destruct (protocol.isNil (protocol.Error r) && _ && _).
    + cbn. intros H. inversion H; subst. exact I1.
    + rewrite run_bind.
      destruct (runStateT _ w1) as [p | [r' w2]] eqn:H2; [discriminate |].
      pose proof (probe_keeps_bodies _ _ _ _ _ _ _ _ _ H2) as I2.
      destruct (protocol.isNil (protocol.Error r')); cbn; intros H;
        inversion H; subst; eauto using incl_tran.
Qed.

Lemma fresh_weaken (l : list nat) (n m : nat) :
  (n <= m)%nat -> Forall (fun h => (h < n)%nat) l -> Forall (fun h => (h < m)%nat) l.
Proof. intros Hle. apply Forall_impl. intros h Hh. lia. Qed.

(** The prober keeps the handles fresh. *)
Section Fresh.
Variable fs : transport.Files.
Variable nw : http.Network.
Variables (pt : target.ParsedTarget) (opts : cli.Options).

Lemma probe_fresh (proto : string) (timeout : Z) (w w' : http.World)
      (r : protocol.ProbeResult) :
  runStateT (protocol.probeProtocolWithTimeout fs nw pt opts proto timeout) w
  = inr (r, w') ->
  prober.handles_fresh w -> prober.handles_fresh w'.
Proof.
  intros Hrun Hw. rewrite probe_run in Hrun. unfold prober.handles_fresh in *.
  probe_cases Hrun; cbn; try assumption;
    rewrite ?length_app; cbn;
    try constructor; try lia;
    (eapply fresh_weaken; [| exact Hw]; lia).
Qed.

Lemma DetectProtocol_fresh (w w' : http.World)
      (out : protocol.ProbeResult * option errors.error) :
  runStateT (protocol.DetectProtocol fs nw pt opts) w = inr (out, w') ->
  prober.handles_fresh w -> prober.handles_fresh w'.
Proof.
  unfold protocol.DetectProtocol, protocol.probeProtocol.
  destruct (negb (cli.Proto opts =? "")%string && negb (cli.Proto opts =? "auto")%string);
    rewrite run_bind.
  - destruct (runStateT _ w) as [p | [r w1]] eqn:H1; [discriminate |].
    cbn. intros H Hw. inversion H; subst. exact (probe_fresh _ _ _ _ _ H1 Hw).
  - destruct (runStateT _ w) as [p | [r w1]] eqn:H1; [discriminate |].
    intros H Hw. pose proof (probe_fresh _ _ _ _ _ H1 Hw) as I1. revert H.
    destruct (protocol.isNil (protocol.Error r) && _ && _).
    + cbn. intros H. inversion H; subst. exact I1.
    + rewrite run_bind.
      destruct (runStateT _ w1) as [p | [r' w2]] eqn:H2; [discriminate |].
      pose proof (probe_fresh _ _ _ _ _ H2 I1) as I2.
      destruct (protocol.isNil (protocol.Error r')); cbn; intros H;
        inversion H; subst; exact I2.
Qed.

End Fresh.

Lemma printError_run (err : option errors.error) (w : http.World) :
  exists w',
    runStateT (main.printError err) w = inr (tt, w')
    /\ http.sent w' = http.sent w /\ http.open_bodies w' = http.open_bodies w.
Proof. destruct err; cbn; eauto. Qed.

Lemma BuildRequest_world (tx : request.Text) (nw : http.Network) (deadline : Z)
      (pt : target.ParsedTarget) (opts : cli.Options) (w w' : http.World)
      (built : errors.error + http.Request) :
  runStateT (request.BuildRequest tx nw deadline pt opts) w = inr (built, w') ->
  w' = w.
Proof.
  unfold request.BuildRequest.
  destruct (target.URL pt); [| discriminate].
  destruct (http.NewRequestWithContext _ _ _ _ _); cbn; intros H; now inversion H.
Qed.

Section Run.
Variable ip : string -> bool.
Variable fs : transport.Files.
Variable nw : http.Network.
Variable tx : request.Text.
Variable write : cli.Options -> http.Request -> protocol.ProbeResult -> option goerror.t.

(** Whatever [run] does after the prober has returned, the bodies that
    were open then are open when [run] ends. *)
Lemma run_keeps_probe_bodies (opts : cli.Options) (pt : target.ParsedTarget)
      (w w1 w' : http.World) (out : protocol.ProbeResult * option errors.error)
      (code : Z) :
  prober.handles_fresh w ->
  target.ParseTarget ip (cli.Target opts) = inr pt ->
  runStateT (protocol.DetectProtocol fs nw pt opts) w = inr (out, w1) ->
  runStateT (main.run ip fs nw tx write opts) w = inr (code, w') ->
  incl (http.open_bodies w1) (http.open_bodies w').
Proof.
  intros Hw Hparse Hdetect. pose proof (DetectProtocol_fresh _ _ _ _ _ _ _ Hdetect Hw) as H1.
  unfold main.run. rewrite Hparse, run_bind, Hdetect.
  destruct out as [probeResult err].
  destruct (negb (protocol.isNil err)).
  { rewrite run_bind. destruct (printError_run err w1) as (w2 & -> & _ & Ho).
    cbn. intros H. inversion H; subst. rewrite Ho. apply incl_refl. }
  destruct (negb (protocol.isNil (protocol.Error probeResult))).
  { rewrite run_bind.
    destruct (printError_run (protocol.Error probeResult) w1) as (w2 & -> & _ & Ho).
    cbn. intros H. inversion H; subst. rewrite Ho. apply incl_refl. }
  destruct (target.URL pt) as [u |]; [| discriminate].
  rewrite run_bind.
  destruct (runStateT (request.BuildRequest _ _ _ _ _) w1) as [p | [built w2]] eqn:Hb;
    [discriminate |].
  apply BuildRequest_world in Hb. subst w2.
  destruct built as [e | req].
  { rewrite run_bind. destruct (printError_run (Some e) w1) as (w2 & -> & _ & Ho).
    cbn. intros H. inversion H; subst. rewrite Ho. apply incl_refl. }
  destruct (transport.NewTransport fs opts _) as [e | tr].
  { rewrite run_bind. destruct (printError_run (Some e) w1) as (w2 & -> & _ & Ho).
    cbn. intros H. inversion H; subst. rewrite Ho. apply incl_refl. }
  rewrite run_bind. unfold http.Client_Do at 1. cbn.
  destruct (http.result _) as [e | status]; cbn.
  { intros H. inversion H; subst. cbn. apply incl_refl. }
  destruct (write opts req _); cbn; intros H; inversion H; subst; cbn;
    rewrite Nat.eqb_refl; cbn;
    intros h Hin; apply filter_In; (split; [exact Hin |]);
    apply negb_true_iff, Nat.eqb_neq;
    unfold prober.handles_fresh in H1; rewrite Forall_forall in H1;
    specialize (H1 h Hin); lia.
Qed.

End Run.

(** C3.  The input [https://example.com/] is parsed with its scheme marked
    explicit, and in auto mode the prober, called on it directly or by
    [run], still probes it over HTTP and then over HTTPS. *)
Theorem run_probes_explicit_scheme :
  target.ParseTarget (fun _ => false) "https://example.com/"
  = inr fixtures.explicit_https_target
  /\ target.HasExplicitProto fixtures.explicit_https_target = true
  /\ (exists out w',
        runStateT (protocol.DetectProtocol fixtures.no_files fixtures.unreachable
                     fixtures.explicit_https_target fixtures.default_opts)
                  fixtures.start = inr (out, w')
        /\ List.map (fun x => http.URL (http.req x)) (http.sent w')
           = ["http://example.com/"; "https://example.com/"])
  /\ (forall ip tx write,
        exists code w',
          runStateT (main.run ip fixtures.no_files fixtures.unreachable tx write
                       (fixtures.with_target fixtures.default_opts
                          "https://example.com/"))
                    fixtures.start = inr (code, w')
          /\ List.map (fun x => (http.Method (http.req x), http.URL (http.req x)))
                (http.sent w')
             = [("HEAD", "http://example.com/"); ("HEAD", "https://example.com/")]).
Proof.
  split; [reflexivity |]. split; [reflexivity |]. split.
  - eexists. eexists. split; [vm_compute; reflexivity | reflexivity].
  - intros ip tx write. eexists. eexists. split; [vm_compute; reflexivity | reflexivity].
Qed.

(** C9.  No probe response is ever closed.  Against a server that answers
    404 over HTTP and refuses HTTPS, [run] ends with exit code 7 and the
    body of the HTTP probe response, handle 0, still open.  Against a
    server that answers 200, [run] sends the probe and then the actual
    request and closes the body of the actual response only: the body of
    the probe is still open when it ends.  A successful attempt itself
    returns with its body open. *)
Theorem run_leaves_probe_body_open :
  (forall ip tx write,
     exists w',
       runStateT (main.run ip fixtures.no_files fixtures.http_404_only tx write
                    (fixtures.with_target fixtures.default_opts "example.invalid:80"))
                 fixtures.start = inr (errors.ExitConnectFailed, w')
       /\ http.open_bodies w' = [0%nat])
  /\ (forall ip tx write,
        exists code w',
          runStateT (main.run ip fixtures.no_files fixtures.http_200_only tx write
                       (fixtures.with_target fixtures.default_opts "example.invalid:80"))
                    fixtures.start = inr (code, w')
          /\ List.map (fun x => (http.Method (http.req x), http.URL (http.req x)))
                (http.sent w')
             = [("HEAD", "http://example.invalid:80/");
                ("GET", "http://example.invalid:80/")]
          /\ http.open_bodies w' = [0%nat])
  /\ (exists result w',
        runStateT (protocol.probeProtocolWithTimeout fixtures.no_files
                     fixtures.http_200_only fixtures.name_target fixtures.default_opts
                     "http" (3 * time.Second)) fixtures.start
        = inr (result, w')
        /\ protocol.Response result = Some (http.mkResponse 200 0)
        /\ http.open_bodies w' = [0%nat]).
Proof.
  split; [| split].
  - intros ip tx write. eexists. split; [vm_compute; reflexivity | reflexivity].
  - intros ip tx write.
    destruct (runStateT _ fixtures.start) as [p | [code w']] eqn:Hrun;
      vm_compute in Hrun;
      match type of Hrun with
      | context [write ?o ?r ?p] => destruct (write o r p)
      end; inversion Hrun; subst.
    + eexists. eexists. split; [reflexivity |]. split; reflexivity.
    + eexists. eexists. split; [reflexivity |]. split; reflexivity.
  - do 2 eexists. split; [vm_compute; reflexivity | repeat split].
Qed.

(** ** The normaliser: [ParseTarget] *)

Lemma slice_to_app (p s : string) : strings.slice_to (String.length p) (p ++ s) = p.
Proof. induction p as [| c p IH]; cbn; [now destruct s | now rewrite IH]. Qed.

Lemma slice_from_app (p s : string) :
  strings.slice_from (String.length p) (p ++ s) = s.
Proof. induction p as [| c p IH]; cbn; [now destruct s | exact IH]. Qed.

Lemma append_assoc (a b c : string) : ((a ++ b) ++ c = a ++ (b ++ c))%string.
Proof. induction a as [| x a IH]; cbn; [reflexivity | now rewrite IH]. Qed.

Lemma length_snoc (p : string) (c : ascii) :
  String.length (p ++ String c "") = S (String.length p).
Proof. induction p as [| x p IH]; cbn; [reflexivity | now rewrite IH]. Qed.

(** [getScheme]: one step of the loop. *)
Lemma getScheme_loop_step_colon (raw : string) (i : nat) (tail : string) :
  url.getScheme_loop raw i (String ":" tail)
  = if (i =? 0)%nat then inl (url.errorString "missing protocol scheme")
    else inr (strings.slice_to i raw, strings.slice_from (S i) raw).
Proof. reflexivity. Qed.

Lemma getScheme_loop_step_byte (raw : string) (i : nat) (c : ascii) (s : string) :
  scheme.scheme_byte c = true ->
  url.getScheme_loop raw i (String c s)
  = if scheme.letter c then url.getScheme_loop raw (S i) s
    else if (i =? 0)%nat then inr ("", raw)
         else url.getScheme_loop raw (S i) s.
Proof.
  intros Hc. unfold scheme.scheme_byte, scheme.letter in *.
  cbn [url.getScheme_loop].
  destruct (strings.between "a" "z" c || strings.between "A" "Z" c); [reflexivity |].
  cbn [orb] in Hc. rewrite Hc. reflexivity.
Qed.

Lemma slice_from_S_length (p : string) (c : ascii) (s : string) :
  strings.slice_from (S (String.length p)) (p ++ String c s) = s.
Proof. induction p as [| x p IH]; [reflexivity | exact IH]. Qed.

Lemma append_snoc (p : string) (c : ascii) (s : string) :
  ((p ++ String c "") ++ s = p ++ String c s)%string.
Proof. induction p as [| x p IH]; cbn; [reflexivity | now rewrite IH]. Qed.

Lemma append_empty_r (p : string) : (p ++ "")%string = p.
Proof. induction p as [| x p IH]; cbn; [reflexivity | now rewrite IH]. Qed.

Lemma getScheme_loop_scheme (s pre tail : string) :
  scheme.all_bytes scheme.scheme_byte s = true ->
  pre <> "" ->
  url.getScheme_loop (pre ++ s ++ String ":" tail) (String.length pre)
                     (s ++ String ":" tail)
  = inr (pre ++ s, tail)%string.
Proof.
  revert pre. induction s as [| c s IH]; intros pre Hall Hpre.
  - change ("" ++ String ":" tail)%string with (String ":" tail).
    rewrite getScheme_loop_step_colon.
    destruct pre as [| p0 pre]; [congruence |].
    change (String.length (String p0 pre) =? 0)%nat with false. cbv iota.
    rewrite slice_to_app.
    rewrite slice_from_S_length.
    rewrite append_empty_r. reflexivity.
  - cbn [scheme.all_bytes] in Hall. apply andb_true_iff in Hall as [Hc Hall].
    change (String c s ++ String ":" tail)%string
      with (String c (s ++ String ":" tail)).
    rewrite (getScheme_loop_step_byte _ _ _ _ Hc).
    assert (Hnext : url.getScheme_loop (pre ++ String c (s ++ String ":" tail))
                      (S (String.length pre)) (s ++ String ":" tail)
                    = inr (pre ++ String c s, tail)%string).
    { specialize (IH (pre ++ String c "")%string Hall).
      rewrite length_snoc, !append_snoc in IH. apply IH.
      destruct pre; discriminate. }
    destruct (scheme.letter c); [exact Hnext |].
    destruct pre as [| p0 pre]; [congruence |]. exact Hnext.
Qed.

(** Binding a value of the error monad. *)
Lemma sum_bind_inr {E A B : Type} (a : A) (f : A -> E + B) :
  bind (inr a) f = f a.
Proof. reflexivity. Qed.

Lemma sum_bind_inv {E A B : Type} (c : E + A) (f : A -> E + B) (b : B) :
  bind c f = inr b -> exists a, c = inr a /\ f a = inr b.
Proof. destruct c as [e | a]; cbn; [discriminate | eauto]. Qed.

Lemma parse_Scheme (raw sch rest : string) (u : url.URL) :
  raw <> "*" ->
  url.getScheme raw = inr (sch, rest) ->
  url.parse raw false = inr u ->
  url.Scheme u = strings.ToLower sch.
Proof.
  intros Hstar Hsch. unfold url.parse. rewrite Hsch.
  apply String.eqb_neq in Hstar. rewrite Hstar, andb_false_r.
  destruct (url.stringContainsCTLByte raw); [discriminate |].
  rewrite sum_bind_inr.
  destruct (if strings.HasSuffix rest "?" && (strings.CountByte rest "?" =? 1)%nat
            then _ else _) as [[rest' forceQuery] rawQuery].
  repeat match goal with
         | |- context [if ?c then _ else _] => destruct c
         end; try discriminate.
  - intros H. now inversion H.
  - destruct (match strings.Index _ "/" with Some _ => _ | None => _ end)
      as [authority rest''].
    intros H. apply sum_bind_inv in H as ([user host] & _ & H).
    apply sum_bind_inv in H as (path & _ & H). now inversion H.
  - intros H. apply sum_bind_inv in H as (path & _ & H). now inversion H.
Qed.

Lemma Index_unfold (s substr : string) :
  strings.Index s substr
  = if strings.HasPrefix s substr then Some 0%nat
    else match s with
         | "" => None
         | String _ s' => option_map S (strings.Index s' substr)
         end.
Proof. destruct s; reflexivity. Qed.

Lemma Contains_app (a p b : string) : strings.Contains (a ++ p ++ b) p = true.
Proof.
  unfold strings.Contains.
  induction a as [| c a IH]; rewrite Index_unfold.
  - cbn [append]. now rewrite HasPrefix_app.
  - destruct (strings.HasPrefix _ p); [reflexivity |].
    cbn [append]. destruct (strings.Index (a ++ p ++ b) p); [reflexivity | discriminate].
Qed.

(** The URL branch of [ParseTarget]. *)
Lemma ParseTarget_url_branch (ip : string -> bool) (input : string)
      (t : target.ParsedTarget) :
  strings.Contains input "://" = true ->
  target.ParseTarget ip input = inr t ->
  exists u,
    url.Parse input = inr u
    /\ url.Host u <> ""
    /\ t = target.mkParsedTarget (Some u) (target.isIPAddress ip (url.Hostname u))
                                 true input.
Proof.
  intros Hc. unfold target.ParseTarget. rewrite Hc.
  destruct (input =? "")%string; [discriminate |].
  destruct (url.Parse input) as [e | u]; [discriminate |].
  destruct (url.Host u =? "")%string eqn:Hhost; [discriminate |].
  intros H. inversion H. exists u. apply String.eqb_neq in Hhost. auto.
Qed.

(** [Parse] keeps the scheme that [parse] found before the fragment. *)
Lemma Parse_Scheme (input sch rest : string) (u : url.URL) :
  fst (fst (strings.Cut input "#")) <> "*" ->
  url.getScheme (fst (fst (strings.Cut input "#"))) = inr (sch, rest) ->
  url.Parse input = inr u ->
  url.Scheme u = strings.ToLower sch.
Proof.
  unfold url.Parse.
  destruct (strings.Cut input "#") as [[u0 frag] found]. cbn [fst].
  intros Hstar Hsch.
  destruct (url.parse u0 false) as [e | url1] eqn:Hparse; [discriminate |].
  pose proof (parse_Scheme _ _ _ _ Hstar Hsch Hparse) as Hs.
  destruct (frag =? "")%string; [intros H; inversion H; now subst |].
  unfold url.setFragment.
  destruct (url.unescape frag url.encodeFragment) as [e | f]; cbn;
    [discriminate |].
  intros H. inversion H. exact Hs.
Qed.

Lemma scheme_byte_not_hash (c : ascii) :
  scheme.scheme_byte c = true -> Ascii.eqb c "#" = false.
Proof.
  intros Hc. destruct (Ascii.eqb_spec c "#") as [-> |]; [| reflexivity].
  discriminate Hc.
Qed.

Lemma Index_hash_step (c : ascii) (s : string) :
  strings.Index (String c s) "#"
  = if Ascii.eqb c "#" then Some 0%nat else option_map S (strings.Index s "#").
Proof. cbn. now rewrite andb_true_r. Qed.

(** The text before the fragment still starts with the scheme. *)
Lemma Cut_hash_scheme (s rest : string) :
  scheme.all_bytes scheme.scheme_byte s = true ->
  exists r1, fst (fst (strings.Cut (s ++ "://" ++ rest) "#")) = (s ++ "://" ++ r1)%string.
Proof.
  intros Hall. unfold strings.Cut.
  induction s as [| c s IH].
  - cbn [append]. rewrite !Index_hash_step. cbn [Ascii.eqb Bool.eqb].
    destruct (strings.Index rest "#") as [j |]; cbn; eauto.
  - cbn [scheme.all_bytes] in Hall. apply andb_true_iff in Hall as [Hc Hall].
    specialize (IH Hall). destruct IH as [r1 IH]. exists r1.
    change (String c s ++ "://" ++ rest)%string with (String c (s ++ "://" ++ rest)).
    rewrite Index_hash_step, (scheme_byte_not_hash _ Hc).
    destruct (strings.Index (s ++ "://" ++ rest) "#") as [j |];
      cbn in IH |- *; now f_equal.
Qed.

(** [getScheme] on a text that starts with a well-formed scheme. *)
Lemma getScheme_well_formed (s tail : string) :
  scheme.well_formed s = true ->
  url.getScheme (s ++ String ":" tail) = inr (s, tail).
Proof.
  destruct s as [| c s]; [discriminate |]. cbn [scheme.well_formed].
  intros H. apply andb_true_iff in H as [Hc Hall].
  unfold url.getScheme. cbn [append].
  assert (Hb : scheme.scheme_byte c = true)
    by (unfold scheme.scheme_byte; now rewrite Hc).
  rewrite (getScheme_loop_step_byte _ _ _ _ Hb), Hc.
  apply (getScheme_loop_scheme s (String c "") tail Hall). discriminate.
Qed.

Lemma ToLower_lower_case (s : string) :
  scheme.lower_case s = true -> strings.ToLower s = s.
Proof.
  unfold scheme.lower_case.
  induction s as [| c s IH]; cbn [scheme.all_bytes strings.ToLower]; [reflexivity |].
  intros H. apply andb_true_iff in H as [Hc Hall].
  rewrite (IH Hall). unfold strings.lower_byte.
  apply negb_true_iff in Hc. now rewrite Hc.
Qed.

Section Normaliser.
Variable ip : string -> bool.
Variables (input : string) (t : target.ParsedTarget).
Hypothesis accepted : target.ParseTarget ip input = inr t.

Lemma ParseTarget_explicit_flag :
  strings.Contains input "://" = true -> target.HasExplicitProto t = true.
Proof.
  intros Hc. destruct (ParseTarget_url_branch ip input t Hc accepted)
    as (u & _ & _ & ->). reflexivity.
Qed.

Lemma ParseTarget_scheme_lowered (s rest : string) :
  input = (s ++ "://" ++ rest)%string ->
  scheme.well_formed s = true ->
  option_map url.Scheme (target.URL t) = Some (strings.ToLower s).
Proof.
  intros Hin Hwf.
  assert (Hc : strings.Contains input "://" = true)
    by (rewrite Hin; apply Contains_app).
  destruct (ParseTarget_url_branch ip input t Hc accepted) as (u & Hparse & _ & ->).
  cbn [target.URL option_map]. f_equal.
  assert (Hall : scheme.all_bytes scheme.scheme_byte s = true).
  { destruct s as [| c s]; [discriminate |]. cbn in Hwf |- *.
    apply andb_true_iff in Hwf as [Hc' Hall]. unfold scheme.scheme_byte at 1.
    now rewrite Hc', Hall. }
  destruct (Cut_hash_scheme s rest Hall) as [r1 Hcut]. rewrite <- Hin in Hcut.
  apply (Parse_Scheme input s ("//" ++ r1) u); [| | exact Hparse].
  - rewrite Hcut. destruct s as [| c [| c' s]]; discriminate.
  - rewrite Hcut. apply (getScheme_well_formed s ("//" ++ r1) Hwf).
Qed.

End Normaliser.

(** C5.  An accepted input that contains [://] is marked as having an
    explicit scheme.  When the input is a well-formed scheme followed by
    [://], the scheme of the URL is that scheme in lower case: a scheme
    written in lower case is kept as it is. *)
Theorem ParseTarget_explicit_scheme
        (ip : string -> bool) (input : string) (t : target.ParsedTarget) :
  target.ParseTarget ip input = inr t ->
  (strings.Contains input "://" = true -> target.HasExplicitProto t = true)
  /\ (forall s rest,
        input = (s ++ "://" ++ rest)%string ->
        scheme.well_formed s = true ->
        target.HasExplicitProto t = true
        /\ option_map url.Scheme (target.URL t) = Some (strings.ToLower s)
        /\ (scheme.lower_case s = true ->
            option_map url.Scheme (target.URL t) = Some s)).
Proof.
  intros Hacc. split.
  - now apply (ParseTarget_explicit_flag ip input t).
  - intros s rest Hin Hwf.
    pose proof (ParseTarget_scheme_lowered ip input t Hacc s rest Hin Hwf) as Hs.
    split; [| split].
    + apply (ParseTarget_explicit_flag ip input t Hacc).
      rewrite Hin. apply Contains_app.
    + exact Hs.
    + intros Hlow. now rewrite Hs, ToLower_lower_case.
Qed.

Lemma ParseTarget_explicit_scheme_witness :
  exists t,
    target.ParseTarget (fun _ => false) "HTTP://example.com/" = inr t
    /\ target.HasExplicitProto t = true
    /\ option_map url.Scheme (target.URL t) = Some "http".
Proof.
  eexists. split; [reflexivity |].
  destruct (ParseTarget_explicit_scheme (fun _ => false) "HTTP://example.com/" _ eq_refl)
    as [_ Hs].
  destruct (Hs "HTTP" "example.com/" eq_refl eq_refl) as (He & Hl & _).
  split; [exact He | exact Hl].
Defined.

(** C5, as the claim words it: the scheme of the URL is not always the
    scheme as the input spells it.  The input [HTTP://example.com/] is
    accepted with the scheme [http]. *)
Lemma ParseTarget_scheme_not_literal :
  ~ (forall (ip : string -> bool) (input : string) (t : target.ParsedTarget)
            (s rest : string),
        target.ParseTarget ip input = inr t ->
        input = (s ++ "://" ++ rest)%string ->
        scheme.well_formed s = true ->
        option_map url.Scheme (target.URL t) = Some s).
Proof.
  intros H.
  specialize (H (fun _ => false) "HTTP://example.com/" _ "HTTP" "example.com/"
                eq_refl eq_refl eq_refl).
  discriminate H.
Qed.

(** C6.  The input [http://example.com] is accepted with an empty path,
    where the same host without a scheme gets the path [/]; a query
    directly after the host empties the path of a schemeless input too. *)
Theorem ParseTarget_path_can_be_empty (ip : string -> bool) :
  (exists t, target.ParseTarget ip "http://example.com" = inr t
             /\ option_map url.Path (target.URL t) = Some "")
  /\ (exists t, target.ParseTarget ip "example.com" = inr t
                /\ option_map url.Path (target.URL t) = Some "/")
  /\ (exists t, target.ParseTarget ip "example.com?x=1" = inr t
                /\ option_map url.Path (target.URL t) = Some "").
Proof. repeat split; eexists; split; reflexivity. Qed.

(** ** Facts about bytes, decided byte by byte *)

Lemma all_bool_spec (f : bool -> bool) :
  shape.all_bool f = true -> forall b, f b = true.
Proof.
  unfold shape.all_bool. intros H b. apply andb_true_iff in H as [Ht Hf].
  now destruct b.
Qed.

Lemma all_ascii_spec (P : ascii -> bool) :
  shape.all_ascii P = true -> forall c, P c = true.
Proof.
  intros H [b0 b1 b2 b3 b4 b5 b6 b7]. unfold shape.all_ascii in H.
  pose proof (all_bool_spec _ H b0) as H0. cbv beta in H0.
  pose proof (all_bool_spec _ H0 b1) as H1. cbv beta in H1.
  pose proof (all_bool_spec _ H1 b2) as H2. cbv beta in H2.
  pose proof (all_bool_spec _ H2 b3) as H3. cbv beta in H3.
  pose proof (all_bool_spec _ H3 b4) as H4. cbv beta in H4.
  pose proof (all_bool_spec _ H4 b5) as H5. cbv beta in H5.
  pose proof (all_bool_spec _ H5 b6) as H6. cbv beta in H6.
  exact (all_bool_spec _ H6 b7).
Qed.

(** A fact about bytes decided by looking at each of them. *)
Ltac by_bytes :=
  match goal with
  | |- forall c : ascii, @?P c = true -> @?Q c = ?v =>
      let H := fresh "H" in
      assert (H : forall c, implb (P c) (Bool.eqb (Q c) v) = true);
      [ apply (all_ascii_spec (fun c => implb (P c) (Bool.eqb (Q c) v)));
        vm_compute; reflexivity
      | let c := fresh "c" in
        let Hc := fresh "Hc" in
        intros c Hc; specialize (H c); cbv beta in H; rewrite Hc in H;
        cbn [implb] in H; now apply Bool.eqb_prop in H ]
  end.


(** ** Strings without a given byte *)

Lemma all_bytes_app (p : ascii -> bool) (a b : string) :
  scheme.all_bytes p (a ++ b) = scheme.all_bytes p a && scheme.all_bytes p b.
Proof.
  induction a as [| c a IH]; cbn; [reflexivity |].
  now rewrite IH, andb_assoc.
Qed.

Lemma all_bytes_impl (p q : ascii -> bool) (s : string) :
  (forall c, p c = true -> q c = true) ->
  scheme.all_bytes p s = true -> scheme.all_bytes q s = true.
Proof.
  intros Hpq. induction s as [| c s IH]; cbn; [reflexivity |].
  intros H. apply andb_true_iff in H as [Hc Hs].
  now rewrite (Hpq c Hc), IH.
Qed.


Lemma all_bytes_slice_from (p : ascii -> bool) (n : nat) (s : string) :
  scheme.all_bytes p s = true -> scheme.all_bytes p (strings.slice_from n s) = true.
Proof.
  revert n. induction s as [| c s IH]; intros [| n]; cbn; auto.
  intros H. apply andb_true_iff in H as [_ Hs]. now apply IH.
Qed.

Lemma HasPrefix_cons (c x : ascii) (s p : string) :
  strings.HasPrefix (String x s) (String c p)
  = Ascii.eqb x c && strings.HasPrefix s p.
Proof. reflexivity. Qed.

Lemma Index_without (c : ascii) (p s : string) :
  shape.without c s = true -> strings.Index s (String c p) = None.
Proof.
  unfold shape.without. induction s as [| x s IH]; [reflexivity |].
  cbn [scheme.all_bytes]. intros H. apply andb_true_iff in H as [Hx Hs].
  rewrite Index_unfold, HasPrefix_cons.
  apply negb_true_iff in Hx. rewrite Hx. cbn [andb]. now rewrite (IH Hs).
Qed.

Lemma Contains_without (c : ascii) (p s : string) :
  shape.without c s = true -> strings.Contains s (String c p) = false.
Proof. intros H. unfold strings.Contains. now rewrite Index_without. Qed.

(** Skipping a prefix that does not hold the first byte looked for. *)
Lemma Index_skip (c : ascii) (p a b : string) :
  shape.without c a = true ->
  strings.Index (a ++ b) (String c p)
  = option_map (Nat.add (String.length a)) (strings.Index b (String c p)).
Proof.
  unfold shape.without. induction a as [| x a IH].
  - intros _. cbn [append String.length]. now destruct (strings.Index b _).
  - cbn [scheme.all_bytes]. intros H. apply andb_true_iff in H as [Hx Ha].
    change (String x a ++ b) with (String x (a ++ b)).
    rewrite Index_unfold, HasPrefix_cons.
    apply negb_true_iff in Hx. rewrite Hx. cbn [andb]. rewrite (IH Ha).
    now destruct (strings.Index b _).
Qed.

Lemma Index_first (c : ascii) (a b : string) :
  shape.without c a = true ->
  strings.Index (a ++ String c b) (String c "") = Some (String.length a).
Proof.
  intros Ha. rewrite (Index_skip c "" a (String c b) Ha), Index_unfold.
  rewrite HasPrefix_cons, Ascii.eqb_refl. cbn. now rewrite Nat.add_0_r.
Qed.

Lemma LastIndex_without (c : ascii) (s : string) :
  shape.without c s = true -> strings.LastIndex s (String c "") = None.
Proof.
  unfold shape.without. induction s as [| x s IH]; [reflexivity |].
  cbn [scheme.all_bytes]. intros H. apply andb_true_iff in H as [Hx Hs].
  cbn [strings.LastIndex]. rewrite (IH Hs), HasPrefix_cons.
  apply negb_true_iff in Hx. now rewrite Hx.
Qed.

Lemma LastIndex_last (c : ascii) (a b : string) :
  shape.without c b = true ->
  strings.LastIndex (a ++ String c b) (String c "") = Some (String.length a).
Proof.
  intros Hb. induction a as [| x a IH].
  - cbn [append strings.LastIndex String.length].
    rewrite (LastIndex_without c b Hb), HasPrefix_cons, Ascii.eqb_refl. reflexivity.
  - change (String x a ++ String c b) with (String x (a ++ String c b)).
    cbn [strings.LastIndex String.length]. now rewrite IH.
Qed.



Lemma HasSuffix_without (c : ascii) (s : string) :
  shape.without c s = true -> strings.HasSuffix s (String c "") = false.
Proof.
  intros Hs. unfold strings.HasSuffix.
  destruct (String.eqb_spec
              (strings.slice_from (String.length s - String.length (String c "")) s)
              (String c "")) as [Heq |]; [| now rewrite andb_false_r].
  pose proof (all_bytes_slice_from _ (String.length s - String.length (String c "")) s Hs)
    as Hsl.
  rewrite Heq in Hsl. cbn in Hsl. now rewrite Ascii.eqb_refl in Hsl.
Qed.

Lemma length_append (a b : string) :
  String.length (a ++ b) = (String.length a + String.length b)%nat.
Proof. induction a as [| c a IH]; cbn; [reflexivity | now rewrite IH]. Qed.

Lemma Cut_without (c : ascii) (s : string) :
  shape.without c s = true -> strings.Cut s (String c "") = (s, "", false).
Proof. intros H. unfold strings.Cut. now rewrite Index_without. Qed.

Lemma all_bytes_without (p : ascii -> bool) (c : ascii) (s : string) :
  (forall x, p x = true -> Ascii.eqb x c = false) ->
  scheme.all_bytes p s = true -> shape.without c s = true.
Proof.
  intros Hp. apply all_bytes_impl. intros x Hx. now rewrite (Hp x Hx).
Qed.

Lemma visible_no_control (s : string) :
  scheme.all_bytes shape.visible s = true -> url.stringContainsCTLByte s = false.
Proof.
  induction s as [| c s IH]; [reflexivity |]. cbn [scheme.all_bytes].
  intros H. apply andb_true_iff in H as [Hc Hs].
  cbn [url.stringContainsCTLByte]. rewrite (IH Hs), orb_false_r.
  unfold shape.visible in Hc. now apply negb_true_iff in Hc.
Qed.

(** [unescape] is the identity on a string of literal bytes. *)
Lemma unescape_literal (mode : url.encoding) (s : string) :
  scheme.all_bytes (shape.literal mode) s = true ->
  url.unescape s mode = inr s.
Proof.
  intros H. unfold url.unescape.
  assert (Hscan : url.unescape_scan mode s = None
                  /\ url.unescape_build mode s = s).
  { induction s as [| c s IH]; [split; reflexivity |].
    cbn [scheme.all_bytes] in H. apply andb_true_iff in H as [Hc Hs].
    destruct (IH Hs) as [IH1 IH2].
    unfold shape.literal in Hc.
    apply andb_true_iff in Hc as [Hc Hesc]. apply andb_true_iff in Hc as [Hpct Hplus].
    apply negb_true_iff in Hpct, Hplus, Hesc.
    cbn [url.unescape_scan url.unescape_build].
    rewrite Hpct, Hplus, Hesc. now rewrite IH1, IH2. }
  destruct Hscan as [-> ->]. reflexivity.
Qed.

(** ** [url.Parse] on a plain URL *)

Lemma authority_netloc : forall c, shape.authority_byte c = true -> shape.netloc_byte c = true.
Proof. by_bytes. Qed.
Lemma netloc_not_slash : forall c, shape.netloc_byte c = true -> Ascii.eqb c "/" = false.
Proof. by_bytes. Qed.
Lemma netloc_not_at : forall c, shape.netloc_byte c = true -> Ascii.eqb c "@" = false.
Proof. by_bytes. Qed.
Lemma netloc_not_question : forall c, shape.netloc_byte c = true -> Ascii.eqb c "?" = false.
Proof. by_bytes. Qed.
Lemma netloc_plain : forall c, shape.netloc_byte c = true -> shape.plain_byte c = true.
Proof. by_bytes. Qed.
Lemma authority_not_slash : forall c, shape.authority_byte c = true -> Ascii.eqb c "/" = false.
Proof. by_bytes. Qed.
Lemma authority_literal :
  forall c, shape.authority_byte c = true -> shape.literal url.encodeHost c = true.
Proof. by_bytes. Qed.
Lemma path_literal :
  forall c, shape.path_byte c = true -> shape.literal url.encodePath c = true.
Proof. by_bytes. Qed.
Lemma plain_not_hash : forall c, shape.plain_byte c = true -> Ascii.eqb c "#" = false.
Proof. by_bytes. Qed.
Lemma path_not_question : forall c, shape.path_byte c = true -> Ascii.eqb c "?" = false.
Proof. by_bytes. Qed.
Lemma query_not_question : forall c, shape.query_byte c = true -> Ascii.eqb c "?" = false.
Proof. by_bytes. Qed.
Lemma query_plain : forall c, shape.query_byte c = true -> shape.plain_byte c = true.
Proof. by_bytes. Qed.
Lemma plain_visible : forall c, shape.plain_byte c = true -> shape.visible c = true.
Proof. by_bytes. Qed.
Lemma scheme_plain : forall c, scheme.scheme_byte c = true -> shape.plain_byte c = true.
Proof. by_bytes. Qed.
Lemma path_plain : forall c, shape.path_byte c = true -> shape.plain_byte c = true.
Proof. by_bytes. Qed.

Lemma well_formed_bytes (s : string) :
  scheme.well_formed s = true ->
  s <> "" /\ scheme.all_bytes scheme.scheme_byte s = true.
Proof.
  destruct s as [| c s]; [discriminate |]. cbn. intros H.
  apply andb_true_iff in H as [Hc Hs]. split; [discriminate |].
  unfold scheme.scheme_byte at 1. now rewrite Hc, Hs.
Qed.

Lemma parseAuthority_plain (a : string) :
  shape.without "@" a = true -> url.parseHost a = inr a ->
  url.parseAuthority a = inr (None, a).
Proof.
  intros Hat Hhost. unfold url.parseAuthority.
  rewrite (LastIndex_without "@" a Hat), Hhost. reflexivity.
Qed.

Lemma HasSuffix_cons (x y c : ascii) (s : string) :
  strings.HasSuffix (String x (String y s)) (String c "")
  = strings.HasSuffix (String y s) (String c "").
Proof.
  unfold strings.HasSuffix. cbn [String.length Nat.leb Nat.sub andb strings.slice_from].
  now rewrite Nat.sub_0_r.
Qed.

Lemma HasSuffix_app (c : ascii) (a b : string) :
  b <> "" ->
  strings.HasSuffix (a ++ b) (String c "") = strings.HasSuffix b (String c "").
Proof.
  intros Hb. induction a as [| x a IH]; [reflexivity |].
  cbn [append]. destruct (a ++ b)%string as [| y r] eqn:E.
  - destruct a; [cbn in E; congruence | discriminate E].
  - now rewrite HasSuffix_cons.
Qed.

Lemma Cut_first (c : ascii) (a b : string) :
  shape.without c a = true ->
  strings.Cut (a ++ String c b) (String c "") = (a, b, true).
Proof.
  intros Ha. unfold strings.Cut.
  rewrite (Index_first c a b Ha), slice_to_app.
  cbn [String.length]. now rewrite Nat.add_1_r, slice_from_S_length.
Qed.

Section ParsePlain.
Variables (s a P : string).
Hypothesis Hs : scheme.well_formed s = true.
Hypothesis Ha : scheme.all_bytes shape.netloc_byte a = true.
Hypothesis Hhost : url.parseHost a = inr a.
Hypothesis HP : scheme.all_bytes shape.path_byte P = true.
Hypothesis Hroot : P = "" \/ strings.HasPrefix P "/" = true.

Lemma plain_rest : scheme.all_bytes shape.plain_byte ("//" ++ a ++ P) = true.
Proof.
  change ("//" ++ a ++ P)%string with (String "/" (String "/" (a ++ P))).
  cbn [scheme.all_bytes]. rewrite all_bytes_app.
  rewrite (all_bytes_impl _ _ a netloc_plain Ha).
  rewrite (all_bytes_impl _ _ P path_plain HP). reflexivity.
Qed.

Lemma rest_not_question : shape.without "?" ("//" ++ a ++ P) = true.
Proof.
  change ("//" ++ a ++ P)%string with (String "/" (String "/" (a ++ P))).
  unfold shape.without. cbn [scheme.all_bytes]. rewrite all_bytes_app.
  fold (shape.without "?" a). fold (shape.without "?" P).
  rewrite (all_bytes_without _ _ _ netloc_not_question Ha).
  rewrite (all_bytes_without _ _ _ path_not_question HP). reflexivity.
Qed.

Lemma authority_split :
  match strings.Index (a ++ P) "/" with
  | Some i => (strings.slice_to i (a ++ P), strings.slice_from i (a ++ P))
  | None => ((a ++ P)%string, "")
  end = (a, P).
Proof.
  pose proof (all_bytes_without _ "/" a netloc_not_slash Ha) as Hslash.
  destruct Hroot as [-> | Hr].
  - rewrite append_empty_r, (Index_without "/" "" a Hslash). reflexivity.
  - destruct P as [| c P']; [discriminate |].
    cbn in Hr. apply andb_true_iff in Hr as [Hc _].
    apply Ascii.eqb_eq in Hc. subst c.
    rewrite (Index_first "/" a P' Hslash), slice_to_app, slice_from_app. reflexivity.
Qed.

(** What [Parse] does once the query has been cut off the rest. *)
Lemma Parse_cut (R q : string) (found : bool) :
  scheme.all_bytes shape.plain_byte R = true ->
  strings.HasSuffix R "?" = false ->
  strings.Cut R "?" = (("//" ++ a ++ P)%string, q, found) ->
  url.Parse (s ++ String ":" R)
  = inr (url.mkURL (strings.ToLower s) "" None a P false false q "").
Proof.
  intros HR Hsuffix Hcut.
  assert (Hin : scheme.all_bytes shape.plain_byte (s ++ String ":" R) = true).
  { rewrite all_bytes_app. destruct (well_formed_bytes s Hs) as [_ Hall].
    rewrite (all_bytes_impl _ _ s scheme_plain Hall).
    cbn [scheme.all_bytes andb]. now rewrite HR. }
  unfold url.Parse.
  rewrite (Cut_without "#" _ (all_bytes_without _ _ _ plain_not_hash Hin)).
  unfold url.parse.
  rewrite (visible_no_control _ (all_bytes_impl _ _ _ plain_visible Hin)).
  rewrite andb_false_r.
  assert (Hstar : ((s ++ String ":" R) =? "*")%string = false).
  { destruct s as [| c [| c' s']]; [discriminate Hs | |]; cbn;
      destruct (Ascii.eqb c "*"); reflexivity. }
  rewrite Hstar, (getScheme_well_formed s _ Hs), sum_bind_inr.
  rewrite Hsuffix. cbn [andb]. rewrite Hcut.
  assert (Hlow : (strings.ToLower s =? "")%string = false).
  { destruct s; [discriminate Hs | reflexivity]. }
  rewrite Hlow.
  change (strings.HasPrefix ("//" ++ a ++ P) "/") with true.
  change (strings.HasPrefix ("//" ++ a ++ P) "//") with true.
  cbn [negb andb orb].
  change (strings.slice_from 2 ("//" ++ a ++ P)) with (a ++ P)%string.
  rewrite authority_split.
  rewrite (parseAuthority_plain a (all_bytes_without _ _ _ netloc_not_at Ha) Hhost).
  rewrite sum_bind_inr.
  rewrite (unescape_literal url.encodePath P (all_bytes_impl _ _ _ path_literal HP)).
  reflexivity.
Qed.

(** [url.Parse] of scheme, authority and path gives back the three. *)
Lemma Parse_plain :
  url.Parse (s ++ "://" ++ a ++ P)
  = inr (url.mkURL (strings.ToLower s) "" None a P false false "" "").
Proof.
  change (s ++ "://" ++ a ++ P)%string with (s ++ String ":" ("//" ++ a ++ P))%string.
  apply (Parse_cut _ "" false plain_rest).
  - exact (HasSuffix_without "?" _ rest_not_question).
  - exact (Cut_without "?" _ rest_not_question).
Qed.

(** The same with a query after the path. *)
Lemma Parse_query (q : string) :
  q <> "" -> scheme.all_bytes shape.query_byte q = true ->
  url.Parse (s ++ "://" ++ a ++ P ++ "?" ++ q)
  = inr (url.mkURL (strings.ToLower s) "" None a P false false q "").
Proof.
  intros Hne Hq.
  replace (s ++ "://" ++ a ++ P ++ "?" ++ q)%string
    with (s ++ String ":" (("//" ++ a ++ P) ++ String "?" q))%string.
  2:{ f_equal. f_equal. cbn [append]. f_equal. f_equal.
      now rewrite append_assoc. }
  apply (Parse_cut _ q true).
  - rewrite all_bytes_app, plain_rest. cbn [scheme.all_bytes andb].
    exact (all_bytes_impl _ _ _ query_plain Hq).
  - rewrite (HasSuffix_app "?" _ (String "?" q)) by discriminate.
    destruct q as [| c q']; [congruence |]. rewrite HasSuffix_cons.
    exact (HasSuffix_without "?" _ (all_bytes_without _ _ _ query_not_question Hq)).
  - exact (Cut_first "?" _ q rest_not_question).
Qed.

End ParsePlain.

(** ** Host and port *)

Lemma host_authority : forall c, shape.host_byte c = true -> shape.authority_byte c = true.
Proof. by_bytes. Qed.
Lemma host_not_colon : forall c, shape.host_byte c = true -> Ascii.eqb c ":" = false.
Proof. by_bytes. Qed.
Lemma host_not_open : forall c, shape.host_byte c = true -> Ascii.eqb c "[" = false.
Proof. by_bytes. Qed.
Lemma host_not_close : forall c, shape.host_byte c = true -> Ascii.eqb c "]" = false.
Proof. by_bytes. Qed.
Lemma host_not_slash : forall c, shape.host_byte c = true -> Ascii.eqb c "/" = false.
Proof. by_bytes. Qed.
Lemma digit_host : forall c, strings.between "0" "9" c = true -> shape.host_byte c = true.
Proof. by_bytes. Qed.
Lemma path_not_colon : forall c, shape.path_byte c = true -> Ascii.eqb c ":" = false.
Proof. by_bytes. Qed.
Lemma authority_not_open : forall c, shape.authority_byte c = true -> Ascii.eqb c "[" = false.
Proof. by_bytes. Qed.
Lemma authority_not_close : forall c, shape.authority_byte c = true -> Ascii.eqb c "]" = false.
Proof. by_bytes. Qed.

Lemma all_digits_bytes (p : string) :
  url.all_digits p = scheme.all_bytes (strings.between "0" "9") p.
Proof. induction p as [| c p IH]; cbn; [reflexivity | now rewrite IH]. Qed.

Lemma HasPrefix_without (c : ascii) (p s : string) :
  shape.without c s = true -> strings.HasPrefix s (String c p) = false.
Proof.
  destruct s as [| x s]; [reflexivity |]. cbn.
  destruct (Ascii.eqb x c); [discriminate | reflexivity].
Qed.

Lemma hostname_bytes (h : string) :
  shape.hostname h = true -> h <> "" /\ scheme.all_bytes shape.host_byte h = true.
Proof.
  unfold shape.hostname. intros H. apply andb_true_iff in H as [Hne Hall].
  split; [| exact Hall]. intros ->. discriminate Hne.
Qed.

Lemma port_bytes (p : string) :
  shape.port p = true -> p <> "" /\ scheme.all_bytes shape.host_byte p = true
                         /\ url.all_digits p = true.
Proof.
  unfold shape.port. intros H. apply andb_true_iff in H as [Hne Hall].
  split; [intros ->; discriminate Hne |]. split; [| exact Hall].
  rewrite all_digits_bytes in Hall. exact (all_bytes_impl _ _ p digit_host Hall).
Qed.

Lemma opt_path_bytes (P : string) :
  shape.opt_path P = true ->
  scheme.all_bytes shape.path_byte P = true
  /\ (P = "" \/ strings.HasPrefix P "/" = true).
Proof.
  unfold shape.opt_path, shape.path. intros H.
  apply orb_true_iff in H as [H | H].
  - apply String.eqb_eq in H. subst P. split; [reflexivity | now left].
  - apply andb_true_iff in H as [H1 H2]. split; [exact H2 | now right].
Qed.

Section HostPort.
Variables (h p : string).
Hypothesis Hh : scheme.all_bytes shape.host_byte h = true.
Hypothesis Hp : scheme.all_bytes shape.host_byte p = true.
Hypothesis Hd : url.all_digits p = true.

Lemma host_port_authority :
  scheme.all_bytes shape.authority_byte (h ++ ":" ++ p) = true.
Proof.
  rewrite all_bytes_app. cbn [append scheme.all_bytes].
  rewrite (all_bytes_impl _ _ h host_authority Hh).
  rewrite (all_bytes_impl _ _ p host_authority Hp). reflexivity.
Qed.

Lemma LastIndex_host_port :
  strings.LastIndex (h ++ ":" ++ p) ":" = Some (String.length h).
Proof.
  exact (LastIndex_last ":" h p (all_bytes_without _ _ _ host_not_colon Hp)).
Qed.

Lemma parseHost_name : url.parseHost h = inr h.
Proof.
  unfold url.parseHost.
  rewrite (HasPrefix_without "[" "" h (all_bytes_without _ _ _ host_not_open Hh)).
  rewrite (LastIndex_without ":" h (all_bytes_without _ _ _ host_not_colon Hh)).
  apply unescape_literal.
  exact (all_bytes_impl _ _ _ authority_literal
           (all_bytes_impl _ _ _ host_authority Hh)).
Qed.

Lemma parseHost_name_port : url.parseHost (h ++ ":" ++ p) = inr (h ++ ":" ++ p)%string.
Proof.
  pose proof host_port_authority as Ha.
  unfold url.parseHost.
  rewrite (HasPrefix_without "[" "" _ (all_bytes_without _ _ _ authority_not_open Ha)).
  rewrite LastIndex_host_port, slice_from_app.
  cbn [append url.validOptionalPort]. rewrite Ascii.eqb_refl, Hd. cbn [andb negb].
  apply unescape_literal. exact (all_bytes_impl _ _ _ authority_literal Ha).
Qed.

(** [Hostname] and [Port] of a [Host] that is a name and a port. *)
Lemma splitHostPort_name_port : url.splitHostPort (h ++ ":" ++ p) = (h, p).
Proof.
  unfold url.splitHostPort.
  rewrite LastIndex_host_port, slice_from_app, slice_to_app.
  cbn [append url.validOptionalPort]. rewrite Ascii.eqb_refl, Hd. cbn [andb].
  rewrite Nat.add_1_r, slice_from_S_length.
  rewrite (HasPrefix_without "[" "" h (all_bytes_without _ _ _ host_not_open Hh)).
  reflexivity.
Qed.

Lemma splitHostPort_name : url.splitHostPort h = (h, "").
Proof.
  unfold url.splitHostPort.
  rewrite (LastIndex_without ":" h (all_bytes_without _ _ _ host_not_colon Hh)).
  rewrite (HasPrefix_without "[" "" h (all_bytes_without _ _ _ host_not_open Hh)).
  reflexivity.
Qed.

(** [net.SplitHostPort] splits a name and a port at the colon. *)
Lemma SplitHostPort_name_port : net.SplitHostPort (h ++ ":" ++ p) = inr (h, p).
Proof.
  pose proof host_port_authority as Ha.
  unfold net.SplitHostPort, net.splitHost.
  rewrite LastIndex_host_port.
  rewrite (HasPrefix_without "[" "" _ (all_bytes_without _ _ _ authority_not_open Ha)).
  rewrite slice_to_app.
  rewrite (Contains_without ":" "" h (all_bytes_without _ _ _ host_not_colon Hh)).
  cbn [strings.slice_from].
  rewrite (Contains_without "[" "" _ (all_bytes_without _ _ _ authority_not_open Ha)).
  rewrite (Contains_without "]" "" _ (all_bytes_without _ _ _ authority_not_close Ha)).
  change (h ++ ":" ++ p)%string with (h ++ String ":" p)%string.
  now rewrite Nat.add_1_r, slice_from_S_length.
Qed.

(** Without a colon there is no port to split. *)
Lemma SplitHostPort_name :
  net.SplitHostPort h = inl (net.mkAddrError net.missingPort h).
Proof.
  unfold net.SplitHostPort.
  now rewrite (LastIndex_without ":" h (all_bytes_without _ _ _ host_not_colon Hh)).
Qed.

Lemma isIPAddress_name (ip : string -> bool) : target.isIPAddress ip h = ip h.
Proof.
  unfold target.isIPAddress, strings.TrimSuffix, strings.TrimPrefix.
  rewrite (HasSuffix_without "]" h (all_bytes_without _ _ _ host_not_close Hh)).
  now rewrite (HasPrefix_without "[" "" h (all_bytes_without _ _ _ host_not_open Hh)).
Qed.

End HostPort.

(** ** [ParseTarget] on plain inputs *)

Lemma path_not_slash_colon (P : string) :
  scheme.all_bytes shape.path_byte P = true -> shape.without ":" P = true.
Proof. exact (all_bytes_without _ _ _ path_not_colon). Qed.

Lemma eqb_app_nonempty (h t : string) : h <> "" -> ((h ++ t) =? "")%string = false.
Proof. destruct h; [congruence | reflexivity]. Qed.

(** No [://] starts at the colon in front of a port. *)
Lemma Index_port_path (p P : string) :
  shape.port p = true -> shape.opt_path P = true ->
  strings.Index (String ":" (p ++ P)) "://" = None.
Proof.
  intros Hp HP.
  destruct (port_bytes p Hp) as (Hne & Hpb & Hd).
  destruct (opt_path_bytes P HP) as [HPb _].
  rewrite Index_unfold, HasPrefix_cons, Ascii.eqb_refl.
  assert (Hrest : shape.without ":" (p ++ P) = true).
  { unfold shape.without. rewrite all_bytes_app.
    fold (shape.without ":" p). fold (shape.without ":" P).
    rewrite (all_bytes_without _ _ _ host_not_colon Hpb).
    now rewrite (path_not_slash_colon P HPb). }
  assert (Hslash : strings.HasPrefix (p ++ P) "//" = false).
  { destruct p as [| d p']; [congruence |].
    cbn [scheme.all_bytes] in Hpb. apply andb_true_iff in Hpb as [Hdb _].
    change (String d p' ++ P)%string with (String d (p' ++ P)).
    now rewrite HasPrefix_cons, (host_not_slash d Hdb). }
  cbn [andb]. rewrite Hslash.
  now rewrite (Index_without ":" "//" _ Hrest).
Qed.

Section PlainTarget.
Variable ip : string -> bool.
Variables (h p P : string).
Hypothesis Hh : shape.hostname h = true.
Hypothesis Hp : shape.port p = true.
Hypothesis HP : shape.opt_path P = true.

Lemma schemeless_name : strings.Contains (h ++ P) "://" = false.
Proof.
  destruct (hostname_bytes h Hh) as [_ Hhb].
  destruct (opt_path_bytes P HP) as [HPb _].
  apply Contains_without. unfold shape.without. rewrite all_bytes_app.
  fold (shape.without ":" h). fold (shape.without ":" P).
  rewrite (all_bytes_without _ _ _ host_not_colon Hhb).
  now rewrite (path_not_slash_colon P HPb).
Qed.

Lemma schemeless_name_port : strings.Contains (h ++ ":" ++ p ++ P) "://" = false.
Proof.
  destruct (hostname_bytes h Hh) as [_ Hhb].
  unfold strings.Contains.
  rewrite (Index_skip ":" "//" h _ (all_bytes_without _ _ _ host_not_colon Hhb)).
  change (":" ++ p ++ P)%string with (String ":" (p ++ P)).
  now rewrite (Index_port_path p P Hp HP).
Qed.

Lemma target_split (a : string) :
  shape.without "/" a = true ->
  match strings.Index (a ++ P) "/" with
  | Some slashIdx =>
      (strings.slice_to slashIdx (a ++ P), strings.slice_from slashIdx (a ++ P))
  | None => ((a ++ P)%string, "/")
  end = (a, if String.eqb P "" then "/" else P).
Proof.
  intros Ha. destruct (opt_path_bytes P HP) as [_ [-> | Hroot]].
  - rewrite append_empty_r, (Index_without "/" "" a Ha). reflexivity.
  - destruct P as [| c P']; [discriminate |].
    cbn in Hroot. apply andb_true_iff in Hroot as [Hc _].
    apply Ascii.eqb_eq in Hc. subst c.
    rewrite (Index_first "/" a P' Ha), slice_to_app, slice_from_app. reflexivity.
Qed.

Lemma root_path :
  scheme.all_bytes shape.path_byte (if String.eqb P "" then "/" else P) = true
  /\ ((if String.eqb P "" then "/" else P) = ""
      \/ strings.HasPrefix (if String.eqb P "" then "/" else P) "/" = true).
Proof.
  destruct (opt_path_bytes P HP) as [HPb [-> | Hroot]].
  - split; [reflexivity | now right].
  - destruct P; [discriminate |]. split; [exact HPb | now right].
Qed.

Lemma ParseTarget_name_port :
  target.ParseTarget ip (h ++ ":" ++ p ++ P)
  = inr (target.mkParsedTarget
           (Some (url.mkURL "http" "" None (h ++ ":" ++ p)
                            (if String.eqb P "" then "/" else P)
                            false false "" ""))
           (ip h) false (h ++ ":" ++ p ++ P)).
Proof.
  destruct (hostname_bytes h Hh) as [Hhne Hhb].
  destruct (port_bytes p Hp) as (Hpne & Hpb & Hd).
  destruct root_path as [Hrb Hrr].
  pose proof (host_port_authority h p Hhb Hpb) as Ha.
  unfold target.ParseTarget.
  rewrite (eqb_app_nonempty h _ Hhne), schemeless_name_port.
  replace (h ++ ":" ++ p ++ P)%string with ((h ++ ":" ++ p) ++ P)%string
    by (rewrite append_assoc; reflexivity).
  rewrite (target_split _ (all_bytes_without _ _ _ authority_not_slash Ha)).
  rewrite (SplitHostPort_name_port h p Hhb Hpb).
  assert (Hh0 : (h =? "")%string = false) by (destruct h; [congruence | reflexivity]).
  assert (Hp0 : (p =? "")%string = false) by (destruct p; [congruence | reflexivity]).
  rewrite Hh0, Hp0. cbn [negb].
  change ("http://" ++ h ++ ":" ++ p ++ (if (P =? "")%string then "/" else P))%string
    with ("http" ++ "://" ++ h ++ ":" ++ p ++ (if (P =? "")%string then "/" else P))%string.
  replace (h ++ ":" ++ p ++ (if (P =? "")%string then "/" else P))%string
    with ((h ++ ":" ++ p) ++ (if (P =? "")%string then "/" else P))%string
    by (rewrite append_assoc; reflexivity).
  rewrite (Parse_plain "http" (h ++ ":" ++ p) _ eq_refl
             (all_bytes_impl _ _ _ authority_netloc Ha)
             (parseHost_name_port h p Hhb Hpb Hd) Hrb Hrr).
  now rewrite (isIPAddress_name h Hhb).
Qed.

Lemma ParseTarget_name :
  target.ParseTarget ip (h ++ P)
  = inr (target.mkParsedTarget
           (Some (url.mkURL "http" "" None h
                            (if String.eqb P "" then "/" else P)
                            false false "" ""))
           (ip h) false (h ++ P)).
Proof.
  destruct (hostname_bytes h Hh) as [Hhne Hhb].
  destruct root_path as [Hrb Hrr].
  pose proof (all_bytes_impl _ _ _ host_authority Hhb) as Ha.
  unfold target.ParseTarget.
  rewrite (eqb_app_nonempty h _ Hhne), schemeless_name.
  rewrite (target_split _ (all_bytes_without _ _ _ host_not_slash Hhb)).
  rewrite (SplitHostPort_name h Hhb).
  assert (Hh0 : (h =? "")%string = false) by (destruct h; [congruence | reflexivity]).
  rewrite Hh0. cbn [negb String.eqb].
  change ("http://" ++ h ++ (if (P =? "")%string then "/" else P))%string
    with ("http" ++ "://" ++ h ++ (if (P =? "")%string then "/" else P))%string.
  rewrite (Parse_plain "http" h _ eq_refl (all_bytes_impl _ _ _ authority_netloc Ha)
             (parseHost_name h Hhb) Hrb Hrr).
  now rewrite (isIPAddress_name h Hhb).
Qed.

Variable s : string.
Hypothesis Hs : scheme.well_formed s = true.

Lemma ParseTarget_url_name_port :
  target.ParseTarget ip (s ++ "://" ++ h ++ ":" ++ p ++ P)
  = inr (target.mkParsedTarget
           (Some (url.mkURL (strings.ToLower s) "" None (h ++ ":" ++ p) P
                            false false "" ""))
           (ip h) true (s ++ "://" ++ h ++ ":" ++ p ++ P)).
Proof.
  destruct (hostname_bytes h Hh) as [Hhne Hhb].
  destruct (port_bytes p Hp) as (Hpne & Hpb & Hd).
  destruct (opt_path_bytes P HP) as [HPb HPr].
  pose proof (host_port_authority h p Hhb Hpb) as Ha.
  unfold target.ParseTarget.
  assert (Hne : s <> "") by (intros ->; discriminate Hs).
  rewrite (eqb_app_nonempty s _ Hne), Contains_app.
  replace (h ++ ":" ++ p ++ P)%string with ((h ++ ":" ++ p) ++ P)%string
    by (rewrite append_assoc; reflexivity).
  rewrite (Parse_plain s (h ++ ":" ++ p) P Hs
             (all_bytes_impl _ _ _ authority_netloc Ha)
             (parseHost_name_port h p Hhb Hpb Hd) HPb HPr).
  cbn [url.Host]. rewrite (eqb_app_nonempty h _ Hhne).
  unfold url.Hostname. cbn [url.Host].
  now rewrite (splitHostPort_name_port h p Hhb Hpb Hd), (isIPAddress_name h Hhb).
Qed.

Lemma ParseTarget_url_name :
  target.ParseTarget ip (s ++ "://" ++ h ++ P)
  = inr (target.mkParsedTarget
           (Some (url.mkURL (strings.ToLower s) "" None h P false false "" ""))
           (ip h) true (s ++ "://" ++ h ++ P)).
Proof.
  destruct (hostname_bytes h Hh) as [Hhne Hhb].
  destruct (opt_path_bytes P HP) as [HPb HPr].
  pose proof (all_bytes_impl _ _ _ host_authority Hhb) as Ha.
  unfold target.ParseTarget.
  assert (Hne : s <> "") by (intros ->; discriminate Hs).
  rewrite (eqb_app_nonempty s _ Hne), Contains_app.
  rewrite (Parse_plain s h P Hs (all_bytes_impl _ _ _ authority_netloc Ha)
             (parseHost_name h Hhb) HPb HPr).
  cbn [url.Host].
  assert (Hh0 : (h =? "")%string = false) by (destruct h; [congruence | reflexivity]).
  rewrite Hh0. unfold url.Hostname. cbn [url.Host].
  now rewrite (splitHostPort_name h Hhb), (isIPAddress_name h Hhb).
Qed.

End PlainTarget.

(** ** [ParseTarget] and queries *)

Lemma query_not_colon : forall c, shape.query_byte c = true -> Ascii.eqb c ":" = false.
Proof. by_bytes. Qed.
Lemma query_not_open : forall c, shape.query_byte c = true -> Ascii.eqb c "[" = false.
Proof. by_bytes. Qed.
Lemma query_not_close : forall c, shape.query_byte c = true -> Ascii.eqb c "]" = false.
Proof. by_bytes. Qed.
Lemma host_query : forall c, shape.host_byte c = true -> shape.query_byte c = true.
Proof. by_bytes. Qed.

Lemma without_app (c : ascii) (a b : string) :
  shape.without c (a ++ b) = shape.without c a && shape.without c b.
Proof. apply all_bytes_app. Qed.

Lemma query_bytes (q : string) :
  shape.query q = true -> q <> "" /\ scheme.all_bytes shape.query_byte q = true.
Proof.
  unfold shape.query. intros H. apply andb_true_iff in H as [Hne Hall].
  split; [intros ->; discriminate Hne | exact Hall].
Qed.

Lemma path_bytes (P : string) :
  shape.path P = true ->
  scheme.all_bytes shape.path_byte P = true /\ exists P', P = String "/" P'.
Proof.
  unfold shape.path. intros H. apply andb_true_iff in H as [Hroot Hall].
  split; [exact Hall |]. destruct P as [| c P']; [discriminate |].
  cbn in Hroot. apply andb_true_iff in Hroot as [Hc _].
  apply Ascii.eqb_eq in Hc. subst c. now exists P'.
Qed.

Section QueryTarget.
Variable ip : string -> bool.
Variables (h q : string).
Hypothesis Hhb : scheme.all_bytes shape.host_byte h = true.
Hypothesis Hq : shape.query q = true.

(** The bytes of a host, a question mark and a query hold none of [c]
    when the query bytes never are [c] and [c] is no question mark. *)
Lemma host_query_without (c : ascii) (t : string) :
  (forall x, shape.query_byte x = true -> Ascii.eqb x c = false) ->
  Ascii.eqb "?" c = false ->
  scheme.all_bytes shape.query_byte t = true ->
  shape.without c (h ++ "?" ++ t) = true.
Proof.
  intros Hc Hmark Ht. rewrite without_app.
  rewrite (all_bytes_without _ _ _ Hc (all_bytes_impl _ _ _ host_query Hhb)).
  change ("?" ++ t)%string with (String "?" t).
  unfold shape.without at 1. cbn [scheme.all_bytes]. rewrite Hmark.
  exact (all_bytes_without _ _ _ Hc Ht).
Qed.

Lemma ParseTarget_host_query :
  shape.without "/" q = true ->
  target.ParseTarget ip (h ++ "?" ++ q)
  = inr (target.mkParsedTarget
           (Some (url.mkURL "http" "" None h "" false false (q ++ "/") ""))
           (ip (h ++ "?" ++ q)) false (h ++ "?" ++ q)).
Proof.
  intros Hslash. destruct (query_bytes q Hq) as [Hqne Hqb].
  unfold target.ParseTarget.
  assert (Hne : ((h ++ "?" ++ q) =? "")%string = false) by (destruct h; reflexivity).
  rewrite Hne.
  rewrite (Contains_without ":" "//" _
             (host_query_without ":" q query_not_colon eq_refl Hqb)).
  assert (Hnoslash : shape.without "/" (h ++ "?" ++ q) = true).
  { rewrite without_app, (all_bytes_without _ _ _ host_not_slash Hhb).
    change ("?" ++ q)%string with (String "?" q).
    unfold shape.without at 1. cbn [scheme.all_bytes]. exact Hslash. }
  rewrite (Index_without "/" "" _ Hnoslash).
  unfold net.SplitHostPort.
  rewrite (LastIndex_without ":" _
             (host_query_without ":" q query_not_colon eq_refl Hqb)).
  cbn [net.addrErr]. rewrite Hne. cbn [negb String.eqb].
  replace ("http://" ++ (h ++ "?" ++ q) ++ "/")%string
    with ("http" ++ "://" ++ h ++ "" ++ "?" ++ (q ++ "/"))%string.
  2:{ cbn [append]. do 7 f_equal. rewrite append_assoc. cbn [append].
      f_equal. }
  rewrite (Parse_query "http" h "" eq_refl
             (all_bytes_impl _ _ _ authority_netloc (all_bytes_impl _ _ _ host_authority Hhb))
             (parseHost_name h Hhb)
             eq_refl (or_introl eq_refl) (q ++ "/")).
  - unfold target.isIPAddress, strings.TrimSuffix, strings.TrimPrefix.
    rewrite (HasSuffix_without "]" _
               (host_query_without "]" q query_not_close eq_refl Hqb)).
    now rewrite (HasPrefix_without "[" "" _
                   (host_query_without "[" q query_not_open eq_refl Hqb)).
  - destruct q; [congruence | discriminate].
  - rewrite all_bytes_app, Hqb. reflexivity.
Qed.

Lemma ParseTarget_path_query (P : string) :
  h <> "" -> shape.path P = true ->
  target.ParseTarget ip (h ++ P ++ "?" ++ q)
  = inr (target.mkParsedTarget
           (Some (url.mkURL "http" "" None h P false false q ""))
           (ip h) false (h ++ P ++ "?" ++ q)).
Proof.
  intros Hhne HP. destruct (query_bytes q Hq) as [Hqne Hqb].
  destruct (path_bytes P HP) as [HPb [P' ->]].
  unfold target.ParseTarget.
  rewrite (eqb_app_nonempty h _ Hhne).
  assert (Hcolon : shape.without ":" (h ++ String "/" P' ++ "?" ++ q) = true).
  { rewrite !without_app.
    rewrite (all_bytes_without _ _ _ host_not_colon Hhb).
    rewrite (all_bytes_without _ _ _ path_not_colon HPb).
    change ("?" ++ q)%string with (String "?" q).
    unfold shape.without at 1. cbn [scheme.all_bytes andb negb Ascii.eqb].
    exact (all_bytes_without _ _ _ query_not_colon Hqb). }
  rewrite (Contains_without ":" "//" _ Hcolon).
  change (h ++ String "/" P' ++ "?" ++ q)%string
    with (h ++ String "/" (P' ++ "?" ++ q))%string.
  rewrite (Index_first "/" h _ (all_bytes_without _ _ _ host_not_slash Hhb)).
  rewrite slice_to_app, slice_from_app.
  rewrite (SplitHostPort_name h Hhb).
  assert (Hh0 : (h =? "")%string = false) by (destruct h; [congruence | reflexivity]).
  rewrite Hh0. cbn [negb String.eqb].
  change ("http://" ++ h ++ String "/" (P' ++ "?" ++ q))%string
    with ("http" ++ "://" ++ h ++ String "/" P' ++ "?" ++ q)%string.
  rewrite (Parse_query "http" h (String "/" P') eq_refl
             (all_bytes_impl _ _ _ authority_netloc (all_bytes_impl _ _ _ host_authority Hhb))
             (parseHost_name h Hhb)
             HPb (or_intror eq_refl) q Hqne Hqb).
  now rewrite (isIPAddress_name h Hhb).
Qed.

End QueryTarget.

(** ** The normaliser: what every answer of [ParseTarget] satisfies *)

Lemma Parse_http_Scheme (x : string) (u : url.URL) :
  url.Parse ("http://" ++ x) = inr u -> url.Scheme u = "http".
Proof.
  intros Hparse.
  destruct (Cut_hash_scheme "http" x eq_refl) as [r1 Hcut].
  apply (Parse_Scheme ("http://" ++ x) "http" ("//" ++ r1) u); [| | exact Hparse].
  - change ("http://" ++ x)%string with ("http" ++ "://" ++ x)%string.
    rewrite Hcut. discriminate.
  - change ("http://" ++ x)%string with ("http" ++ "://" ++ x)%string.
    rewrite Hcut. exact (getScheme_well_formed "http" ("//" ++ r1) eq_refl).
Qed.

Lemma ParseTarget_bare_branch (ip : string -> bool) (input : string)
      (t : target.ParsedTarget) :
  strings.Contains input "://" = false ->
  target.ParseTarget ip input = inr t ->
  exists u host,
    url.Scheme u = "http"
    /\ t = target.mkParsedTarget (Some u) (target.isIPAddress ip host) false input.
Proof.
  intros Hc. unfold target.ParseTarget. rewrite Hc.
  destruct (input =? "")%string; [discriminate |].
  destruct (match strings.Index input "/" with
            | Some slashIdx =>
                (strings.slice_to slashIdx input, strings.slice_from slashIdx input)
            | None => (input, "/")
            end) as [hostPort path].
  destruct (match net.SplitHostPort hostPort with
            | inr hp => hp
            | inl _ => (hostPort, "")
            end) as [host port].
  destruct (host =? "")%string; [discriminate |].
  destruct (negb (port =? "")%string).
  - destruct (url.Parse ("http://" ++ host ++ ":" ++ port ++ path)) as [e | u] eqn:Hp;
      [discriminate |].
    intros H. inversion H. exists u, host. split; [| reflexivity].
    exact (Parse_http_Scheme _ u Hp).
  - destruct (url.Parse ("http://" ++ host ++ path)) as [e | u] eqn:Hp;
      [discriminate |].
    intros H. inversion H. exists u, host. split; [| reflexivity].
    exact (Parse_http_Scheme _ u Hp).
Qed.

Lemma ParseTarget_not_empty (ip : string -> bool) (input : string)
      (t : target.ParsedTarget) :
  target.ParseTarget ip input = inr t -> input <> "".
Proof. intros H ->. discriminate H. Qed.

Lemma ParseTarget_error_kind (ip : string -> bool) (input : string)
      (e : errors.error) :
  target.ParseTarget ip input = inl e ->
  exists m, e = errors.URLParseError input m.
Proof.
  unfold target.ParseTarget.
  destruct (input =? "")%string; [intros H; inversion H; eauto |].
  destruct (strings.Contains input "://").
  - destruct (url.Parse input) as [err | u]; [intros H; inversion H; eauto |].
    destruct (url.Host u =? "")%string; [intros H; inversion H; eauto | discriminate].
  - destruct (match strings.Index input "/" with
              | Some slashIdx =>
                  (strings.slice_to slashIdx input, strings.slice_from slashIdx input)
              | None => (input, "/")
              end) as [hostPort path].
    destruct (match net.SplitHostPort hostPort with
              | inr hp => hp
              | inl _ => (hostPort, "")
              end) as [host port].
    destruct (host =? "")%string; [intros H; inversion H; eauto |].
    destruct (url.Parse _) as [err | u]; [intros H; inversion H; eauto | discriminate].
Qed.

(** X1.  The answer of [ParseTarget] on an accepted input: the input is
    kept, the URL is never nil, the scheme is marked explicit exactly when
    the input holds [://]; then the URL has a host, otherwise its scheme is
    [http]. *)
Theorem ParseTarget_accepted
        (ip : string -> bool) (input : string) (t : target.ParsedTarget) :
  target.ParseTarget ip input = inr t ->
  input <> ""
  /\ target.OriginalInput t = input
  /\ target.HasExplicitProto t = strings.Contains input "://"
  /\ exists u,
       target.URL t = Some u
       /\ (target.HasExplicitProto t = true -> url.Host u <> "")
       /\ (target.HasExplicitProto t = false -> url.Scheme u = "http").
Proof.
  intros Hacc. split; [exact (ParseTarget_not_empty ip input t Hacc) |].
  destruct (strings.Contains input "://") eqn:Hc.
  - destruct (ParseTarget_url_branch ip input t Hc Hacc) as (u & _ & Hhost & ->).
    cbn. repeat split. exists u. repeat split; [now intros _ | discriminate].
  - destruct (ParseTarget_bare_branch ip input t Hc Hacc) as (u & host & Hs & ->).
    cbn. repeat split. exists u. repeat split; [discriminate | now intros _].
Qed.

Lemma ParseTarget_accepted_witness :
  exists t,
    target.ParseTarget (fun _ => false) "example.com:8080" = inr t
    /\ target.OriginalInput t = "example.com:8080"
    /\ target.HasExplicitProto t = false.
Proof.
  eexists. split; [reflexivity |].
  destruct (ParseTarget_accepted (fun _ => false) "example.com:8080" _ eq_refl)
    as (_ & Hin & Hflag & _).
  split; [exact Hin | exact Hflag].
Defined.

(** X2.  Every input that [ParseTarget] turns down gives a [URLParseError]
    that carries the input, hence the exit code 3. *)
Theorem ParseTarget_rejected
        (ip : string -> bool) (input : string) (e : errors.error) :
  target.ParseTarget ip input = inl e ->
  (exists m, e = errors.URLParseError input m)
  /\ errors.MapErrorToExitCode (Some e) = 3%Z.
Proof.
  intros H. destruct (ParseTarget_error_kind ip input e H) as [m ->].
  split; [now exists m | reflexivity].
Qed.

Lemma ParseTarget_rejected_witness :
  exists e,
    target.ParseTarget (fun _ => false) "http://exa mple.com/" = inl e
    /\ errors.MapErrorToExitCode (Some e) = 3%Z.
Proof.
  eexists. split; [reflexivity |].
  exact (proj2 (ParseTarget_rejected (fun _ => false) "http://exa mple.com/" _ eq_refl)).
Defined.

(** ** The normaliser: round trips *)

(** X3.  A name, a port and a path written without a scheme come back as the
    host name, the port and the path of an [http] URL, with the path [/]
    when none was given; the IP test is made on the name. *)
Theorem ParseTarget_endpoint_round_trip
        (ip : string -> bool) (h p P : string) :
  shape.hostname h = true -> shape.port p = true -> shape.opt_path P = true ->
  exists u,
    target.ParseTarget ip (h ++ ":" ++ p ++ P)
    = inr (target.mkParsedTarget (Some u) (ip h) false (h ++ ":" ++ p ++ P))
    /\ url.Scheme u = "http"
    /\ url.Hostname u = h
    /\ url.Port u = p
    /\ url.Path u = (if String.eqb P "" then "/" else P)
    /\ url.User u = None /\ url.RawQuery u = "" /\ url.Fragment u = "".
Proof.
  intros Hh Hp HP. eexists. split; [exact (ParseTarget_name_port ip h p P Hh Hp HP) |].
  destruct (hostname_bytes h Hh) as [_ Hhb].
  destruct (port_bytes p Hp) as (_ & Hpb & Hd).
  unfold url.Hostname, url.Port. cbn [url.Host url.Scheme url.Path url.User
                                      url.RawQuery url.Fragment].
  rewrite (splitHostPort_name_port h p Hhb Hpb Hd). repeat split.
Qed.

Lemma ParseTarget_endpoint_round_trip_witness :
  exists u,
    target.ParseTarget (fun _ => false) "example.com:8080"
    = inr (target.mkParsedTarget (Some u) false false "example.com:8080")
    /\ url.Hostname u = "example.com" /\ url.Port u = "8080" /\ url.Path u = "/".
Proof.
  destruct (ParseTarget_endpoint_round_trip (fun _ => false) "example.com" "8080" ""
              eq_refl eq_refl eq_refl) as (u & Hu & _ & Hh & Hp & Hpath & _).
  exists u. repeat split; assumption.
Defined.

(** X4.  The same without a port: the port of the URL is empty. *)
Theorem ParseTarget_name_round_trip
        (ip : string -> bool) (h P : string) :
  shape.hostname h = true -> shape.opt_path P = true ->
  exists u,
    target.ParseTarget ip (h ++ P)
    = inr (target.mkParsedTarget (Some u) (ip h) false (h ++ P))
    /\ url.Scheme u = "http"
    /\ url.Hostname u = h
    /\ url.Port u = ""
    /\ url.Path u = (if String.eqb P "" then "/" else P)
    /\ url.User u = None /\ url.RawQuery u = "" /\ url.Fragment u = "".
Proof.
  intros Hh HP. eexists. split; [exact (ParseTarget_name ip h P Hh HP) |].
  destruct (hostname_bytes h Hh) as [_ Hhb].
  unfold url.Hostname, url.Port. cbn [url.Host url.Scheme url.Path url.User
                                      url.RawQuery url.Fragment].
  rewrite (splitHostPort_name h Hhb). repeat split.
Qed.

Lemma ParseTarget_name_round_trip_witness :
  exists u,
    target.ParseTarget (fun _ => false) "example.com/a/b"
    = inr (target.mkParsedTarget (Some u) false false "example.com/a/b")
    /\ url.Hostname u = "example.com" /\ url.Port u = "" /\ url.Path u = "/a/b".
Proof.
  destruct (ParseTarget_name_round_trip (fun _ => false) "example.com" "/a/b"
              eq_refl eq_refl) as (u & Hu & _ & Hh & Hp & Hpath & _).
  exists u. repeat split; assumption.
Defined.

(** X5.  With a scheme in front, the URL has that scheme in lower case, the
    name, the port when there is one, and the path as it is written: no [/]
    is put in for a missing path. *)
Theorem ParseTarget_url_round_trip
        (ip : string -> bool) (s h P : string) :
  scheme.well_formed s = true -> shape.hostname h = true ->
  shape.opt_path P = true ->
  (exists u,
     target.ParseTarget ip (s ++ "://" ++ h ++ P)
     = inr (target.mkParsedTarget (Some u) (ip h) true (s ++ "://" ++ h ++ P))
     /\ url.Scheme u = strings.ToLower s
     /\ url.Hostname u = h /\ url.Port u = "" /\ url.Path u = P
     /\ url.User u = None /\ url.RawQuery u = "" /\ url.Fragment u = "")
  /\ (forall p, shape.port p = true ->
      exists u,
        target.ParseTarget ip (s ++ "://" ++ h ++ ":" ++ p ++ P)
        = inr (target.mkParsedTarget (Some u) (ip h) true
                                     (s ++ "://" ++ h ++ ":" ++ p ++ P))
        /\ url.Scheme u = strings.ToLower s
        /\ url.Hostname u = h /\ url.Port u = p /\ url.Path u = P
        /\ url.User u = None /\ url.RawQuery u = "" /\ url.Fragment u = "").
Proof.
  intros Hs Hh HP. destruct (hostname_bytes h Hh) as [_ Hhb]. split.
  - eexists. split; [exact (ParseTarget_url_name ip h P Hh HP s Hs) |].
    unfold url.Hostname, url.Port. cbn [url.Host url.Scheme url.Path url.User
                                        url.RawQuery url.Fragment].
    rewrite (splitHostPort_name h Hhb). repeat split.
  - intros p Hp. destruct (port_bytes p Hp) as (_ & Hpb & Hd).
    eexists. split; [exact (ParseTarget_url_name_port ip h p P Hh Hp HP s Hs) |].
    unfold url.Hostname, url.Port. cbn [url.Host url.Scheme url.Path url.User
                                        url.RawQuery url.Fragment].
    rewrite (splitHostPort_name_port h p Hhb Hpb Hd). repeat split.
Qed.

Lemma ParseTarget_url_round_trip_witness :
  exists u,
    target.ParseTarget (fun _ => false) "HTTPS://example.com:8443/a"
    = inr (target.mkParsedTarget (Some u) false true "HTTPS://example.com:8443/a")
    /\ url.Scheme u = "https"
    /\ url.Hostname u = "example.com" /\ url.Port u = "8443" /\ url.Path u = "/a".
Proof.
  destruct (ParseTarget_url_round_trip (fun _ => false) "HTTPS" "example.com" "/a"
              eq_refl eq_refl eq_refl) as [_ Hport].
  destruct (Hport "8443" eq_refl) as (u & Hu & Hs & Hh & Hp & Hpath & _).
  exists u. repeat split; assumption.
Defined.

(** ** The normaliser: queries *)

(** X6.  A query after the path of a schemeless input is the query of the
    URL.  A query directly after the host is not: the default path [/] is
    put behind it, so that the URL has an empty path and the query with a
    slash at its end, the IP test is made on the host together with the
    query, and the input is accepted even when nothing stands before the
    question mark: the URL then has no host. *)
Theorem ParseTarget_query
        (ip : string -> bool) (h q : string) :
  scheme.all_bytes shape.host_byte h = true -> shape.query q = true ->
  (forall P, h <> "" -> shape.path P = true ->
     target.ParseTarget ip (h ++ P ++ "?" ++ q)
     = inr (target.mkParsedTarget
              (Some (url.mkURL "http" "" None h P false false q ""))
              (ip h) false (h ++ P ++ "?" ++ q)))
  /\ (shape.without "/" q = true ->
      target.ParseTarget ip (h ++ "?" ++ q)
      = inr (target.mkParsedTarget
               (Some (url.mkURL "http" "" None h "" false false (q ++ "/") ""))
               (ip (h ++ "?" ++ q)) false (h ++ "?" ++ q))).
Proof.
  intros Hh Hq. split.
  - intros P Hne HP. exact (ParseTarget_path_query ip h q Hh Hq P Hne HP).
  - exact (ParseTarget_host_query ip h q Hh Hq).
Qed.

Lemma ParseTarget_query_witness :
  target.ParseTarget (String.eqb "10.0.0.1") "10.0.0.1/a?x=1"
  = inr (target.mkParsedTarget
           (Some (url.mkURL "http" "" None "10.0.0.1" "/a" false false "x=1" ""))
           true false "10.0.0.1/a?x=1")
  /\ target.ParseTarget (String.eqb "10.0.0.1") "10.0.0.1?x=1"
     = inr (target.mkParsedTarget
              (Some (url.mkURL "http" "" None "10.0.0.1" "" false false "x=1/" ""))
              false false "10.0.0.1?x=1")
  /\ target.ParseTarget (String.eqb "10.0.0.1") "?x=1"
     = inr (target.mkParsedTarget
              (Some (url.mkURL "http" "" None "" "" false false "x=1/" ""))
              false false "?x=1").
Proof.
  destruct (ParseTarget_query (String.eqb "10.0.0.1") "10.0.0.1" "x=1" eq_refl eq_refl)
    as [Hpath Hhost].
  destruct (ParseTarget_query (String.eqb "10.0.0.1") "" "x=1" eq_refl eq_refl)
    as [_ Hnone].
  split; [exact (Hpath "/a" ltac:(discriminate) eq_refl) |].
  split; [exact (Hhost eq_refl) | exact (Hnone eq_refl)].
Defined.

(** ** The normaliser: inputs without a host *)

(** X7.  An input that starts with a slash or with the colon of a port has
    no host, and neither has a URL with nothing between [://] and the path:
    all three are turned down, each with the message of its branch. *)
Theorem ParseTarget_needs_host (ip : string -> bool) :
  (forall r, strings.Contains (String "/" r) "://" = false ->
     target.ParseTarget ip (String "/" r)
     = inl (errors.URLParseError (String "/" r)
              (errors.Text "target must contain a host")))
  /\ (forall p P, shape.port p = true -> shape.opt_path P = true ->
        target.ParseTarget ip (":" ++ p ++ P)
        = inl (errors.URLParseError (":" ++ p ++ P)
                 (errors.Text "target must contain a host")))
  /\ (forall s P, scheme.well_formed s = true -> shape.opt_path P = true ->
        target.ParseTarget ip (s ++ "://" ++ P)
        = inl (errors.URLParseError (s ++ "://" ++ P)
                 (errors.Text "URL must contain a host"))).
Proof.
  split; [| split].
  - intros r Hc. unfold target.ParseTarget. rewrite Hc. reflexivity.
  - intros p P Hp HP.
    destruct (port_bytes p Hp) as (Hne & Hpb & Hd).
    unfold target.ParseTarget.
    change (":" ++ p ++ P)%string with (String ":" (p ++ P)).
    unfold strings.Contains at 1. rewrite (Index_port_path p P Hp HP).
    cbn [String.eqb].
    change (String ":" (p ++ P)) with (("" ++ ":" ++ p) ++ P)%string.
    assert (Ha : scheme.all_bytes shape.authority_byte ("" ++ ":" ++ p) = true)
      by exact (host_port_authority "" p eq_refl Hpb).
    rewrite (target_split P HP _ (all_bytes_without _ _ _ authority_not_slash Ha)).
    now rewrite (SplitHostPort_name_port "" p eq_refl Hpb).
  - intros s P Hs HP. destruct (opt_path_bytes P HP) as [HPb HPr].
    unfold target.ParseTarget.
    assert (Hne : s <> "") by (intros ->; discriminate Hs).
    rewrite (eqb_app_nonempty s _ Hne), Contains_app.
    change (url.Parse (s ++ "://" ++ P)) with (url.Parse (s ++ "://" ++ "" ++ P)).
    now rewrite (Parse_plain s "" P Hs eq_refl eq_refl HPb HPr).
Qed.

Lemma ParseTarget_needs_host_witness :
  target.ParseTarget (fun _ => false) "/index.html"
  = inl (errors.URLParseError "/index.html" (errors.Text "target must contain a host"))
  /\ target.ParseTarget (fun _ => false) ":8080/a"
     = inl (errors.URLParseError ":8080/a" (errors.Text "target must contain a host"))
  /\ target.ParseTarget (fun _ => false) "http:///a"
     = inl (errors.URLParseError "http:///a" (errors.Text "URL must contain a host")).
Proof.
  destruct (ParseTarget_needs_host (fun _ => false)) as (Hslash & Hport & Hurl).
  split; [exact (Hslash "index.html" eq_refl) |].
  split; [exact (Hport "8080" "/a" eq_refl eq_refl) |].
  exact (Hurl "http" "/a" eq_refl eq_refl).
Defined.

(** ** The normaliser: IP literals in brackets *)

Lemma ip6_authority : forall c, shape.ip6_byte c = true -> shape.authority_byte c = true.
Proof. by_bytes. Qed.
Lemma netloc_literal :
  forall c, shape.netloc_byte c = true -> shape.literal url.encodeHost c = true.
Proof. by_bytes. Qed.
Lemma authority_not_percent :
  forall c, shape.authority_byte c = true -> Ascii.eqb c "%" = false.
Proof. by_bytes. Qed.

Lemma ip6_bytes (a : string) :
  shape.ip6 a = true -> a <> "" /\ scheme.all_bytes shape.ip6_byte a = true.
Proof.
  unfold shape.ip6. intros H. apply andb_true_iff in H as [Hne Hall].
  split; [intros ->; discriminate Hne | exact Hall].
Qed.

(** No [://] in a text whose first part holds no slash and does not end
    with a colon, and whose second part holds no colon. *)
Lemma no_scheme_mark (X P : string) :
  shape.without "/" X = true -> shape.without ":" P = true ->
  strings.HasSuffix X ":" = false ->
  strings.Contains (X ++ P) "://" = false.
Proof.
  intros HX HP. unfold strings.Contains.
  induction X as [| c X IH]; intros Hend.
  - cbn [append]. now rewrite (Index_without ":" "//" P HP).
  - cbn [shape.without scheme.all_bytes] in HX. unfold shape.without in HX.
    cbn [scheme.all_bytes] in HX. apply andb_true_iff in HX as [Hc HX].
    fold (shape.without "/" X) in HX.
    change (String c X ++ P)%string with (String c (X ++ P)).
    rewrite Index_unfold, HasPrefix_cons.
    assert (Hhead : Ascii.eqb c ":" && strings.HasPrefix (X ++ P) "//" = false).
    { destruct (Ascii.eqb_spec c ":") as [-> | Hne]; [| reflexivity]. cbn [andb].
      destruct X as [| d X']; [discriminate Hend |].
      change (String d X' ++ P)%string with (String d (X' ++ P)).
      rewrite HasPrefix_cons.
      unfold shape.without in HX. cbn [scheme.all_bytes] in HX.
      apply andb_true_iff in HX as [Hd _]. apply negb_true_iff in Hd.
      now rewrite Hd. }
    rewrite Hhead.
    assert (Hend' : strings.HasSuffix X ":" = false).
    { destruct X as [| d X']; [reflexivity |]. now rewrite HasSuffix_cons in Hend. }
    specialize (IH HX Hend').
    now destruct (strings.Index (X ++ P) "://").
Qed.

Lemma all_digits_bracket (s : string) : url.all_digits (s ++ "]") = false.
Proof.
  induction s as [| c s IH]; [reflexivity |].
  cbn [append url.all_digits]. rewrite IH. apply andb_false_r.
Qed.

(** No suffix of a text that ends with a bracket is a port. *)
Lemma bracket_suffix_no_port (s : string) (n : nat) :
  (n < String.length (s ++ "]"))%nat ->
  url.validOptionalPort (strings.slice_from n (s ++ "]")) = false.
Proof.
  revert n. induction s as [| c s IH]; intros n Hn.
  - cbn in Hn. assert (n = 0%nat) as -> by lia. reflexivity.
  - destruct n as [| n].
    + cbn [append strings.slice_from url.validOptionalPort].
      rewrite all_digits_bracket. apply andb_false_r.
    + cbn [append strings.slice_from]. apply IH. cbn in Hn. lia.
Qed.

Lemma LastIndex_lt (c : ascii) (s : string) (i : nat) :
  strings.LastIndex s (String c "") = Some i -> (i < String.length s)%nat.
Proof.
  revert i. induction s as [| x s IH]; intros i; cbn.
  - discriminate.
  - destruct (strings.LastIndex s (String c "")) as [j |].
    + intros H. inversion H; subst. specialize (IH j eq_refl). lia.
    + destruct (Ascii.eqb x c); cbn; [| discriminate].
      intros H. inversion H. lia.
Qed.

Section Literal6.
Variable ip : string -> bool.
Variable a : string.
Hypothesis Ha : scheme.all_bytes shape.ip6_byte a = true.

Lemma ip6_no_bracket :
  shape.without "[" a = true /\ shape.without "]" a = true
  /\ shape.without "/" a = true.
Proof.
  pose proof (all_bytes_impl _ _ _ ip6_authority Ha) as Hauth.
  split; [exact (all_bytes_without _ _ _ authority_not_open Hauth) |].
  split; [exact (all_bytes_without _ _ _ authority_not_close Hauth) |].
  exact (all_bytes_without _ _ _ authority_not_slash Hauth).
Qed.

(** [isIPAddress] takes one bracket off each end. *)
Lemma isIPAddress_bracket (x : string) :
  target.isIPAddress ip ("[" ++ x ++ "]") = ip x.
Proof.
  unfold target.isIPAddress, strings.TrimSuffix.
  change ("[" ++ x ++ "]")%string with (String "[" x ++ "]")%string.
  assert (Hsuffix : strings.HasSuffix (String "[" x ++ "]") "]" = true).
  { rewrite (HasSuffix_app "]" (String "[" x) "]") by discriminate. reflexivity. }
  rewrite Hsuffix, length_append. cbn [String.length].
  replace (S (String.length x) + 1 - 1)%nat with (String.length (String "[" x))
    by (cbn [String.length]; lia).
  rewrite slice_to_app. reflexivity.
Qed.

Lemma isIPAddress_ip6 : target.isIPAddress ip a = ip a.
Proof.
  destruct ip6_no_bracket as (Hopen & Hclose & _).
  unfold target.isIPAddress, strings.TrimSuffix, strings.TrimPrefix.
  rewrite (HasSuffix_without "]" a Hclose).
  now rewrite (HasPrefix_without "[" "" a Hopen).
Qed.

(** [Hostname] takes the brackets off, and finds no port behind them. *)
Lemma splitHostPort_bracket : url.splitHostPort ("[" ++ a ++ "]") = (a, "").
Proof.
  unfold url.splitHostPort.
  change ("[" ++ a ++ "]")%string with (String "[" a ++ "]")%string.
  assert (Hstrip :
            (if strings.HasPrefix (String "[" a ++ "]") "["
                && strings.HasSuffix (String "[" a ++ "]") "]"
             then strings.slice_to (String.length (String "[" a ++ "]") - 2)
                    (strings.slice_from 1 (String "[" a ++ "]"))
             else (String "[" a ++ "]")%string) = a).
  { rewrite (HasSuffix_app "]" (String "[" a) "]") by discriminate.
    cbn [append strings.HasPrefix Ascii.eqb Bool.eqb andb strings.slice_from].
    change (strings.HasSuffix "]" "]") with true. cbn [andb String.length].
    rewrite length_append. cbn [String.length].
    replace (S (String.length a + 1) - 2)%nat with (String.length a) by lia.
    apply slice_to_app. }
  destruct (strings.LastIndex (String "[" a ++ "]") ":") as [colon |] eqn:Hlast.
  - rewrite (bracket_suffix_no_port (String "[" a) colon (LastIndex_lt _ _ _ Hlast)).
    now rewrite Hstrip.
  - now rewrite Hstrip.
Qed.

Lemma parseHost_bracket : url.parseHost ("[" ++ a ++ "]") = inr ("[" ++ a ++ "]")%string.
Proof.
  destruct ip6_no_bracket as (_ & Hclose & _).
  pose proof (all_bytes_impl _ _ _ ip6_authority Ha) as Hauth.
  unfold url.parseHost.
  change ("[" ++ a ++ "]")%string with (String "[" a ++ String "]" "")%string.
  cbn [append strings.HasPrefix Ascii.eqb Bool.eqb andb].
  change (String "[" (a ++ "]")) with (String "[" a ++ String "]" "")%string.
  assert (Hlast : strings.LastIndex (String "[" a ++ String "]" "") "]"
                  = Some (String.length (String "[" a))).
  { (* the closing bracket is the last byte *)
    pose proof (LastIndex_last "]" (String "[" a) "" eq_refl) as H. exact H. }
  rewrite Hlast.
  rewrite Nat.add_1_r, slice_from_S_length, slice_to_app.
  cbn [url.validOptionalPort negb].
  assert (Hpercent : shape.without "%" (String "[" a) = true).
  { unfold shape.without. cbn [scheme.all_bytes]. 
    exact (all_bytes_without _ _ _ authority_not_percent Hauth). }
  rewrite (Index_without "%" "25" _ Hpercent).
  apply unescape_literal.
  apply (all_bytes_impl _ _ _ netloc_literal).
  rewrite all_bytes_app. cbn [scheme.all_bytes].
  rewrite (all_bytes_impl _ _ _ authority_netloc Hauth). reflexivity.
Qed.

Lemma bracket_netloc : scheme.all_bytes shape.netloc_byte ("[" ++ a ++ "]") = true.
Proof.
  pose proof (all_bytes_impl _ _ _ ip6_authority Ha) as Hauth.
  change ("[" ++ a ++ "]")%string with (String "[" (a ++ "]")).
  cbn [scheme.all_bytes]. rewrite all_bytes_app.
  rewrite (all_bytes_impl _ _ _ authority_netloc Hauth). reflexivity.
Qed.

(** Brackets without a port: [net.SplitHostPort] finds no port. *)
Lemma SplitHostPort_bracket :
  exists e, net.SplitHostPort ("[" ++ a ++ "]") = inl e.
Proof.
  destruct ip6_no_bracket as (_ & Hclose & _).
  unfold net.SplitHostPort.
  destruct (strings.LastIndex ("[" ++ a ++ "]") ":") as [i |]; [| eexists; reflexivity].
  unfold net.splitHost.
  change ("[" ++ a ++ "]")%string with (String "[" a ++ String "]" "")%string.
  cbn [append strings.HasPrefix Ascii.eqb Bool.eqb andb].
  change (String "[" (a ++ "]")) with (String "[" a ++ String "]" "")%string.
  assert (Hopen : shape.without "]" (String "[" a) = true)
    by (unfold shape.without; cbn [scheme.all_bytes]; exact Hclose).
  rewrite (Index_first "]" (String "[" a) "" Hopen).
  rewrite length_append. cbn [String.length]. rewrite Nat.eqb_refl.
  eexists. reflexivity.
Qed.

Variables (p P : string).
Hypothesis Hp : shape.port p = true.
Hypothesis HP : shape.opt_path P = true.

(** Brackets and a port. *)
Lemma bracket_port_forms :
  ("[" ++ a ++ "]:" ++ p)%string = ((String "[" a ++ "]") ++ String ":" p)%string
  /\ ("[" ++ a ++ "]:" ++ p)%string = (String "[" a ++ String "]" (String ":" p))%string
  /\ String.length ("[" ++ a ++ "]:" ++ p) = (String.length a + 3 + String.length p)%nat.
Proof.
  split; [| split].
  - rewrite append_assoc. reflexivity.
  - reflexivity.
  - cbn [append String.length]. rewrite length_append. cbn [String.length]. lia.
Qed.

Lemma SplitHostPort_bracket_port :
  net.SplitHostPort ("[" ++ a ++ "]:" ++ p) = inr (a, p).
Proof.
  destruct ip6_no_bracket as (Hopen & Hclose & _).
  destruct (port_bytes p Hp) as (Hpne & Hpb & Hd).
  pose proof (all_bytes_without _ _ _ host_not_colon Hpb) as Hpcolon.
  destruct bracket_port_forms as (F1 & F2 & F3).
  assert (L1 : strings.LastIndex ("[" ++ a ++ "]:" ++ p) ":"
               = Some (String.length a + 2)%nat).
  { rewrite F1, (LastIndex_last ":" (String "[" a ++ "]") p Hpcolon).
    rewrite length_append. cbn [String.length]. f_equal. lia. }
  assert (L2 : strings.Index ("[" ++ a ++ "]:" ++ p) "]"
               = Some (String.length a + 1)%nat).
  { rewrite F2.
    assert (Hw : shape.without "]" (String "[" a) = true)
      by (unfold shape.without; cbn [scheme.all_bytes]; exact Hclose).
    rewrite (Index_first "]" (String "[" a) _ Hw). cbn [String.length]. f_equal. lia. }
  assert (L5 : strings.slice_from (String.length a + 2 + 1) ("[" ++ a ++ "]:" ++ p) = p).
  { rewrite F1.
    replace (String.length a + 2 + 1)%nat
      with (S (String.length (String "[" a ++ "]")))
      by (rewrite length_append; cbn [String.length]; lia).
    apply slice_from_S_length. }
  assert (L6 : strings.slice_from (String.length a + 1 + 1) ("[" ++ a ++ "]:" ++ p)
               = String ":" p).
  { rewrite F1.
    replace (String.length a + 1 + 1)%nat
      with (String.length (String "[" a ++ "]"))
      by (rewrite length_append; cbn [String.length]; lia).
    apply slice_from_app. }
  assert (L7 : strings.slice_to (String.length a + 1 - 1)
                 (strings.slice_from 1 ("[" ++ a ++ "]:" ++ p)) = a).
  { replace (String.length a + 1 - 1)%nat with (String.length a) by lia.
    cbn [append strings.slice_from]. apply slice_to_app. }
  assert (L8 : strings.Contains (strings.slice_from 1 ("[" ++ a ++ "]:" ++ p)) "[" = false).
  { cbn [append strings.slice_from]. apply Contains_without.
    rewrite without_app, Hopen. unfold shape.without. cbn [scheme.all_bytes].
    exact (all_bytes_without _ _ _ host_not_open Hpb). }
  unfold net.SplitHostPort. rewrite L1. unfold net.splitHost.
  change (strings.HasPrefix ("[" ++ a ++ "]:" ++ p) "[") with true.
  cbv iota. rewrite L2, F3.
  assert (T1 : (String.length a + 1 + 1 =? String.length a + 3 + String.length p)%nat
               = false) by (apply Nat.eqb_neq; lia).
  assert (T2 : (String.length a + 1 + 1 =? String.length a + 2)%nat = true)
    by (apply Nat.eqb_eq; lia).
  rewrite T1, T2, L7, L8, L6, L5.
  assert (L9 : strings.Contains (String ":" p) "]" = false).
  { apply Contains_without. unfold shape.without. cbn [scheme.all_bytes].
    exact (all_bytes_without _ _ _ host_not_close Hpb). }
  now rewrite L9.
Qed.

Lemma ip6_port_authority :
  scheme.all_bytes shape.authority_byte (a ++ ":" ++ p) = true.
Proof.
  destruct (port_bytes p Hp) as (_ & Hpb & _).
  rewrite all_bytes_app. cbn [append scheme.all_bytes].
  rewrite (all_bytes_impl _ _ a ip6_authority Ha).
  rewrite (all_bytes_impl _ _ p host_authority Hpb). reflexivity.
Qed.

Lemma parseHost_ip6_port : url.parseHost (a ++ ":" ++ p) = inr (a ++ ":" ++ p)%string.
Proof.
  destruct (port_bytes p Hp) as (_ & Hpb & Hd).
  pose proof ip6_port_authority as Hauth.
  unfold url.parseHost.
  rewrite (HasPrefix_without "[" "" _ (all_bytes_without _ _ _ authority_not_open Hauth)).
  rewrite (LastIndex_host_port a p Hpb), slice_from_app.
  cbn [append url.validOptionalPort]. rewrite Ascii.eqb_refl, Hd. cbn [andb negb].
  apply unescape_literal. exact (all_bytes_impl _ _ _ authority_literal Hauth).
Qed.

Lemma splitHostPort_ip6_port : url.splitHostPort (a ++ ":" ++ p) = (a, p).
Proof.
  destruct (port_bytes p Hp) as (_ & Hpb & Hd).
  destruct ip6_no_bracket as (Hopen & _).
  unfold url.splitHostPort.
  rewrite (LastIndex_host_port a p Hpb), slice_from_app, slice_to_app.
  cbn [append url.validOptionalPort]. rewrite Ascii.eqb_refl, Hd. cbn [andb].
  rewrite Nat.add_1_r, slice_from_S_length.
  now rewrite (HasPrefix_without "[" "" a Hopen).
Qed.

Hypothesis Hne : a <> "".

Lemma ParseTarget_bracket_port :
  target.ParseTarget ip ("[" ++ a ++ "]:" ++ p ++ P)
  = inr (target.mkParsedTarget
           (Some (url.mkURL "http" "" None (a ++ ":" ++ p)
                            (if String.eqb P "" then "/" else P)
                            false false "" ""))
           (ip a) false ("[" ++ a ++ "]:" ++ p ++ P)).
Proof.
  destruct (port_bytes p Hp) as (Hpne & Hpb & Hd).
  destruct (opt_path_bytes P HP) as [HPb _].
  destruct ip6_no_bracket as (_ & _ & Hslash).
  destruct (root_path P HP) as [Hrb Hrr].
  assert (Hform : ("[" ++ a ++ "]:" ++ p ++ P)%string
                  = (("[" ++ a ++ "]:" ++ p) ++ P)%string).
  { cbn [append]. f_equal. rewrite !append_assoc. reflexivity. }
  assert (HX : shape.without "/" ("[" ++ a ++ "]:" ++ p) = true).
  { change ("[" ++ a ++ "]:" ++ p)%string with (String "[" (a ++ "]:" ++ p)).
    unfold shape.without. cbn [scheme.all_bytes negb Ascii.eqb Bool.eqb andb].
    fold (shape.without "/" (a ++ "]:" ++ p)). rewrite without_app, Hslash.
    unfold shape.without. cbn [append scheme.all_bytes negb Ascii.eqb Bool.eqb andb].
    exact (all_bytes_without _ _ _ host_not_slash Hpb). }
  assert (Hend : strings.HasSuffix ("[" ++ a ++ "]:" ++ p) ":" = false).
  { replace ("[" ++ a ++ "]:" ++ p)%string with (("[" ++ a ++ "]:") ++ p)%string
      by (cbn [append]; f_equal; rewrite append_assoc; reflexivity).
    rewrite (HasSuffix_app ":" _ p Hpne).
    exact (HasSuffix_without ":" p (all_bytes_without _ _ _ host_not_colon Hpb)). }
  unfold target.ParseTarget.
  change (("[" ++ a ++ "]:" ++ p ++ P =? "")%string) with false. cbv iota.
  pose proof (no_scheme_mark _ P HX (path_not_slash_colon P HPb) Hend) as Hmark.
  pose proof (target_split P HP _ HX) as Hsplit.
  rewrite <- Hform in Hmark, Hsplit. rewrite Hmark, Hsplit.
  rewrite SplitHostPort_bracket_port.
  assert (Ha0 : (a =? "")%string = false) by (destruct a; [congruence | reflexivity]).
  assert (Hp0 : (p =? "")%string = false) by (destruct p; [congruence | reflexivity]).
  rewrite Ha0, Hp0. cbn [negb].
  change ("http://" ++ a ++ ":" ++ p ++ (if (P =? "")%string then "/" else P))%string
    with ("http" ++ "://" ++ a ++ ":" ++ p ++ (if (P =? "")%string then "/" else P))%string.
  replace (a ++ ":" ++ p ++ (if (P =? "")%string then "/" else P))%string
    with ((a ++ ":" ++ p) ++ (if (P =? "")%string then "/" else P))%string
    by (rewrite append_assoc; reflexivity).
  rewrite (Parse_plain "http" (a ++ ":" ++ p) _ eq_refl
             (all_bytes_impl _ _ _ authority_netloc ip6_port_authority)
             parseHost_ip6_port Hrb Hrr).
  now rewrite isIPAddress_ip6.
Qed.

Lemma ParseTarget_bracket :
  target.ParseTarget ip ("[" ++ a ++ "]" ++ P)
  = inr (target.mkParsedTarget
           (Some (url.mkURL "http" "" None ("[" ++ a ++ "]")
                            (if String.eqb P "" then "/" else P)
                            false false "" ""))
           (ip a) false ("[" ++ a ++ "]" ++ P)).
Proof.
  destruct (opt_path_bytes P HP) as [HPb _].
  destruct ip6_no_bracket as (_ & _ & Hslash).
  destruct (root_path P HP) as [Hrb Hrr].
  assert (Hform : ("[" ++ a ++ "]" ++ P)%string = (("[" ++ a ++ "]") ++ P)%string).
  { cbn [append]. f_equal. rewrite append_assoc. reflexivity. }
  assert (HX : shape.without "/" ("[" ++ a ++ "]") = true).
  { change ("[" ++ a ++ "]")%string with (String "[" (a ++ "]")).
    unfold shape.without. cbn [scheme.all_bytes negb Ascii.eqb Bool.eqb andb].
    fold (shape.without "/" (a ++ "]")). rewrite without_app, Hslash. reflexivity. }
  assert (Hend : strings.HasSuffix ("[" ++ a ++ "]") ":" = false).
  { change ("[" ++ a ++ "]")%string with (String "[" a ++ "]")%string.
    rewrite (HasSuffix_app ":" _ "]") by discriminate. reflexivity. }
  unfold target.ParseTarget.
  change (("[" ++ a ++ "]" ++ P =? "")%string) with false. cbv iota.
  pose proof (no_scheme_mark _ P HX (path_not_slash_colon P HPb) Hend) as Hmark.
  pose proof (target_split P HP _ HX) as Hsplit.
  rewrite <- Hform in Hmark, Hsplit. rewrite Hmark, Hsplit.
  destruct SplitHostPort_bracket as [e ->].
  change (("[" ++ a ++ "]" =? "")%string) with false. cbn [negb String.eqb].
  change ("http://" ++ ("[" ++ a ++ "]") ++ (if (P =? "")%string then "/" else P))%string
    with ("http" ++ "://" ++ ("[" ++ a ++ "]")
          ++ (if (P =? "")%string then "/" else P))%string.
  rewrite (Parse_plain "http" ("[" ++ a ++ "]") _ eq_refl
             bracket_netloc parseHost_bracket Hrb Hrr).
  now rewrite isIPAddress_bracket.
Qed.

End Literal6.

(** X27.  An IP literal in brackets, written without a scheme.  Without a
    port the URL keeps the brackets in its host, [Hostname] gives the
    literal, and the IP test is made on the literal, the brackets taken off.
    With a port [net.SplitHostPort] takes the brackets off and the URL is
    built without them: its host is the literal, a colon and the port, from
    which [Hostname] and [Port] still give the two back. *)
Theorem ParseTarget_ip6_round_trip
        (ip : string -> bool) (a P : string) :
  shape.ip6 a = true -> shape.opt_path P = true ->
  (exists u,
     target.ParseTarget ip ("[" ++ a ++ "]" ++ P)
     = inr (target.mkParsedTarget (Some u) (ip a) false ("[" ++ a ++ "]" ++ P))
     /\ url.Scheme u = "http"
     /\ url.Host u = ("[" ++ a ++ "]")%string
     /\ url.Hostname u = a /\ url.Port u = ""
     /\ url.Path u = (if String.eqb P "" then "/" else P))
  /\ (forall p, shape.port p = true ->
      exists u,
        target.ParseTarget ip ("[" ++ a ++ "]:" ++ p ++ P)
        = inr (target.mkParsedTarget (Some u) (ip a) false
                                     ("[" ++ a ++ "]:" ++ p ++ P))
        /\ url.Scheme u = "http"
        /\ url.Host u = (a ++ ":" ++ p)%string
        /\ url.Hostname u = a /\ url.Port u = p
        /\ url.Path u = (if String.eqb P "" then "/" else P)).
Proof.
  intros Ha HP. destruct (ip6_bytes a Ha) as [Hne Hab]. split.
  - eexists. split; [exact (ParseTarget_bracket ip a Hab P HP) |].
    unfold url.Hostname, url.Port. cbn [url.Host url.Scheme url.Path].
    rewrite (splitHostPort_bracket a). repeat split.
  - intros p Hp. eexists.
    split; [exact (ParseTarget_bracket_port ip a Hab p P Hp HP Hne) |].
    unfold url.Hostname, url.Port. cbn [url.Host url.Scheme url.Path].
    rewrite (splitHostPort_ip6_port a Hab p Hp). repeat split.
Qed.

Lemma ParseTarget_ip6_round_trip_witness :
  (exists u,
     target.ParseTarget (String.eqb "2001:db8::1") "[2001:db8::1]/status"
     = inr (target.mkParsedTarget (Some u) true false "[2001:db8::1]/status")
     /\ url.Host u = "[2001:db8::1]" /\ url.Hostname u = "2001:db8::1")
  /\ (exists u,
        target.ParseTarget (String.eqb "2001:db8::1") "[2001:db8::1]:8080"
        = inr (target.mkParsedTarget (Some u) true false "[2001:db8::1]:8080")
        /\ url.Host u = "2001:db8::1:8080"
        /\ url.Hostname u = "2001:db8::1" /\ url.Port u = "8080").
Proof.
  destruct (ParseTarget_ip6_round_trip (String.eqb "2001:db8::1") "2001:db8::1" "/status"
              eq_refl eq_refl) as [(u & Hu & _ & Hhost & Hname & _) _].
  destruct (ParseTarget_ip6_round_trip (String.eqb "2001:db8::1") "2001:db8::1" ""
              eq_refl eq_refl) as [_ Hport].
  destruct (Hport "8080" eq_refl) as (v & Hv & _ & Hvhost & Hvname & Hvport & _).
  split.
  - exists u. repeat split; assumption.
  - exists v. repeat split; assumption.
Defined.

(** ** The transport: when [NewTransport] fails and what it builds *)

Section TransportFacts.
Variable fs : transport.Files.
Variables (opts : cli.Options) (pt : target.ParsedTarget).

Lemma NewTransport_cases :
  transport.NewTransport fs opts pt
  = let host := match target.URL pt with Some u => url.Host u | None => "unknown" end in
    let skip := target.IsIP pt && negb (cli.StrictSSL opts) || cli.Insecure opts in
    match (if (cli.CACert opts =? "")%string then inr None
           else match transport.os_ReadFile fs (cli.CACert opts) with
                | inl err =>
                    inl (errors.TLSError host
                           (goerror.Errorf "failed to read CA certificate: " (Some err)))
                | inr pem =>
                    if transport.AppendCertsFromPEM fs pem then inr (Some pem)
                    else inl (errors.TLSError host
                                (goerror.Errorf "failed to parse CA certificate" None))
                end) with
    | inl e => inl e
    | inr roots =>
        match (cli.Cert opts =? "")%string, (cli.Key opts =? "")%string with
        | true, true =>
            inr (transport.mkTransport (cli.ConnectTimeout opts) (cli.ConnectTimeout opts)
                   (transport.mkConfig skip roots []))
        | false, true =>
            inl (errors.TLSError host
                   (goerror.Errorf "--cert requires --key to be specified" None))
        | true, false =>
            inl (errors.TLSError host
                   (goerror.Errorf "--key requires --cert to be specified" None))
        | false, false =>
            match transport.tls_LoadX509KeyPair fs (cli.Cert opts) (cli.Key opts) with
            | inl err =>
                inl (errors.TLSError host
                       (goerror.Errorf "failed to load client certificate: " (Some err)))
            | inr cert =>
                inr (transport.mkTransport (cli.ConnectTimeout opts)
                       (cli.ConnectTimeout opts)
                       (transport.mkConfig skip roots [cert]))
            end
        end
    end.
Proof.
  unfold transport.NewTransport. cbv zeta.
  destruct (cli.CACert opts =? "")%string; cbn [negb].
  - destruct (cli.Cert opts =? "")%string, (cli.Key opts =? "")%string; cbn;
      try destruct (transport.tls_LoadX509KeyPair fs _ _); cbn;
      destruct (target.IsIP pt), (cli.StrictSSL opts), (cli.Insecure opts); reflexivity.
  - destruct (transport.os_ReadFile fs _) as [err | pem]; [reflexivity |].
    destruct (transport.AppendCertsFromPEM fs pem); [| reflexivity].
    destruct (cli.Cert opts =? "")%string, (cli.Key opts =? "")%string; cbn;
      try destruct (transport.tls_LoadX509KeyPair fs _ _); cbn;
      destruct (target.IsIP pt), (cli.StrictSSL opts), (cli.Insecure opts); reflexivity.
Qed.

End TransportFacts.

(** X8.  [NewTransport] builds a transport exactly when the CA file, if one
    is named, can be read and parsed, and the client certificate and key are
    either both left out or both named and loadable as a pair. *)
Theorem NewTransport_builds_iff
        (fs : transport.Files) (opts : cli.Options) (pt : target.ParsedTarget) :
  (exists tr, transport.NewTransport fs opts pt = inr tr)
  <-> (cli.CACert opts = ""
       \/ exists pem, transport.os_ReadFile fs (cli.CACert opts) = inr pem
                      /\ transport.AppendCertsFromPEM fs pem = true)
      /\ ((cli.Cert opts = "" /\ cli.Key opts = "")
          \/ (cli.Cert opts <> "" /\ cli.Key opts <> ""
              /\ exists pair,
                   transport.tls_LoadX509KeyPair fs (cli.Cert opts) (cli.Key opts)
                   = inr pair)).
Proof.
  rewrite NewTransport_cases. cbv zeta.
  destruct (String.eqb_spec (cli.CACert opts) "") as [Hca | Hca];
    [| destruct (transport.os_ReadFile fs (cli.CACert opts)) as [err | pem] eqn:Hread;
       [| destruct (transport.AppendCertsFromPEM fs pem) eqn:Happ]];
    try (split; [intros [tr H]; discriminate H
                | intros [[Hno | (pem' & Hr & Ha)] _]; congruence]).
  all: destruct (String.eqb_spec (cli.Cert opts) "") as [Hc | Hc],
                (String.eqb_spec (cli.Key opts) "") as [Hk | Hk];
    try destruct (transport.tls_LoadX509KeyPair fs _ _) as [err | pair] eqn:Hload.
  all: split;
    [ intros [tr H]; try discriminate H; split; eauto 8
    | intros [_ [[Hc' Hk'] | (Hc' & Hk' & pair' & Hl)]];
      try congruence; eauto ].
Qed.

Lemma NewTransport_error_timeouts
      (fs : transport.Files) (opts : cli.Options) (pt : target.ParsedTarget)
      (e : errors.error) (t c : Z) :
  transport.NewTransport fs opts pt = inl e ->
  transport.NewTransport fs (cli.withTimeouts opts t c) pt = inl e.
Proof.
  intros H. rewrite NewTransport_cases in H |- *. cbv zeta in H |- *.
  cbn [cli.withTimeouts cli.CACert cli.Cert cli.Key cli.StrictSSL cli.Insecure
       cli.ConnectTimeout].
  destruct (cli.CACert opts =? "")%string;
    [| destruct (transport.os_ReadFile fs _); [exact H |];
       destruct (transport.AppendCertsFromPEM fs _); [| exact H]];
    destruct (cli.Cert opts =? "")%string, (cli.Key opts =? "")%string;
    try destruct (transport.tls_LoadX509KeyPair fs _ _);
    first [exact H | discriminate H].
Qed.

Lemma NewTransport_error_kind
      (fs : transport.Files) (opts : cli.Options) (pt : target.ParsedTarget)
      (e : errors.error) :
  transport.NewTransport fs opts pt = inl e ->
  exists cause,
    e = errors.TLSError
          (match target.URL pt with Some u => url.Host u | None => "unknown" end)
          cause
    /\ goerror.Timeout cause = None.
Proof.
  intros H. rewrite NewTransport_cases in H. cbv zeta in H.
  destruct (cli.CACert opts =? "")%string;
    [| destruct (transport.os_ReadFile fs _);
       [inversion H; eexists; split; reflexivity |];
       destruct (transport.AppendCertsFromPEM fs _);
       [| inversion H; eexists; split; reflexivity]];
    destruct (cli.Cert opts =? "")%string, (cli.Key opts =? "")%string;
    try destruct (transport.tls_LoadX509KeyPair fs _ _);
    first [discriminate H | inversion H; eexists; split; reflexivity].
Qed.

(** X9.  Every failure of [NewTransport] is a [TLSError] that names the host
    of the URL, or [unknown] without a URL, and whose cause was made by
    [fmt.Errorf]: it claims no timeout.  The exit code of such an error is
    35, and the timeouts of the options play no part in it. *)
Theorem NewTransport_failure
        (fs : transport.Files) (opts : cli.Options) (pt : target.ParsedTarget)
        (e : errors.error) :
  transport.NewTransport fs opts pt = inl e ->
  (exists cause,
     e = errors.TLSError
           (match target.URL pt with Some u => url.Host u | None => "unknown" end)
           cause
     /\ goerror.Timeout cause = None)
  /\ errors.MapErrorToExitCode (Some e) = 35%Z
  /\ forall t c, transport.NewTransport fs (cli.withTimeouts opts t c) pt = inl e.
Proof.
  intros H. pose proof (NewTransport_error_kind fs opts pt e H) as Hkind.
  split; [exact Hkind |]. split.
  - destruct Hkind as (cause & -> & _). reflexivity.
  - intros t c. exact (NewTransport_error_timeouts fs opts pt e t c H).
Qed.

Lemma NewTransport_failure_witness :
  exists e,
    transport.NewTransport fixtures.no_files
      (fixtures.with_tls fixtures.default_opts false false "ca.pem" "" "")
      fixtures.name_target = inl e
    /\ errors.MapErrorToExitCode (Some e) = 35%Z.
Proof.
  eexists. split; [reflexivity |].
  exact (proj1 (proj2 (NewTransport_failure fixtures.no_files
                         (fixtures.with_tls fixtures.default_opts false false "ca.pem" "" "")
                         fixtures.name_target _ eq_refl))).
Defined.

(** X10.  What a built transport holds: the pool of the CA file when one is
    named and no pool otherwise, no client certificate when none is named,
    and as dial and handshake timeouts the connect timeout of the options as
    it is: the default of [GetConnectTimeout] is not applied, so the two
    agree exactly when the connect timeout is positive. *)
Theorem NewTransport_built
        (fs : transport.Files) (opts : cli.Options) (pt : target.ParsedTarget)
        (tr : transport.Transport) :
  transport.NewTransport fs opts pt = inr tr ->
  (cli.CACert opts = "" ->
   transport.RootCAs (transport.TLSClientConfig tr) = None)
  /\ (cli.CACert opts <> "" ->
      exists pem,
        transport.os_ReadFile fs (cli.CACert opts) = inr pem
        /\ transport.RootCAs (transport.TLSClientConfig tr) = Some pem)
  /\ (cli.Cert opts = "" ->
      transport.Certificates (transport.TLSClientConfig tr) = [])
  /\ transport.DialTimeout tr = cli.ConnectTimeout opts
  /\ transport.TLSHandshakeTimeout tr = cli.ConnectTimeout opts
  /\ (transport.DialTimeout tr = transport.GetConnectTimeout opts
      <-> (0 < cli.ConnectTimeout opts)%Z).
Proof.
  intros H.
  assert (Hdef : cli.ConnectTimeout opts = transport.GetConnectTimeout opts
                 <-> (0 < cli.ConnectTimeout opts)%Z).
  { unfold transport.GetConnectTimeout, time.Second.
    destruct (Z.gtb_spec (cli.ConnectTimeout opts) 0); lia. }
  rewrite NewTransport_cases in H. cbv zeta in H.
  destruct (String.eqb_spec (cli.CACert opts) "") as [Hca | Hca];
    [| destruct (transport.os_ReadFile fs (cli.CACert opts)) as [err | pem] eqn:Hread;
       [discriminate H |];
       destruct (transport.AppendCertsFromPEM fs pem); [| discriminate H]];
    destruct (String.eqb_spec (cli.Cert opts) "") as [Hc | Hc],
             (String.eqb_spec (cli.Key opts) "") as [Hk | Hk];
    try destruct (transport.tls_LoadX509KeyPair fs _ _);
    try discriminate H; inversion H; subst tr; cbn;
    repeat split; try congruence; try (apply Hdef); try (now apply Hdef);
    try (intros _; eexists; split; reflexivity).
Qed.

Lemma NewTransport_built_witness :
  exists tr,
    transport.NewTransport fixtures.no_files fixtures.default_opts fixtures.name_target
    = inr tr
    /\ transport.DialTimeout tr = 0%Z
    /\ transport.DialTimeout tr <> transport.GetConnectTimeout fixtures.default_opts.
Proof.
  eexists. split; [reflexivity |].
  destruct (NewTransport_built fixtures.no_files fixtures.default_opts
              fixtures.name_target _ eq_refl) as (_ & _ & _ & Hdial & _ & Hdef).
  split; [exact Hdial |].
  intros Heq. apply Hdef in Heq. discriminate Heq.
Defined.

Lemma NewTransport_builds_iff_witness :
  exists tr,
    transport.NewTransport fixtures.pair_files
      (fixtures.with_tls fixtures.default_opts false false "" "client.pem" "client.key")
      fixtures.name_target = inr tr.
Proof.
  apply (proj2 (NewTransport_builds_iff fixtures.pair_files
                  (fixtures.with_tls fixtures.default_opts false false ""
                     "client.pem" "client.key")
                  fixtures.name_target)).
  split; [left; reflexivity |].
  right. split; [discriminate |]. split; [discriminate |].
  eexists. reflexivity.
Defined.

(** ** Result classification: the classes of [mapProbeError] *)

Lemma contains_length (s substr : string) (n : nat) :
  String.length substr = n ->
  protocol.contains s substr = (n <=? String.length s)%nat.
Proof. intros <-. apply contains_is_length_test. Qed.

(** X11.  What [mapProbeError] answers depends on the error through three
    things only: whether it is nil, whether it reports a timeout, and the
    length of its text.  With a host name to report, a text of 18 bytes or
    more is a refused connection, one of 12 to 17 bytes a missing route, one
    of 3 to 11 bytes a TLS failure, and a shorter one a connection error
    without host; without a host name every text is.  A timeout is reported
    with the duration zero. *)
Theorem mapProbeError_classes (err : goerror.t) (pt : target.ParsedTarget) :
  protocol.mapProbeError None (Some pt) = None
  /\ (protocol.reports_timeout err = true ->
      protocol.mapProbeError (Some err) (Some pt)
      = Some (errors.TimeoutError 0 "request"))
  /\ (protocol.reports_timeout err = false ->
      (forall u, target.URL pt = Some u -> url.Hostname u <> "" ->
         let n := String.length (goerror.Error err) in
         protocol.mapProbeError (Some err) (Some pt)
         = Some (if (18 <=? n)%nat then
                   errors.ConnectionError (url.Hostname u) (url.Port u) err
                 else if (12 <=? n)%nat then errors.NoRouteError (url.Hostname u) err
                 else if (3 <=? n)%nat then errors.TLSError (url.Hostname u) err
                 else errors.ConnectionError "unknown" "unknown" err))
      /\ (target.URL pt = None
          \/ (exists u, target.URL pt = Some u /\ url.Hostname u = "") ->
          protocol.mapProbeError (Some err) (Some pt)
          = Some (errors.ConnectionError "unknown" "unknown" err))).
Proof.
  split; [reflexivity |]. split.
  - intros Ht. unfold protocol.mapProbeError. now rewrite Ht.
  - intros Ht. split.
    + intros u Hu Hhost n. unfold protocol.mapProbeError.
      destruct pt as [URL isIP explicit input]. cbn in Hu. subst URL.
      rewrite Ht, (eqb_empty_false _ Hhost). cbn [negb].
      rewrite (contains_length _ "connection refused" 18 eq_refl).
      rewrite (contains_length _ "no such host" 12 eq_refl).
      rewrite (contains_length _ "name resolution" 15 eq_refl).
      rewrite (contains_length _ "certificate" 11 eq_refl).
      rewrite (contains_length _ "tls" 3 eq_refl).
      rewrite (contains_length _ "ssl" 3 eq_refl).
      fold n.
      destruct (Nat.leb_spec 18 n); [reflexivity |].
      destruct (Nat.leb_spec 12 n); [reflexivity |].
      destruct (Nat.leb_spec 15 n); [lia |].
      destruct (Nat.leb_spec 3 n), (Nat.leb_spec 11 n); try reflexivity; lia.
    + intros Hno. unfold protocol.mapProbeError.
      destruct pt as [URL isIP explicit input]. cbn in Hno. rewrite Ht.
      destruct Hno as [-> | (u & -> & Hempty)]; [reflexivity |].
      now rewrite Hempty.
Qed.

Lemma mapProbeError_classes_witness :
  protocol.mapProbeError (Some (goerror.mk "EOF" None)) (Some fixtures.name_target)
  = Some (errors.TLSError "example.invalid" (goerror.mk "EOF" None))
  /\ protocol.mapProbeError (Some (goerror.mk "unexpected EOF" None))
       (Some fixtures.name_target)
     = Some (errors.NoRouteError "example.invalid" (goerror.mk "unexpected EOF" None))
  /\ protocol.mapProbeError (Some (goerror.mk "context deadline exceeded" (Some true)))
       (Some fixtures.name_target)
     = Some (errors.TimeoutError 0 "request").
Proof.
  destruct (mapProbeError_classes (goerror.mk "EOF" None) fixtures.name_target)
    as (_ & _ & Hshort).
  destruct (mapProbeError_classes (goerror.mk "unexpected EOF" None) fixtures.name_target)
    as (_ & _ & Hmid).
  destruct (mapProbeError_classes (goerror.mk "context deadline exceeded" (Some true))
              fixtures.name_target) as (_ & Htimeout & _).
  split; [exact (proj1 (Hshort eq_refl) _ eq_refl ltac:(discriminate)) |].
  split; [exact (proj1 (Hmid eq_refl) _ eq_refl ltac:(discriminate)) |].
  exact (Htimeout eq_refl).
Defined.

(** ** The prober: what a result looks like *)

Lemma mapProbeError_some (err : goerror.t) (pt : option target.ParsedTarget) :
  exists e, protocol.mapProbeError (Some err) pt = Some e.
Proof.
  unfold protocol.mapProbeError.
  destruct (protocol.reports_timeout err); [eauto |].
  destruct pt as [[[u |] isIP explicit input] |]; eauto.
  repeat match goal with
         | |- context [if ?c then _ else _] => destruct c
         end; eauto.
Qed.

Section AttemptFacts.
Variable fs : transport.Files.
Variable nw : http.Network.
Variables (pt : target.ParsedTarget) (opts : cli.Options).
Variables (proto : string) (timeout : Z).
Variables (w w' : http.World) (r : protocol.ProbeResult).
Hypothesis Hrun :
  runStateT (protocol.probeProtocolWithTimeout fs nw pt opts proto timeout) w
  = inr (r, w').

Lemma probe_answered_or_failed : attempt.answered r w' \/ attempt.failed r.
Proof.
  rewrite probe_run in Hrun. cbv zeta in Hrun.
  destruct (transport.NewTransport fs _ pt) as [e | tr].
  { inversion Hrun; subst. right. eexists. cbn. eauto. }
  destruct (target.URL pt) as [u |]; [| discriminate Hrun].
  destruct (http.NewRequest_err nw _ _) as [e |].
  { inversion Hrun; subst. right. eexists. cbn. eauto. }
  destruct (http.result _) as [e | status].
  - inversion Hrun; subst. right.
    destruct (mapProbeError_some e (Some pt)) as [e' He']. exists e'. cbn. auto.
  - inversion Hrun; subst. left. eexists. cbn.
    repeat split; [now rewrite length_app, Nat.add_1_r | now left].
Qed.

Lemma probe_Duration : protocol.Duration r = (http.now w' - http.now w)%Z.
Proof.
  rewrite probe_run in Hrun. probe_cases Hrun; cbn; lia.
Qed.

Lemma probe_printed : http.printed w' = http.printed w.
Proof.
  rewrite probe_run in Hrun. probe_cases Hrun; reflexivity.
Qed.


End AttemptFacts.

Lemma answered_failed_exclusive (r : protocol.ProbeResult) (w : http.World) :
  attempt.answered r w -> attempt.failed r -> False.
Proof.
  intros (resp & _ & He & _) (e & He' & _). congruence.
Qed.

Section DetectFacts.
Variable fs : transport.Files.
Variable nw : http.Network.
Variables (pt : target.ParsedTarget) (opts : cli.Options).
Variables (w w' : http.World) (r : protocol.ProbeResult) (err : option errors.error).
Hypothesis Hrun :
  runStateT (protocol.DetectProtocol fs nw pt opts) w = inr ((r, err), w').

(** The attempt whose result [DetectProtocol] returns, and the world it
    started from. *)
Lemma detect_last_attempt :
  exists proto timeout w0,
    runStateT (protocol.probeProtocolWithTimeout fs nw pt opts proto timeout) w0
    = inr (r, w')
    /\ http.printed w0 = http.printed w
    /\ ((w0 = w
         /\ ((cli.Proto opts <> "" /\ cli.Proto opts <> "auto"
              /\ proto = cli.Proto opts /\ timeout = transport.ApplyTimeouts opts
              /\ err = protocol.Error r)
             \/ ((cli.Proto opts = "" \/ cli.Proto opts = "auto")
                 /\ proto = "http" /\ timeout = (3 * time.Second)%Z
                 /\ prober.accepted r /\ err = None)))
        \/ ((cli.Proto opts = "" \/ cli.Proto opts = "auto")
            /\ proto = "https" /\ timeout = (7 * time.Second)%Z /\ err = None
            /\ exists r1,
                 runStateT (protocol.probeProtocolWithTimeout fs nw pt opts "http"
                              (3 * time.Second)) w = inr (r1, w0)
                 /\ ~ prober.accepted r1)).
Proof.
  destruct (String.eqb_spec (cli.Proto opts) "") as [Hempty | Hne].
  2: destruct (String.eqb_spec (cli.Proto opts) "auto") as [Hauto | Hna].
  3:{ (* manual mode *)
      rewrite (detect_manual fs nw pt opts w Hne Hna) in Hrun.
      destruct (runStateT _ w) as [p | [r0 w1]] eqn:H1; [discriminate Hrun |].
      inversion Hrun; subst. exists (cli.Proto opts), (transport.ApplyTimeouts opts), w.
      split; [exact H1 |]. split; [reflexivity |].
      left. split; [reflexivity |]. left. auto. }
  all: assert (Hmode : cli.Proto opts = "" \/ cli.Proto opts = "auto") by auto.
  all: destruct (runStateT (protocol.probeProtocolWithTimeout fs nw pt opts "http"
                   (3 * time.Second)) w) as [p | [r1 w1]] eqn:H1;
    [ unfold protocol.DetectProtocol in Hrun;
      rewrite (auto_test opts Hmode), run_bind, H1 in Hrun; discriminate Hrun |].
  all: destruct (accepted_dec r1) as [Hacc | Hrej].
  all: try (rewrite (detect_auto_http fs nw pt opts w Hmode r1 w1 H1 Hacc) in Hrun;
            inversion Hrun; subst;
            exists "http", (3 * time.Second)%Z, w;
            split; [exact H1 |]; split; [reflexivity |];
            left; split; [reflexivity |]; right; auto).
  all: rewrite (detect_auto_https fs nw pt opts w Hmode r1 w1 H1 Hrej) in Hrun;
    destruct (runStateT (protocol.probeProtocolWithTimeout fs nw pt opts "https"
                (7 * time.Second)) w1) as [p | [r2 w2]] eqn:H2;
    [discriminate Hrun |];
    inversion Hrun; subst;
    exists "https", (7 * time.Second)%Z, w1;
    (split; [exact H2 |]); (split; [exact (probe_printed _ _ _ _ _ _ _ _ _ H1) |]);
    right; repeat split; eauto.
Qed.

End DetectFacts.

(** X12.  The result of [DetectProtocol] either reports a response, with its
    status, no error, and the body opened by the last call made, which is
    still open; or it reports an error, with no response and the status
    zero.  Nothing is printed on the way, and the error returned next to the
    result is nil or the error of the result. *)
Theorem DetectProtocol_result
        (fs : transport.Files) (nw : http.Network)
        (pt : target.ParsedTarget) (opts : cli.Options)
        (w w' : http.World) (r : protocol.ProbeResult) (err : option errors.error) :
  runStateT (protocol.DetectProtocol fs nw pt opts) w = inr ((r, err), w') ->
  (attempt.answered r w' \/ attempt.failed r)
  /\ ~ (attempt.answered r w' /\ attempt.failed r)
  /\ http.printed w' = http.printed w
  /\ (err = None \/ err = protocol.Error r).
Proof.
  intros Hrun.
  destruct (detect_last_attempt fs nw pt opts w w' r err Hrun)
    as (proto & timeout & w0 & Hlast & Hprinted & Hmode).
  split; [exact (probe_answered_or_failed _ _ _ _ _ _ _ _ _ Hlast) |].
  split; [intros [Ha Hf]; exact (answered_failed_exclusive r w' Ha Hf) |].
  split.
  - rewrite (probe_printed _ _ _ _ _ _ _ _ _ Hlast). exact Hprinted.
  - destruct Hmode as [[_ [(_ & _ & _ & _ & ->) | (_ & _ & _ & _ & ->)]]
                      | (_ & _ & _ & -> & _)]; auto.
Qed.

Lemma DetectProtocol_result_witness :
  exists r w',
    runStateT (protocol.DetectProtocol fixtures.no_files fixtures.http_200_only
                 fixtures.name_target fixtures.default_opts) fixtures.start
    = inr ((r, None), w')
    /\ (attempt.answered r w' \/ attempt.failed r)
    /\ http.printed w' = [].
Proof.
  eexists. eexists. split; [vm_compute; reflexivity |].
  match goal with
  | |- (attempt.answered ?r ?w' \/ _) /\ _ =>
      destruct (DetectProtocol_result fixtures.no_files fixtures.http_200_only
                  fixtures.name_target fixtures.default_opts fixtures.start w' r None
                  ltac:(vm_compute; reflexivity)) as (Hshape & _ & Hprinted & _)
  end.
  split; [exact Hshape | exact Hprinted].
Defined.

(** X13.  The duration a result reports is the time its own attempt took.
    In manual mode, and in auto mode when the HTTP attempt is accepted, that
    is the time detection took; when auto mode falls back to HTTPS, the time
    of the HTTP attempt is left out of it. *)
Theorem DetectProtocol_Duration
        (fs : transport.Files) (nw : http.Network)
        (pt : target.ParsedTarget) (opts : cli.Options)
        (w w' : http.World) (r : protocol.ProbeResult) (err : option errors.error) :
  runStateT (protocol.DetectProtocol fs nw pt opts) w = inr ((r, err), w') ->
  (protocol.Protocol r = cli.Proto opts
   /\ protocol.Duration r = (http.now w' - http.now w)%Z)
  \/ (protocol.Protocol r = "http" /\ prober.accepted r
      /\ protocol.Duration r = (http.now w' - http.now w)%Z)
  \/ (protocol.Protocol r = "https"
      /\ exists r1 w1,
           runStateT (protocol.probeProtocolWithTimeout fs nw pt opts "http"
                        (3 * time.Second)) w = inr (r1, w1)
           /\ ~ prober.accepted r1
           /\ protocol.Duration r1 = (http.now w1 - http.now w)%Z
           /\ protocol.Duration r = (http.now w' - http.now w1)%Z).
Proof.
  intros Hrun.
  destruct (detect_last_attempt fs nw pt opts w w' r err Hrun)
    as (proto & timeout & w0 & Hlast & _ & Hmode).
  pose proof (probe_Duration _ _ _ _ _ _ _ _ _ Hlast) as Hd.
  pose proof (probe_Protocol _ _ _ _ _ _ _ _ _ Hlast) as Hp.
  destruct Hmode as [[-> [(_ & _ & -> & _) | (_ & -> & _ & Hacc & _)]]
                    | (_ & -> & _ & _ & r1 & H1 & Hrej)].
  - left. auto.
  - right. left. auto.
  - right. right. split; [exact Hp |]. exists r1, w0.
    repeat split; try assumption.
    exact (probe_Duration _ _ _ _ _ _ _ _ _ H1).
Qed.

Lemma DetectProtocol_Duration_witness :
  exists r w',
    runStateT (protocol.DetectProtocol fixtures.no_files fixtures.http_404_only
                 fixtures.name_target fixtures.default_opts) fixtures.start
    = inr ((r, None), w')
    /\ protocol.Duration r = time.Millisecond
    /\ http.now w' = (6 * time.Millisecond)%Z.
Proof.
  eexists. eexists. split; [vm_compute; reflexivity |].
  match goal with
  | |- protocol.Duration ?r = _ /\ http.now ?w' = _ =>
      destruct (DetectProtocol_Duration fixtures.no_files fixtures.http_404_only
                  fixtures.name_target fixtures.default_opts fixtures.start w' r None
                  ltac:(vm_compute; reflexivity))
        as [[Hp _] | [[Hp _] | (_ & r1 & w1 & H1 & _ & _ & Hd)]];
      [ discriminate Hp | discriminate Hp |]
  end.
  vm_compute in H1. inversion H1; subst. split; [exact Hd | reflexivity].
Defined.

(** ** The request builder *)

Section HeaderFacts.
Variable tx : request.Text.


Lemma filter_keys_incl (key : string) (h : http.Header) (k : string) :
  In k (List.map fst (List.filter (fun kv => negb (String.eqb (fst kv) key)) h)) ->
  In k (List.map fst h) /\ k <> key.
Proof.
  rewrite !in_map_iff. intros ([k' v] & <- & Hin). apply filter_In in Hin as [Hin Hne].
  cbn in *. split.
  - exists (k', v). auto.
  - apply negb_true_iff, String.eqb_neq in Hne. exact Hne.
Qed.

Lemma filter_keys_NoDup (key : string) (h : http.Header) :
  NoDup (List.map fst h) ->
  NoDup (List.map fst (List.filter (fun kv => negb (String.eqb (fst kv) key)) h)).
Proof.
  induction h as [| [k v] h IH]; cbn; [auto |].
  intros Hnd. inversion Hnd as [| ? ? Hnotin Hnd']; subst.
  destruct (negb (k =? key)%string); cbn; [| auto].
  constructor; [| auto]. intros Hin. apply filter_keys_incl in Hin as [Hin _]. auto.
Qed.

(** [Set] keeps one value per key. *)
Lemma Header_Set_NoDup (r : http.Request) (name value : string) :
  NoDup (List.map fst (http.Headers r)) ->
  NoDup (List.map fst (http.Headers (request.Header_Set tx r name value))).
Proof.
  intros Hnd. cbn. constructor; [| now apply filter_keys_NoDup].
  intros Hin. apply filter_keys_incl in Hin as [_ Hne]. congruence.
Qed.

(** Insert, then look up. *)
Lemma Get_Set_same (r : http.Request) (name value : string) :
  header.Get tx (http.Headers (request.Header_Set tx r name value)) name = value.
Proof. unfold header.Get. cbn. now rewrite String.eqb_refl. Qed.

Lemma find_filter_other (key k : string) (h : http.Header) :
  k <> key ->
  List.find (fun kv => String.eqb (fst kv) k)
    (List.filter (fun kv => negb (String.eqb (fst kv) key)) h)
  = List.find (fun kv => String.eqb (fst kv) k) h.
Proof.
  intros Hne. induction h as [| [k' v] h IH]; cbn; [reflexivity |].
  destruct (String.eqb_spec k' key) as [-> | Hk]; cbn.
  - apply String.eqb_neq in Hne. rewrite String.eqb_sym, Hne. exact IH.
  - destruct (k' =? k)%string; [reflexivity | exact IH].
Qed.

Lemma Get_Set_other (r : http.Request) (name value other : string) :
  request.textproto_CanonicalMIMEHeaderKey tx other
  <> request.textproto_CanonicalMIMEHeaderKey tx name ->
  header.Get tx (http.Headers (request.Header_Set tx r name value)) other
  = header.Get tx (http.Headers r) other.
Proof.
  intros Hne. unfold header.Get. cbn.
  assert (Hk : (request.textproto_CanonicalMIMEHeaderKey tx name
                =? request.textproto_CanonicalMIMEHeaderKey tx other)%string = false).
  { apply String.eqb_neq. congruence. }
  rewrite Hk. now rewrite find_filter_other.
Qed.

Lemma Get_if_Set_other (b : bool) (r : http.Request) (name value other : string) :
  request.textproto_CanonicalMIMEHeaderKey tx other
  <> request.textproto_CanonicalMIMEHeaderKey tx name ->
  header.Get tx (http.Headers (if b then request.Header_Set tx r name value else r)) other
  = header.Get tx (http.Headers r) other.
Proof. destruct b; [apply Get_Set_other | reflexivity]. Qed.

Lemma Get_if_Set2_other (b : bool) (r : http.Request)
      (name1 value1 name2 value2 other : string) :
  request.textproto_CanonicalMIMEHeaderKey tx other
  <> request.textproto_CanonicalMIMEHeaderKey tx name1 ->
  request.textproto_CanonicalMIMEHeaderKey tx other
  <> request.textproto_CanonicalMIMEHeaderKey tx name2 ->
  header.Get tx
    (http.Headers (if b then request.Header_Set tx
                               (request.Header_Set tx r name1 value1) name2 value2
                   else r)) other
  = header.Get tx (http.Headers r) other.
Proof.
  intros H1 H2. destruct b; [| reflexivity].
  now rewrite Get_Set_other, Get_Set_other.
Qed.

Lemma add_header_fields (r : http.Request) (line : string) :
  http.Method (request.add_header tx r line) = http.Method r
  /\ http.URL (request.add_header tx r line) = http.URL r
  /\ http.Deadline (request.add_header tx r line) = http.Deadline r
  /\ http.Body_ (request.add_header tx r line) = http.Body_ r
  /\ (NoDup (List.map fst (http.Headers r)) ->
      NoDup (List.map fst (http.Headers (request.add_header tx r line)))).
Proof.
  unfold request.add_header.
  destruct (strings.Cut line ":") as [[name value] [|]]; repeat split; auto.
  apply Header_Set_NoDup.
Qed.

Lemma fold_add_header_fields (lines : list string) (r : http.Request) :
  http.Method (List.fold_left (request.add_header tx) lines r) = http.Method r
  /\ http.URL (List.fold_left (request.add_header tx) lines r) = http.URL r
  /\ http.Deadline (List.fold_left (request.add_header tx) lines r) = http.Deadline r
  /\ http.Body_ (List.fold_left (request.add_header tx) lines r) = http.Body_ r
  /\ (NoDup (List.map fst (http.Headers r)) ->
      NoDup (List.map fst
               (http.Headers (List.fold_left (request.add_header tx) lines r)))).
Proof.
  revert r. induction lines as [| line lines IH]; intros r; cbn; [repeat split; auto |].
  destruct (IH (request.add_header tx r line)) as (Hm & Hu & Hd & Hb & Hn).
  destruct (add_header_fields r line) as (Hm' & Hu' & Hd' & Hb' & Hn').
  repeat split; try congruence. auto.
Qed.

End HeaderFacts.

Section BuildFacts.
Variable tx : request.Text.
Variable nw : http.Network.
Variables (deadline : Z) (pt : target.ParsedTarget) (opts : cli.Options).

(** The request [BuildRequest] returns, header by header. *)
Lemma BuildRequest_run (w : http.World) :
  runStateT (request.BuildRequest tx nw deadline pt opts) w
  = match target.URL pt with
    | None => inl http.nil_pointer_dereference
    | Some u =>
        let method :=
          if (cli.Method opts =? "")%string then
            if negb (cli.Data opts =? "")%string || negb (cli.DataRaw opts =? "")%string
            then "POST" else if cli.Head opts then "HEAD" else "GET"
          else cli.Method opts in
        let body :=
          if negb (cli.DataRaw opts =? "")%string then Some (cli.DataRaw opts)
          else if negb (cli.Data opts =? "")%string then Some (cli.Data opts)
          else None in
        match http.NewRequest_err nw method (http.URL_String nw u) with
        | Some err =>
            inr (inl (errors.foreign
                        (goerror.Errorf "failed to create request: " (Some err))), w)
        | None =>
            let r0 := List.fold_left (request.add_header tx) (cli.Headers opts)
                        (http.mkRequest method (http.URL_String nw u) deadline [] body) in
            let r1 := if negb (cli.User opts =? "")%string
                      then request.addBasicAuth tx r0 (cli.User opts) else r0 in
            let r2 := if negb (cli.Cookie opts =? "")%string
                      then request.Header_Set tx r1 "Cookie" (cli.Cookie opts) else r1 in
            let r3 := if negb (cli.UserAgent opts =? "")%string
                      then request.Header_Set tx r2 "User-Agent" (cli.UserAgent opts)
                      else r2 in
            let r4 := if negb (cli.Referer opts =? "")%string
                      then request.Header_Set tx r3 "Referer" (cli.Referer opts) else r3 in
            let r5 := if cli.JSON opts
                      then request.Header_Set tx
                             (request.Header_Set tx r4 "Content-Type" "application/json")
                             "Accept" "application/json"
                      else r4 in
            inr (inr r5, w)
        end
    end.
Proof.
  unfold request.BuildRequest, http.NewRequestWithContext.
  destruct (target.URL pt) as [u |]; [| reflexivity].
  cbv zeta. destruct (http.NewRequest_err nw _ _); reflexivity.
Qed.

End BuildFacts.

(** X14.  [BuildRequest] leaves the world as it is.  It fails exactly when
    the request cannot be created, with an error whose exit code is 7.  The
    request it builds goes to the URL of the target, within the deadline;
    its method is never empty: the one of the options when there is one,
    else POST when there is data, HEAD when asked for, GET otherwise; its
    body is the raw data before the data, and it has at most one value per
    header name. *)
Theorem BuildRequest_request
        (tx : request.Text) (nw : http.Network) (deadline : Z)
        (pt : target.ParsedTarget) (opts : cli.Options)
        (w w' : http.World) (built : errors.error + http.Request) :
  runStateT (request.BuildRequest tx nw deadline pt opts) w = inr (built, w') ->
  w' = w
  /\ exists u,
       target.URL pt = Some u
       /\ match built with
          | inl e =>
              exists err,
                http.NewRequest_err nw
                  (if (cli.Method opts =? "")%string then
                     if negb (cli.Data opts =? "")%string
                        || negb (cli.DataRaw opts =? "")%string
                     then "POST" else if cli.Head opts then "HEAD" else "GET"
                   else cli.Method opts)
                  (http.URL_String nw u) = Some err
                /\ e = errors.foreign
                         (goerror.Errorf "failed to create request: " (Some err))
                /\ errors.MapErrorToExitCode (Some e) = 7%Z
          | inr req =>
              http.NewRequest_err nw (http.Method req) (http.URL req) = None
              /\ http.URL req = http.URL_String nw u
              /\ http.Deadline req = deadline
              /\ http.Method req <> ""
              /\ (cli.Method opts <> "" -> http.Method req = cli.Method opts)
              /\ (cli.Method opts = "" ->
                  http.Method req
                  = if negb (cli.Data opts =? "")%string
                       || negb (cli.DataRaw opts =? "")%string
                    then "POST" else if cli.Head opts then "HEAD" else "GET")
              /\ http.Body_ req
                 = (if negb (cli.DataRaw opts =? "")%string then Some (cli.DataRaw opts)
                    else if negb (cli.Data opts =? "")%string then Some (cli.Data opts)
                    else None)
              /\ NoDup (List.map fst (http.Headers req))
          end.
Proof.
  rewrite BuildRequest_run. destruct (target.URL pt) as [u |]; [| discriminate].
  cbv zeta.
  destruct (http.NewRequest_err nw _ _) as [err |] eqn:Hnew; intros H; inversion H; subst.
  { split; [reflexivity |]. exists u. split; [reflexivity |]. exists err. auto. }
  split; [reflexivity |]. exists u. split; [reflexivity |].
  set (method := if (cli.Method opts =? "")%string then _ else _) in *.
  set (body := if negb (cli.DataRaw opts =? "")%string then _ else _) in *.
  set (r0 := List.fold_left _ _ _).
  destruct (fold_add_header_fields tx (cli.Headers opts)
              (http.mkRequest method (http.URL_String nw u) deadline [] body))
    as (Hm & Hu & Hd & Hb & Hn).
  fold r0 in Hm, Hu, Hd, Hb, Hn. cbn in Hm, Hu, Hd, Hb, Hn.
  specialize (Hn (NoDup_nil _)).
  match goal with
  | |- http.NewRequest_err nw (http.Method ?r) (http.URL ?r) = None /\ _ =>
      assert (Hr : http.Method r = method /\ http.URL r = http.URL_String nw u
                   /\ http.Deadline r = deadline /\ http.Body_ r = body
                   /\ NoDup (List.map fst (http.Headers r)))
  end.
  { destruct (cli.JSON opts), (negb (cli.Referer opts =? "")%string),
      (negb (cli.UserAgent opts =? "")%string), (negb (cli.Cookie opts =? "")%string),
      (negb (cli.User opts =? "")%string);
      unfold request.addBasicAuth;
      repeat split; try assumption;
      repeat apply Header_Set_NoDup; assumption. }
  destruct Hr as (Hrm & Hru & Hrd & Hrb & Hrn).
  rewrite Hrm, Hru, Hrd, Hrb.
  repeat split; try assumption.
  - subst method. destruct (String.eqb_spec (cli.Method opts) ""); [| assumption].
    destruct (negb _ || negb _); [discriminate |].
    destruct (cli.Head opts); discriminate.
  - intros Hne. subst method. apply String.eqb_neq in Hne. now rewrite Hne.
  - intros He. subst method. now rewrite He.
Qed.

Lemma BuildRequest_request_witness :
  exists req,
    runStateT (request.BuildRequest (request.mkText id id id) fixtures.http_200_only
                 (10 * time.Second)
                 fixtures.name_target fixtures.default_opts) fixtures.start
    = inr (inr req, fixtures.start)
    /\ http.Method req = "GET"
    /\ http.URL req = "http://example.invalid:80/".
Proof.
  eexists. split; [vm_compute; reflexivity |].
  match goal with
  | |- http.Method ?r = _ /\ _ =>
      destruct (BuildRequest_request (request.mkText id id id) fixtures.http_200_only
                  (10 * time.Second) fixtures.name_target fixtures.default_opts
                  fixtures.start fixtures.start (inr r) ltac:(vm_compute; reflexivity))
        as (_ & u & Hu & _ & Hurl & _ & _ & _ & Hget & _)
  end.
  split; [exact (Hget eq_refl) |].
  inversion Hu; subst u. exact Hurl.
Defined.

(** X15.  The headers set from flags are set after those of the [-H] flags,
    in the order authorization, cookie, user agent, referer, content type,
    accept.  So, when the six names have six canonical keys, each flag
    decides its header whatever the [-H] flags say. *)
Theorem BuildRequest_flag_headers
        (tx : request.Text) (nw : http.Network) (deadline : Z)
        (pt : target.ParsedTarget) (opts : cli.Options)
        (w w' : http.World) (req : http.Request) :
  NoDup (List.map (request.textproto_CanonicalMIMEHeaderKey tx) header.flag_names) ->
  runStateT (request.BuildRequest tx nw deadline pt opts) w = inr (inr req, w') ->
  (cli.User opts <> "" ->
   header.Get tx (http.Headers req) "Authorization"
   = ("Basic " ++ request.base64_EncodeToString tx (cli.User opts))%string)
  /\ (cli.Cookie opts <> "" ->
      header.Get tx (http.Headers req) "Cookie" = cli.Cookie opts)
  /\ (cli.UserAgent opts <> "" ->
      header.Get tx (http.Headers req) "User-Agent" = cli.UserAgent opts)
  /\ (cli.Referer opts <> "" ->
      header.Get tx (http.Headers req) "Referer" = cli.Referer opts)
  /\ (cli.JSON opts = true ->
      header.Get tx (http.Headers req) "Content-Type" = "application/json"
      /\ header.Get tx (http.Headers req) "Accept" = "application/json").
Proof.
  intros Hkeys. rewrite BuildRequest_run.
  destruct (target.URL pt) as [u |]; [| discriminate]. cbv zeta.
  destruct (http.NewRequest_err nw _ _) as [err |]; [discriminate |].
  intros H. inversion H as [Hreq]. clear H Hreq.
  assert (Hne : forall i j : nat,
             (i < 6)%nat -> (j < 6)%nat -> i <> j ->
             request.textproto_CanonicalMIMEHeaderKey tx (nth i header.flag_names "")
             <> request.textproto_CanonicalMIMEHeaderKey tx (nth j header.flag_names "")).
  { intros i j Hi Hj Hij Heq. apply Hij.
    apply (proj1 (NoDup_nth _ (request.textproto_CanonicalMIMEHeaderKey tx "")) Hkeys);
      rewrite ?length_map; try assumption.
    rewrite !(map_nth (request.textproto_CanonicalMIMEHeaderKey tx)). exact Heq. }
  assert (Hk : forall i j : nat,
             (i <? 6)%nat = true -> (j <? 6)%nat = true -> (i =? j)%nat = false ->
             request.textproto_CanonicalMIMEHeaderKey tx (nth i header.flag_names "")
             <> request.textproto_CanonicalMIMEHeaderKey tx (nth j header.flag_names ""))
    by (intros i j Hi Hj Hij; apply Hne;
        [now apply Nat.ltb_lt | now apply Nat.ltb_lt | now apply Nat.eqb_neq]).
  pose proof (Hk 0%nat 1%nat eq_refl eq_refl eq_refl) as H01.
  pose proof (Hk 0%nat 2%nat eq_refl eq_refl eq_refl) as H02.
  pose proof (Hk 0%nat 3%nat eq_refl eq_refl eq_refl) as H03.
  pose proof (Hk 0%nat 4%nat eq_refl eq_refl eq_refl) as H04.
  pose proof (Hk 0%nat 5%nat eq_refl eq_refl eq_refl) as H05.
  pose proof (Hk 1%nat 2%nat eq_refl eq_refl eq_refl) as H12.
  pose proof (Hk 1%nat 3%nat eq_refl eq_refl eq_refl) as H13.
  pose proof (Hk 1%nat 4%nat eq_refl eq_refl eq_refl) as H14.
  pose proof (Hk 1%nat 5%nat eq_refl eq_refl eq_refl) as H15.
  pose proof (Hk 2%nat 3%nat eq_refl eq_refl eq_refl) as H23.
  pose proof (Hk 2%nat 4%nat eq_refl eq_refl eq_refl) as H24.
  pose proof (Hk 2%nat 5%nat eq_refl eq_refl eq_refl) as H25.
  pose proof (Hk 3%nat 4%nat eq_refl eq_refl eq_refl) as H34.
  pose proof (Hk 3%nat 5%nat eq_refl eq_refl eq_refl) as H35.
  pose proof (Hk 4%nat 5%nat eq_refl eq_refl eq_refl) as H45.
  cbn [nth header.flag_names] in *. clear Hk Hne Hkeys.
  unfold request.addBasicAuth.
  split; [| split; [| split; [| split]]]; intros Hset;
    try (apply String.eqb_neq in Hset).
  - rewrite Get_if_Set2_other by congruence.
    rewrite !Get_if_Set_other by congruence.
    rewrite Hset. apply Get_Set_same.
  - rewrite Get_if_Set2_other by congruence.
    rewrite !Get_if_Set_other by congruence.
    rewrite Hset. apply Get_Set_same.
  - rewrite Get_if_Set2_other by congruence.
    rewrite !Get_if_Set_other by congruence.
    rewrite Hset. apply Get_Set_same.
  - rewrite Get_if_Set2_other by congruence.
    rewrite Hset. apply Get_Set_same.
  - rewrite Hset. split; [| apply Get_Set_same].
    rewrite Get_Set_other by congruence. apply Get_Set_same.
Qed.

Lemma BuildRequest_flag_headers_witness :
  exists req,
    runStateT (request.BuildRequest (request.mkText id id id) fixtures.http_200_only
                 (10 * time.Second) fixtures.name_target
                 (cli.mkOptions "" "auto" "" ["User-Agent: from-header"; "X-Id: 7"]
                    "" "" "" "" "from-flag" "" false false "" false false
                    false "" "" "" false (10 * time.Second) 0))
              fixtures.start
    = inr (inr req, fixtures.start)
    /\ header.Get (request.mkText id id id) (http.Headers req) "User-Agent" = "from-flag".
Proof.
  eexists. split; [vm_compute; reflexivity |].
  match goal with
  | |- header.Get ?tx (http.Headers ?r) _ = _ =>
      destruct (BuildRequest_flag_headers tx fixtures.http_200_only
                  (10 * time.Second) fixtures.name_target
                  (cli.mkOptions "" "auto" "" ["User-Agent: from-header"; "X-Id: 7"]
                     "" "" "" "" "from-flag" "" false false "" false false
                     false "" "" "" false (10 * time.Second) 0)
                  fixtures.start fixtures.start r)
        as (_ & _ & Hua & _)
  end.
  - repeat constructor; cbn; intuition discriminate.
  - vm_compute. reflexivity.
  - apply Hua. discriminate.
Defined.

(** ** The command: what [run] does after detection *)

Lemma detect_printed
      (fs : transport.Files) (nw : http.Network)
      (pt : target.ParsedTarget) (opts : cli.Options)
      (w w' : http.World) (out : protocol.ProbeResult * option errors.error) :
  runStateT (protocol.DetectProtocol fs nw pt opts) w = inr (out, w') ->
  http.printed w' = http.printed w.
Proof.
  destruct out as [r err]. intros Hrun.
  destruct (detect_last_attempt fs nw pt opts w w' r err Hrun)
    as (proto & timeout & w0 & Hlast & Hprinted & _).
  now rewrite (probe_printed _ _ _ _ _ _ _ _ _ Hlast).
Qed.

Section RunFacts.
Variable ip : string -> bool.
Variable fs : transport.Files.
Variable nw : http.Network.
Variable tx : request.Text.
Variable write : cli.Options -> http.Request -> protocol.ProbeResult -> option goerror.t.
Variables (opts : cli.Options) (pt : target.ParsedTarget).
Hypothesis Hparse : target.ParseTarget ip (cli.Target opts) = inr pt.

(** [run], from the result of detection on. *)
Lemma run_after_detect (w w1 : http.World) (r : protocol.ProbeResult)
      (err : option errors.error) :
  runStateT (protocol.DetectProtocol fs nw pt opts) w = inr ((r, err), w1) ->
  runStateT (main.run ip fs nw tx write opts) w
  = match (match err with Some e => Some e | None => protocol.Error r end) with
    | Some e => inr (errors.MapErrorToExitCode (Some e), attempt.printing e w1)
    | None =>
        match target.URL pt with
        | None => inl http.nil_pointer_dereference
        | Some u =>
            let pt' :=
              target.mkParsedTarget (Some (url.withScheme u (protocol.Protocol r)))
                (target.IsIP pt) (target.HasExplicitProto pt)
                (target.OriginalInput pt) in
            match runStateT (request.BuildRequest tx nw (transport.ApplyTimeouts opts)
                               pt' opts) w1 with
            | inl p => inl p
            | inr (inl e, _) =>
                inr (errors.MapErrorToExitCode (Some e), attempt.printing e w1)
            | inr (inr req, _) =>
                match transport.NewTransport fs opts pt' with
                | inl e =>
                    inr (errors.MapErrorToExitCode (Some e), attempt.printing e w1)
                | inr tr =>
                    let x := http.mkExchange
                               (http.mkClient tr (transport.ApplyTimeouts opts)) req in
                    let a := http.answer nw (http.sent w1) x in
                    match http.result a with
                    | inl e =>
                        inr (7%Z,
                             http.mkWorld (http.now w1 + http.took a)
                               (http.sent w1 ++ [x])%list (http.open_bodies w1)
                               (http.printed w1 ++ [errors.foreign e])%list)
                    | inr status =>
                        let body := List.length (http.sent w1) in
                        let r' :=
                          protocol.mkProbeResult (protocol.Protocol r) status
                            (protocol.Duration r)
                            (Some (http.mkResponse status body)) (protocol.Error r) in
                        let w2 :=
                          http.mkWorld (http.now w1 + http.took a)
                            (http.sent w1 ++ [x])%list
                            (List.filter (fun h => negb (Nat.eqb h body))
                               (body :: http.open_bodies w1)) in
                        match write opts req r' with
                        | Some e => inr (7%Z, w2 (http.printed w1 ++ [errors.foreign e])%list)
                        | None => inr (0%Z, w2 (http.printed w1))
                        end
                    end
                end
            end
        end
    end.
Proof.
  intros Hdetect. unfold main.run. rewrite Hparse, run_bind, Hdetect.
  destruct err as [e |]; [reflexivity |]. cbn [protocol.isNil negb].
  destruct (protocol.Error r) as [e |]; [reflexivity |]. cbn [protocol.isNil negb].
  destruct (target.URL pt) as [u |]; [| reflexivity].
  cbv zeta. rewrite run_bind.
  destruct (runStateT (request.BuildRequest _ _ _ _ _) w1) as [p | [built w2]] eqn:Hb;
    [reflexivity |].
  apply BuildRequest_world in Hb. subst w2.
  destruct built as [e | req]; [reflexivity |].
  destruct (transport.NewTransport fs opts _) as [e | tr]; [reflexivity |].
  rewrite run_bind. unfold http.Client_Do at 1. cbn.
  destruct (http.result _) as [e | status]; [reflexivity |].
  cbn. destruct (write opts req _); reflexivity.
Qed.

(** The status of the result is the only thing the output stage is told
    about the probe that the actual response does not replace. *)
Lemma run_returns_after_detect (w w1 w' : http.World) (r : protocol.ProbeResult)
      (err : option errors.error) (code : Z) :
  runStateT (protocol.DetectProtocol fs nw pt opts) w = inr ((r, err), w1) ->
  runStateT (main.run ip fs nw tx write opts) w = inr (code, w') ->
  (exists e,
     (err = Some e \/ (err = None /\ protocol.Error r = Some e))
     /\ code = errors.MapErrorToExitCode (Some e)
     /\ w' = attempt.printing e w1)
  \/ (err = None /\ protocol.Error r = None
      /\ exists u built,
           target.URL pt = Some u
           /\ runStateT (request.BuildRequest tx nw (transport.ApplyTimeouts opts)
                           (target.mkParsedTarget
                              (Some (url.withScheme u (protocol.Protocol r)))
                              (target.IsIP pt) (target.HasExplicitProto pt)
                              (target.OriginalInput pt)) opts) w1 = inr (built, w1)
           /\ match built with
              | inl e =>
                  code = errors.MapErrorToExitCode (Some e)
                  /\ w' = attempt.printing e w1
              | inr req =>
                  match transport.NewTransport fs opts
                          (target.mkParsedTarget
                             (Some (url.withScheme u (protocol.Protocol r)))
                             (target.IsIP pt) (target.HasExplicitProto pt)
                             (target.OriginalInput pt)) with
                  | inl e =>
                      code = errors.MapErrorToExitCode (Some e)
                      /\ w' = attempt.printing e w1
                  | inr tr =>
                      let x := http.mkExchange
                                 (http.mkClient tr (transport.ApplyTimeouts opts)) req in
                      let a := http.answer nw (http.sent w1) x in
                      http.now w' = (http.now w1 + http.took a)%Z
                      /\ http.sent w' = (http.sent w1 ++ [x])%list
                      /\ match http.result a with
                         | inl e =>
                             code = 7%Z
                             /\ http.open_bodies w' = http.open_bodies w1
                             /\ http.printed w' = (http.printed w1 ++ [errors.foreign e])%list
                         | inr status =>
                             http.open_bodies w'
                             = List.filter
                                 (fun h => negb (Nat.eqb h (List.length (http.sent w1))))
                                 (List.length (http.sent w1) :: http.open_bodies w1)
                             /\ ((code = 0%Z /\ http.printed w' = http.printed w1)
                                 \/ (exists e,
                                       code = 7%Z
                                       /\ http.printed w'
                                          = (http.printed w1 ++ [errors.foreign e])%list))
                         end
                  end
              end).
Proof.
  intros Hdetect. rewrite (run_after_detect w w1 r err Hdetect).
  destruct err as [e |].
  { intros H. inversion H; subst. left. exists e. auto. }
  destruct (protocol.Error r) as [e |].
  { intros H. inversion H; subst. left. exists e. auto. }
  destruct (target.URL pt) as [u |]; [| discriminate].
  cbv zeta.
  destruct (runStateT (request.BuildRequest _ _ _ _ _) w1) as [p | [built w2]] eqn:Hb;
    [discriminate |].
  pose proof (BuildRequest_world _ _ _ _ _ _ _ _ Hb) as Hw. subst w2.
  intros H. right. split; [reflexivity |]. split; [reflexivity |].
  exists u, built. split; [reflexivity |]. split; [exact Hb |].
  destruct built as [e | req].
  { inversion H; subst. auto. }
  destruct (transport.NewTransport fs opts _) as [e | tr].
  { inversion H; subst. auto. }
  cbv zeta.
  destruct (http.result _) as [e | status].
  { inversion H; subst. cbn. auto. }
  destruct (write opts req _) as [e |]; inversion H; subst; cbn;
    repeat split; eauto.
Qed.

End RunFacts.

(** ** The command: exit codes, calls and bodies *)

Lemma mapProbeError_code (err : goerror.t) (pt : option target.ParsedTarget)
      (e : errors.error) :
  protocol.mapProbeError (Some err) pt = Some e ->
  In (errors.MapErrorToExitCode (Some e)) [6; 7; 28; 35]%Z.
Proof.
  unfold protocol.mapProbeError.
  destruct (protocol.reports_timeout err); [intros H; inversion H; cbn; auto |].
  destruct pt as [[[u |] isIP explicit input] |];
    repeat match goal with
           | |- context [if ?c then _ else _] => destruct c
           end;
    intros H; inversion H; cbn; auto.
Qed.

Lemma probe_error_code
      (fs : transport.Files) (nw : http.Network)
      (pt : target.ParsedTarget) (opts : cli.Options)
      (proto : string) (timeout : Z) (w w' : http.World)
      (r : protocol.ProbeResult) (e : errors.error) :
  runStateT (protocol.probeProtocolWithTimeout fs nw pt opts proto timeout) w
  = inr (r, w') ->
  protocol.Error r = Some e ->
  In (errors.MapErrorToExitCode (Some e)) [6; 7; 28; 35]%Z.
Proof.
  intros Hrun. rewrite probe_run in Hrun. cbv zeta in Hrun.
  destruct (transport.NewTransport fs _ pt) as [e0 | tr] eqn:Htr.
  { inversion Hrun; subst. cbn. intros H. inversion H; subst.
    destruct (NewTransport_error_kind _ _ _ _ Htr) as (cause & -> & _). cbn. auto. }
  destruct (target.URL pt) as [u |]; [| discriminate Hrun].
  destruct (http.NewRequest_err nw _ _) as [e0 |].
  { inversion Hrun; subst. cbn. intros H. inversion H; subst. cbn. auto. }
  destruct (http.result _) as [e0 | status]; inversion Hrun; subst;
    cbn [protocol.Error].
  - intros H. exact (mapProbeError_code e0 (Some pt) e H).
  - discriminate.
Qed.

Lemma ApplyTimeouts_pos (opts : cli.Options) : (0 < transport.ApplyTimeouts opts)%Z.
Proof.
  unfold transport.ApplyTimeouts, time.Second.
  destruct (Z.gtb_spec (cli.Timeout opts) 0); lia.
Qed.

Lemma head_probe_bounded (proto : string) (timeout : Z) (x : http.Exchange) :
  (0 < timeout)%Z -> prober.head_probe proto timeout x -> attempt.bounded x.
Proof.
  intros Hpos (_ & _ & Hd & Ht & _). unfold attempt.bounded.
  rewrite Hd, Ht. auto.
Qed.

Lemma one_attempt_bounded (proto : string) (timeout : Z) (w w' : http.World) :
  (0 < timeout)%Z -> prober.one_attempt proto timeout w w' ->
  exists calls,
    http.sent w' = (http.sent w ++ calls)%list
    /\ (List.length calls <= 1)%nat
    /\ Forall attempt.bounded calls.
Proof.
  intros Hpos (calls & Hs & Hl & Hall). exists calls. repeat split; auto.
  eapply Forall_impl; [| exact Hall]. intros x. now apply head_probe_bounded.
Qed.

Section DetectCalls.
Variable fs : transport.Files.
Variable nw : http.Network.
Variables (pt : target.ParsedTarget) (opts : cli.Options).
Variables (w w' : http.World) (r : protocol.ProbeResult) (err : option errors.error).
Hypothesis Hrun :
  runStateT (protocol.DetectProtocol fs nw pt opts) w = inr ((r, err), w').

Lemma detect_err : err = None \/ err = protocol.Error r.
Proof.
  destruct (detect_last_attempt fs nw pt opts w w' r err Hrun)
    as (proto & timeout & w0 & _ & _ & Hmode).
  destruct Hmode as [[_ [(_ & _ & _ & _ & ->) | (_ & _ & _ & _ & ->)]]
                    | (_ & _ & _ & -> & _)]; auto.
Qed.

Lemma detect_error_code (e : errors.error) :
  protocol.Error r = Some e ->
  In (errors.MapErrorToExitCode (Some e)) [6; 7; 28; 35]%Z.
Proof.
  destruct (detect_last_attempt fs nw pt opts w w' r err Hrun)
    as (proto & timeout & w0 & Hlast & _).
  exact (probe_error_code _ _ _ _ _ _ _ _ _ _ Hlast).
Qed.

Lemma detect_Protocol : protocol.Protocol r <> "".
Proof.
  destruct (detect_last_attempt fs nw pt opts w w' r err Hrun)
    as (proto & timeout & w0 & Hlast & _ & Hmode).
  rewrite (probe_Protocol _ _ _ _ _ _ _ _ _ Hlast).
  destruct Hmode as [[_ [(Hne & _ & -> & _) | (_ & -> & _)]] | (_ & -> & _)];
    [exact Hne | discriminate | discriminate].
Qed.

Lemma detect_calls :
  exists calls,
    http.sent w' = (http.sent w ++ calls)%list
    /\ (List.length calls <= 2)%nat
    /\ (cli.Proto opts <> "" -> cli.Proto opts <> "auto" ->
        (List.length calls <= 1)%nat)
    /\ Forall attempt.bounded calls.
Proof.
  destruct (detect_last_attempt fs nw pt opts w w' r err Hrun)
    as (proto & timeout & w0 & Hlast & _ & Hmode).
  destruct Hmode as [[-> [(Hne & Hna & -> & -> & _) | (Hauto & -> & -> & _)]]
                    | (Hauto & -> & -> & _ & r1 & H1 & _)].
  - destruct (one_attempt_bounded _ _ _ _ (ApplyTimeouts_pos opts)
                (probe_one_attempt _ _ _ _ _ _ _ _ _ Hlast Hne))
      as (calls & Hs & Hl & Hb).
    exists calls.
    split; [exact Hs | split; [lia | split; [intros _ _; exact Hl | exact Hb]]].
  - destruct (one_attempt_bounded "http" (3 * time.Second) _ _ eq_refl
                (probe_one_attempt _ _ _ _ _ _ _ _ _ Hlast ltac:(discriminate)))
      as (calls & Hs & Hl & Hb).
    exists calls.
    split; [exact Hs | split; [lia | split; [| exact Hb]]].
    intros Hne Hna. destruct Hauto; congruence.
  - destruct (one_attempt_bounded "http" (3 * time.Second) _ _ eq_refl
                (probe_one_attempt _ _ _ _ _ _ _ _ _ H1 ltac:(discriminate)))
      as (calls1 & Hs1 & Hl1 & Hb1).
    destruct (one_attempt_bounded "https" (7 * time.Second) _ _ eq_refl
                (probe_one_attempt _ _ _ _ _ _ _ _ _ Hlast ltac:(discriminate)))
      as (calls2 & Hs2 & Hl2 & Hb2).
    exists (calls1 ++ calls2)%list. split; [| split; [| split]].
    + now rewrite Hs2, Hs1, app_assoc.
    + rewrite length_app. lia.
    + intros Hne Hna. destruct Hauto; congruence.
    + apply Forall_app. auto.
Qed.

End DetectCalls.

Lemma BuildRequest_built
      (tx : request.Text) (nw : http.Network) (deadline : Z)
      (pt : target.ParsedTarget) (opts : cli.Options)
      (w w' : http.World) (built : errors.error + http.Request) :
  runStateT (request.BuildRequest tx nw deadline pt opts) w = inr (built, w') ->
  match built with
  | inl e => errors.MapErrorToExitCode (Some e) = 7%Z
  | inr req =>
      http.Deadline req = deadline
      /\ exists u, target.URL pt = Some u /\ http.URL req = http.URL_String nw u
  end.
Proof.
  rewrite BuildRequest_run. destruct (target.URL pt) as [u |]; [| discriminate].
  cbv zeta.
  destruct (http.NewRequest_err nw _ _) as [e |]; intros H; inversion H; subst;
    [reflexivity |].
  match goal with
  | |- context [List.fold_left ?f ?l ?r0] =>
      destruct (fold_add_header_fields tx l r0) as (_ & Hu & Hd & _);
      cbn in Hu, Hd
  end.
  destruct (cli.JSON opts), (negb (cli.Referer opts =? "")%string),
    (negb (cli.UserAgent opts =? "")%string), (negb (cli.Cookie opts =? "")%string),
    (negb (cli.User opts =? "")%string);
    unfold request.addBasicAuth; cbn [request.Header_Set http.Deadline http.URL];
    (split; [exact Hd | exists u; split; [reflexivity | exact Hu]]).
Qed.

Lemma filter_fresh (n : nat) (l : list nat) :
  Forall (fun h => (h < n)%nat) l ->
  List.filter (fun h => negb (Nat.eqb h n)) (n :: l) = l.
Proof.
  intros Hl. cbn. rewrite Nat.eqb_refl. cbn.
  induction Hl as [| h l Hh Hl IH]; cbn; [reflexivity |].
  destruct (Nat.eqb_spec h n); [lia |]. cbn. now rewrite IH.
Qed.

Lemma URL_String_scheme (nw : http.Network) (u : url.URL) (proto : string) :
  proto <> "" ->
  strings.HasPrefix (http.URL_String nw (url.withScheme u proto)) (proto ++ ":") = true.
Proof.
  intros Hne. unfold http.URL_String. cbn.
  rewrite (eqb_empty_false _ Hne). cbn. apply HasPrefix_app.
Qed.

Lemma run_parse_error
      (ip : string -> bool) (fs : transport.Files) (nw : http.Network)
      (tx : request.Text)
      (write : cli.Options -> http.Request -> protocol.ProbeResult -> option goerror.t)
      (opts : cli.Options) (e : errors.error) (w : http.World) :
  target.ParseTarget ip (cli.Target opts) = inl e ->
  runStateT (main.run ip fs nw tx write opts) w = inr (3%Z, attempt.printing e w).
Proof.
  intros Hparse. unfold main.run. rewrite Hparse.
  destruct (ParseTarget_error_kind ip _ e Hparse) as [m ->]. reflexivity.
Qed.

Lemma run_detect_returns
      (ip : string -> bool) (fs : transport.Files) (nw : http.Network)
      (tx : request.Text)
      (write : cli.Options -> http.Request -> protocol.ProbeResult -> option goerror.t)
      (opts : cli.Options) (pt : target.ParsedTarget)
      (w w' : http.World) (code : Z) :
  target.ParseTarget ip (cli.Target opts) = inr pt ->
  runStateT (main.run ip fs nw tx write opts) w = inr (code, w') ->
  exists r err w1,
    runStateT (protocol.DetectProtocol fs nw pt opts) w = inr ((r, err), w1).
Proof.
  intros Hparse. unfold main.run. rewrite Hparse, run_bind.
  destruct (runStateT (protocol.DetectProtocol fs nw pt opts) w)
    as [p | [[r err] w1]]; [discriminate | eauto].
Qed.

(** X16.  [run] prints at most one error: it ends with the code 0 exactly
    when it has printed nothing, and otherwise with the code of the one
    error it has printed, which is 3, 6, 7, 28 or 35. *)
Theorem run_exit_code
        (ip : string -> bool) (fs : transport.Files) (nw : http.Network)
        (tx : request.Text)
        (write : cli.Options -> http.Request -> protocol.ProbeResult -> option goerror.t)
        (opts : cli.Options) (w w' : http.World) (code : Z) :
  runStateT (main.run ip fs nw tx write opts) w = inr (code, w') ->
  (code = 0%Z /\ http.printed w' = http.printed w)
  \/ (exists e,
        http.printed w' = (http.printed w ++ [e])%list
        /\ code = errors.MapErrorToExitCode (Some e)
        /\ In code [3; 6; 7; 28; 35]%Z).
Proof.
  intros Hrun.
  destruct (target.ParseTarget ip (cli.Target opts)) as [e | pt] eqn:Hparse.
  { rewrite (run_parse_error ip fs nw tx write opts e w Hparse) in Hrun.
    inversion Hrun; subst. right. exists e.
    destruct (ParseTarget_error_kind ip _ e Hparse) as [m ->]. cbn. auto. }
  destruct (run_detect_returns ip fs nw tx write opts pt w w' code Hparse Hrun)
    as (r & err & w1 & Hdetect).
  pose proof (detect_printed _ _ _ _ _ _ _ Hdetect) as Hprinted.
  destruct (run_returns_after_detect ip fs nw tx write opts pt Hparse
              w w1 w' r err code Hdetect Hrun)
    as [(e & Herr & -> & ->) | (-> & Hnone & u & built & Hu & Hb & Hrest)].
  - assert (He : protocol.Error r = Some e).
    { destruct Herr as [-> | [_ He]]; [| exact He].
      destruct (detect_err _ _ _ _ _ _ _ _ Hdetect) as [H | H];
        [discriminate H | now symmetry]. }
    pose proof (detect_error_code _ _ _ _ _ _ _ _ Hdetect e He) as Hin.
    right. exists e. cbn [attempt.printing http.printed]. rewrite Hprinted.
    split; [reflexivity |]. split; [reflexivity |]. right. exact Hin.
  - rewrite <- Hprinted. destruct built as [e | req].
    + destruct Hrest as [-> ->]. right. exists e.
      pose proof (BuildRequest_built _ _ _ _ _ _ _ _ Hb) as Hcode.
      cbv beta iota in Hcode.
      split; [reflexivity |]. split; [reflexivity |].
      rewrite Hcode. cbn. auto.
    + destruct (transport.NewTransport fs opts _) as [e | tr] eqn:Htr.
      * destruct Hrest as [-> ->]. right. exists e.
        split; [reflexivity |]. split; [reflexivity |].
        destruct (NewTransport_error_kind _ _ _ _ Htr) as (cause & -> & _).
        cbn. auto 10.
      * cbv zeta in Hrest. destruct Hrest as (_ & _ & Hrest).
        destruct (http.result _) as [e | status].
        -- destruct Hrest as (-> & _ & ->). right. exists (errors.foreign e).
           split; [reflexivity |]. split; [reflexivity |]. cbn. auto.
        -- destruct Hrest as (_ & [[-> ->] | (e & -> & ->)]); [now left |].
           right. exists (errors.foreign e).
           split; [reflexivity |]. split; [reflexivity |]. cbn. auto.
Qed.

Lemma run_exit_code_witness :
  exists w',
    runStateT (main.run (fun _ => false) fixtures.no_files fixtures.unreachable
                 (request.mkText id id id) (fun _ _ _ => None)
                 (fixtures.with_target fixtures.default_opts "example.invalid:80"))
              fixtures.start
    = inr (7%Z, w')
    /\ List.length (http.printed w') = 1%nat.
Proof.
  eexists. split; [vm_compute; reflexivity |].
  match goal with
  | |- List.length (http.printed ?w') = _ =>
      destruct (run_exit_code (fun _ => false) fixtures.no_files fixtures.unreachable
                  (request.mkText id id id) (fun _ _ _ => None)
                  (fixtures.with_target fixtures.default_opts "example.invalid:80")
                  fixtures.start w' 7%Z ltac:(vm_compute; reflexivity))
        as [[Hzero _] | (e & Hprinted & _)]
  end.
  - discriminate Hzero.
  - rewrite Hprinted. reflexivity.
Defined.

(** X17.  A target that [ParseTarget] turns down ends [run] at once: the
    error is printed, the exit code is 3, and nothing is sent. *)
Theorem run_rejected_target
        (ip : string -> bool) (fs : transport.Files) (nw : http.Network)
        (tx : request.Text)
        (write : cli.Options -> http.Request -> protocol.ProbeResult -> option goerror.t)
        (opts : cli.Options) (e : errors.error) (w : http.World) :
  target.ParseTarget ip (cli.Target opts) = inl e ->
  runStateT (main.run ip fs nw tx write opts) w
  = inr (3%Z, http.mkWorld (http.now w) (http.sent w) (http.open_bodies w)
                           (http.printed w ++ [e])).
Proof. exact (run_parse_error ip fs nw tx write opts e w). Qed.

Lemma run_rejected_target_witness :
  runStateT (main.run (fun _ => false) fixtures.no_files fixtures.http_200_only
               (request.mkText id id id) (fun _ _ _ => None)
               (fixtures.with_target fixtures.default_opts "")) fixtures.start
  = inr (3%Z, http.mkWorld 0 [] []
                [errors.URLParseError "" (errors.Text "target cannot be empty")]).
Proof.
  exact (run_rejected_target (fun _ => false) fixtures.no_files fixtures.http_200_only
           (request.mkText id id id) (fun _ _ _ => None)
           (fixtures.with_target fixtures.default_opts "") _ fixtures.start eq_refl).
Defined.

(** ** Certificate material that cannot be loaded *)

Section WithoutMaterial.
Variable fs : transport.Files.
Variable nw : http.Network.
Variables (pt : target.ParsedTarget) (opts : cli.Options) (e : errors.error).
Hypothesis Hbad : transport.NewTransport fs opts pt = inl e.

Lemma probe_without_material (proto : string) (timeout : Z) (w : http.World) :
  runStateT (protocol.probeProtocolWithTimeout fs nw pt opts proto timeout) w
  = inr (protocol.mkProbeResult proto 0 0 None (Some e), w).
Proof.
  rewrite probe_run.
  now rewrite (NewTransport_error_timeouts fs opts pt e timeout timeout Hbad).
Qed.

Lemma detect_without_material (w : http.World) :
  runStateT (protocol.DetectProtocol fs nw pt opts) w
  = inr ((protocol.mkProbeResult
            (if negb (cli.Proto opts =? "")%string
                && negb (cli.Proto opts =? "auto")%string
             then cli.Proto opts else "https") 0 0 None (Some e),
          if negb (cli.Proto opts =? "")%string
             && negb (cli.Proto opts =? "auto")%string
          then Some e else None), w).
Proof.
  unfold protocol.DetectProtocol, protocol.probeProtocol.
  destruct (negb (cli.Proto opts =? "")%string && negb (cli.Proto opts =? "auto")%string).
  - now rewrite run_bind, probe_without_material.
  - rewrite run_bind, probe_without_material. cbn [protocol.Error protocol.isNil andb].
    now rewrite run_bind, probe_without_material.
Qed.

End WithoutMaterial.

(** X18.  When the certificate material of the options cannot be loaded, no
    attempt sends anything: detection returns the TLS error of
    [NewTransport] as the error of its result, in auto mode after both
    attempts have failed on it, and [run] prints it and ends with the code
    35, the world otherwise as it was. *)
Theorem run_without_material
        (ip : string -> bool) (fs : transport.Files) (nw : http.Network)
        (tx : request.Text)
        (write : cli.Options -> http.Request -> protocol.ProbeResult -> option goerror.t)
        (opts : cli.Options) (pt : target.ParsedTarget) (e : errors.error)
        (w : http.World) :
  target.ParseTarget ip (cli.Target opts) = inr pt ->
  transport.NewTransport fs opts pt = inl e ->
  (exists r err,
     runStateT (protocol.DetectProtocol fs nw pt opts) w = inr ((r, err), w)
     /\ protocol.Error r = Some e /\ protocol.Response r = None
     /\ (err = None \/ err = Some e))
  /\ runStateT (main.run ip fs nw tx write opts) w
     = inr (35%Z, http.mkWorld (http.now w) (http.sent w) (http.open_bodies w)
                               (http.printed w ++ [e])).
Proof.
  intros Hparse Hbad.
  pose proof (detect_without_material fs nw pt opts e Hbad w) as Hdetect.
  split.
  - eexists. eexists. split; [exact Hdetect |]. cbn.
    split; [reflexivity |]. split; [reflexivity |].
    destruct (negb _ && negb _); auto.
  - rewrite (run_after_detect ip fs nw tx write opts pt Hparse w w _ _ Hdetect).
    destruct (NewTransport_error_kind _ _ _ _ Hbad) as (cause & -> & _).
    cbn [protocol.Error].
    destruct (negb _ && negb _); reflexivity.
Qed.

Lemma run_without_material_witness :
  exists e,
    runStateT (main.run (fun _ => false) fixtures.no_files fixtures.http_200_only
                 (request.mkText id id id) (fun _ _ _ => None)
                 (fixtures.with_target
                    (fixtures.with_tls fixtures.default_opts false false "" "client.pem" "")
                    "example.invalid:80")) fixtures.start
    = inr (35%Z, http.mkWorld 0 [] [] [e]).
Proof.
  eexists.
  exact (proj2 (run_without_material (fun _ => false) fixtures.no_files
                  fixtures.http_200_only (request.mkText id id id) (fun _ _ _ => None)
                  (fixtures.with_target
                     (fixtures.with_tls fixtures.default_opts false false ""
                        "client.pem" "")
                     "example.invalid:80")
                  _ _ fixtures.start eq_refl eq_refl)).
Defined.

(** ** The actual request *)

(** X19.  After detection [run] sends at most one more request, and only
    when detection reported no error.  That request goes to the URL of the
    target with the scheme detection settled on, within the timeout of
    [ApplyTimeouts] both as deadline and as client timeout, over a transport
    whose dial and handshake timeouts are the connect timeout of the
    options.  When it fails the exit code is 7 whatever the error is, a
    timeout included. *)
Theorem run_actual_request
        (ip : string -> bool) (fs : transport.Files) (nw : http.Network)
        (tx : request.Text)
        (write : cli.Options -> http.Request -> protocol.ProbeResult -> option goerror.t)
        (opts : cli.Options) (pt : target.ParsedTarget)
        (w w1 w' : http.World) (r : protocol.ProbeResult)
        (err : option errors.error) (code : Z) :
  target.ParseTarget ip (cli.Target opts) = inr pt ->
  runStateT (protocol.DetectProtocol fs nw pt opts) w = inr ((r, err), w1) ->
  runStateT (main.run ip fs nw tx write opts) w = inr (code, w') ->
  (http.sent w' = http.sent w1 /\ http.now w' = http.now w1)
  \/ (err = None /\ protocol.Error r = None
      /\ exists u x,
           target.URL pt = Some u
           /\ http.sent w' = (http.sent w1 ++ [x])%list
           /\ http.now w' = (http.now w1 + http.took (http.answer nw (http.sent w1) x))%Z
           /\ http.URL (http.req x)
              = http.URL_String nw (url.withScheme u (protocol.Protocol r))
           /\ strings.HasPrefix (http.URL (http.req x)) (protocol.Protocol r ++ ":") = true
           /\ http.Deadline (http.req x) = transport.ApplyTimeouts opts
           /\ http.Timeout (http.client x) = transport.ApplyTimeouts opts
           /\ transport.DialTimeout (http.Transport (http.client x))
              = cli.ConnectTimeout opts
           /\ transport.TLSHandshakeTimeout (http.Transport (http.client x))
              = cli.ConnectTimeout opts
           /\ (forall e,
                 http.result (http.answer nw (http.sent w1) x) = inl e ->
                 code = 7%Z
                 /\ http.printed w' = (http.printed w1 ++ [errors.foreign e])%list)).
Proof.
  intros Hparse Hdetect Hrun.
  destruct (run_returns_after_detect ip fs nw tx write opts pt Hparse
              w w1 w' r err code Hdetect Hrun)
    as [(e & _ & _ & ->) | (-> & Hnone & u & built & Hu & Hb & Hrest)];
    [left; split; reflexivity |].
  destruct built as [e | req]; [destruct Hrest as [_ ->]; left; split; reflexivity |].
  destruct (transport.NewTransport fs opts _) as [e | tr] eqn:Htr;
    [destruct Hrest as [_ ->]; left; split; reflexivity |].
  cbv zeta in Hrest. destruct Hrest as (Hnow & Hsent & Hrest).
  right. split; [reflexivity |]. split; [exact Hnone |].
  exists u. eexists. split; [exact Hu |]. split; [exact Hsent |].
  split; [exact Hnow |].
  destruct (BuildRequest_built _ _ _ _ _ _ _ _ Hb) as (Hd & u' & Hu' & Hurl).
  cbn in Hu'. inversion Hu'; subst u'.
  destruct (NewTransport_timeouts _ _ _ _ Htr) as [Hdial Htls].
  cbn [http.req http.client http.Timeout http.Transport].
  split; [exact Hurl |].
  split; [rewrite Hurl;
          exact (URL_String_scheme nw u _ (detect_Protocol _ _ _ _ _ _ _ _ Hdetect)) |].
  split; [exact Hd |]. split; [reflexivity |].
  split; [exact Hdial |]. split; [exact Htls |].
  intros e He. rewrite He in Hrest. destruct Hrest as (-> & _ & ->). auto.
Qed.

Lemma run_actual_request_witness :
  exists code w',
    runStateT (main.run (fun _ => false) fixtures.no_files fixtures.http_200_only
                 (request.mkText id id id) (fun _ _ _ => None)
                 (fixtures.with_target fixtures.default_opts "example.invalid:80"))
              fixtures.start
    = inr (code, w')
    /\ List.length (http.sent w') = 2%nat.
Proof.
  eexists. eexists. split; [vm_compute; reflexivity |].
  match goal with
  | |- List.length (http.sent ?w') = _ =>
      destruct (run_actual_request (fun _ => false) fixtures.no_files
                  fixtures.http_200_only (request.mkText id id id) (fun _ _ _ => None)
                  (fixtures.with_target fixtures.default_opts "example.invalid:80")
                  fixtures.name_target fixtures.start
                  _ w' _ _ 0%Z eq_refl
                  ltac:(vm_compute; reflexivity) ltac:(vm_compute; reflexivity))
        as [[Hsame _] | (_ & _ & u & x & _ & Hsent & _)]
  end.
  - discriminate Hsame.
  - reflexivity.
Defined.

(** ** Response bodies *)

(** X20.  [run] closes the body of the actual response, and that one only:
    the bodies open when it ends are those that were open when detection
    ended. *)
Theorem run_open_bodies
        (ip : string -> bool) (fs : transport.Files) (nw : http.Network)
        (tx : request.Text)
        (write : cli.Options -> http.Request -> protocol.ProbeResult -> option goerror.t)
        (opts : cli.Options) (pt : target.ParsedTarget)
        (w w1 w' : http.World) (out : protocol.ProbeResult * option errors.error)
        (code : Z) :
  prober.handles_fresh w ->
  target.ParseTarget ip (cli.Target opts) = inr pt ->
  runStateT (protocol.DetectProtocol fs nw pt opts) w = inr (out, w1) ->
  runStateT (main.run ip fs nw tx write opts) w = inr (code, w') ->
  http.open_bodies w' = http.open_bodies w1.
Proof.
  intros Hfresh Hparse Hdetect Hrun. destruct out as [r err].
  pose proof (DetectProtocol_fresh _ _ _ _ _ _ _ Hdetect Hfresh) as H1.
  destruct (run_returns_after_detect ip fs nw tx write opts pt Hparse
              w w1 w' r err code Hdetect Hrun)
    as [(e & _ & _ & ->) | (-> & Hnone & u & built & Hu & Hb & Hrest)];
    [reflexivity |].
  destruct built as [e | req]; [destruct Hrest as [_ ->]; reflexivity |].
  destruct (transport.NewTransport fs opts _) as [e | tr];
    [destruct Hrest as [_ ->]; reflexivity |].
  cbv zeta in Hrest. destruct Hrest as (_ & _ & Hrest).
  destruct (http.result _) as [e | status].
  - now destruct Hrest as (_ & -> & _).
  - destruct Hrest as (-> & _). exact (filter_fresh _ _ H1).
Qed.

Lemma run_open_bodies_witness :
  exists code w',
    runStateT (main.run (fun _ => false) fixtures.no_files fixtures.http_200_only
                 (request.mkText id id id) (fun _ _ _ => None)
                 (fixtures.with_target fixtures.default_opts "example.invalid:80"))
              fixtures.start
    = inr (code, w')
    /\ http.open_bodies w' = [0%nat].
Proof.
  eexists. eexists. split; [vm_compute; reflexivity |].
  match goal with
  | |- http.open_bodies ?w' = _ =>
      rewrite (run_open_bodies (fun _ => false) fixtures.no_files
                 fixtures.http_200_only (request.mkText id id id) (fun _ _ _ => None)
                 (fixtures.with_target fixtures.default_opts "example.invalid:80")
                 fixtures.name_target fixtures.start
                 _ w' _ 0%Z (Forall_nil _) eq_refl
                 ltac:(vm_compute; reflexivity) ltac:(vm_compute; reflexivity))
  end.
  reflexivity.
Defined.

(** ** The calls of one invocation *)

(** X21.  [run] makes at most three calls, and at most two when the protocol
    is given; each of them is bounded by a positive timeout, set on the
    client and as the deadline of the context of the request. *)
Theorem run_call_budget
        (ip : string -> bool) (fs : transport.Files) (nw : http.Network)
        (tx : request.Text)
        (write : cli.Options -> http.Request -> protocol.ProbeResult -> option goerror.t)
        (opts : cli.Options) (w w' : http.World) (code : Z) :
  runStateT (main.run ip fs nw tx write opts) w = inr (code, w') ->
  exists calls,
    http.sent w' = (http.sent w ++ calls)%list
    /\ (List.length calls <= 3)%nat
    /\ (cli.Proto opts <> "" -> cli.Proto opts <> "auto" ->
        (List.length calls <= 2)%nat)
    /\ Forall attempt.bounded calls.
Proof.
  intros Hrun.
  destruct (target.ParseTarget ip (cli.Target opts)) as [e | pt] eqn:Hparse.
  { rewrite (run_parse_error ip fs nw tx write opts e w Hparse) in Hrun.
    inversion Hrun; subst. exists []. cbn. rewrite app_nil_r.
    split; [reflexivity |]. split; [lia |]. split; [intros; lia | constructor]. }
  destruct (run_detect_returns ip fs nw tx write opts pt w w' code Hparse Hrun)
    as (r & err & w1 & Hdetect).
  destruct (detect_calls _ _ _ _ _ _ _ _ Hdetect) as (calls & Hs & Hl & Hm & Hb).
  assert (Hstop : http.sent w' = http.sent w1 ->
          exists calls0,
            http.sent w' = (http.sent w ++ calls0)%list
            /\ (List.length calls0 <= 3)%nat
            /\ (cli.Proto opts <> "" -> cli.Proto opts <> "auto" ->
                (List.length calls0 <= 2)%nat)
            /\ Forall attempt.bounded calls0).
  { intros Hsame. exists calls. rewrite Hsame.
    split; [exact Hs |]. split; [lia |]. split; [| exact Hb].
    intros Hne Hna. specialize (Hm Hne Hna). lia. }
  destruct (run_returns_after_detect ip fs nw tx write opts pt Hparse
              w w1 w' r err code Hdetect Hrun)
    as [(e & _ & _ & ->) | (-> & Hnone & u & built & Hu & Hb' & Hrest)];
    [apply Hstop; reflexivity |].
  destruct built as [e | req];
    [destruct Hrest as [_ ->]; apply Hstop; reflexivity |].
  destruct (transport.NewTransport fs opts _) as [e | tr];
    [destruct Hrest as [_ ->]; apply Hstop; reflexivity |].
  cbv zeta in Hrest. destruct Hrest as (_ & Hsent & _).
  destruct (BuildRequest_built _ _ _ _ _ _ _ _ Hb') as (Hd & _).
  eexists. split; [rewrite Hsent, Hs, <- app_assoc; reflexivity |].
  split; [rewrite length_app; cbn; lia |].
  split.
  - intros Hne Hna. specialize (Hm Hne Hna). rewrite length_app. cbn. lia.
  - apply Forall_app. split; [exact Hb |]. constructor; [| constructor].
    unfold attempt.bounded. cbn. split; [apply ApplyTimeouts_pos | exact Hd].
Qed.

Lemma run_call_budget_witness :
  exists code w',
    runStateT (main.run (fun _ => false) fixtures.no_files fixtures.http_404_only
                 (request.mkText id id id) (fun _ _ _ => None)
                 (fixtures.with_target fixtures.default_opts "example.invalid:80"))
              fixtures.start
    = inr (code, w')
    /\ Forall attempt.bounded (http.sent w').
Proof.
  eexists. eexists. split; [vm_compute; reflexivity |].
  match goal with
  | |- Forall _ (http.sent ?w') =>
      destruct (run_call_budget (fun _ => false) fixtures.no_files
                  fixtures.http_404_only (request.mkText id id id) (fun _ _ _ => None)
                  (fixtures.with_target fixtures.default_opts "example.invalid:80")
                  fixtures.start w' 7%Z ltac:(vm_compute; reflexivity))
        as (calls & Hsent & _ & _ & Hb)
  end.
  cbn [http.sent fixtures.start app] in Hsent. rewrite Hsent. exact Hb.
Defined.

(** ** The output stage *)

(** X26.  What [run] hands to the output stage after a successful request:
    the request it sent and a result that has the status and the body of the
    actual response but still the protocol and the duration of the probe;
    the time of the actual request is reported nowhere.  The exit code is 0
    when the output stage succeeds and 7, with its error printed, when it
    fails. *)
Theorem run_output_stage
        (ip : string -> bool) (fs : transport.Files) (nw : http.Network)
        (tx : request.Text)
        (write : cli.Options -> http.Request -> protocol.ProbeResult -> option goerror.t)
        (opts : cli.Options) (pt : target.ParsedTarget)
        (w w1 w' : http.World) (r : protocol.ProbeResult) (code : Z)
        (u : url.URL) (req : http.Request) (tr : transport.Transport) (status : Z) :
  target.ParseTarget ip (cli.Target opts) = inr pt ->
  runStateT (protocol.DetectProtocol fs nw pt opts) w = inr ((r, None), w1) ->
  protocol.Error r = None ->
  target.URL pt = Some u ->
  runStateT (request.BuildRequest tx nw (transport.ApplyTimeouts opts)
               (target.mkParsedTarget (Some (url.withScheme u (protocol.Protocol r)))
                  (target.IsIP pt) (target.HasExplicitProto pt)
                  (target.OriginalInput pt)) opts) w1 = inr (inr req, w1) ->
  transport.NewTransport fs opts
    (target.mkParsedTarget (Some (url.withScheme u (protocol.Protocol r)))
       (target.IsIP pt) (target.HasExplicitProto pt) (target.OriginalInput pt))
  = inr tr ->
  http.result
    (http.answer nw (http.sent w1)
       (http.mkExchange (http.mkClient tr (transport.ApplyTimeouts opts)) req))
  = inr status ->
  runStateT (main.run ip fs nw tx write opts) w = inr (code, w') ->
  let shown :=
    protocol.mkProbeResult (protocol.Protocol r) status (protocol.Duration r)
      (Some (http.mkResponse status (List.length (http.sent w1)))) None in
  (write opts req shown = None -> code = 0 /\ http.printed w' = http.printed w1)
  /\ (forall e, write opts req shown = Some e ->
        code = 7
        /\ http.printed w' = (http.printed w1 ++ [errors.foreign e])%list).
Proof.
  intros Hparse Hdetect Hnone Hu Hb Htr Hres.
  rewrite (run_after_detect ip fs nw tx write opts pt Hparse w w1 r None Hdetect).
  rewrite Hnone, Hu. cbv zeta. rewrite Hb, Htr, Hres.
  destruct (write opts req _) as [e |]; intros H; inversion H; subst; cbn; split;
    try discriminate; auto.
  intros e' He'. inversion He'; subst. auto.
Qed.

Lemma run_output_stage_witness :
  exists w',
    runStateT (main.run (fun _ => false) fixtures.no_files fixtures.http_200_only
                 (request.mkText id id id)
                 (fun _ _ shown =>
                    if (protocol.Duration shown =? 5 * time.Millisecond)%Z then None
                    else Some (goerror.mk "not the duration of the probe" None))
                 (fixtures.with_target fixtures.default_opts "example.invalid:80"))
              fixtures.start
    = inr (0, w')
    /\ http.now w' = 10 * time.Millisecond
    /\ http.printed w' = [].
Proof.
  eexists. split; [vm_compute; reflexivity |]. split; [reflexivity |].
  match goal with
  | |- http.printed ?w' = _ =>
      destruct (run_output_stage (fun _ => false) fixtures.no_files
                  fixtures.http_200_only (request.mkText id id id)
                  (fun _ _ shown =>
                     if (protocol.Duration shown =? 5 * time.Millisecond)%Z then None
                     else Some (goerror.mk "not the duration of the probe" None))
                  (fixtures.with_target fixtures.default_opts "example.invalid:80")
                  fixtures.name_target fixtures.start _ w' _ 0 _ _ _ 200
                  eq_refl ltac:(vm_compute; reflexivity) eq_refl eq_refl
                  ltac:(vm_compute; reflexivity) ltac:(vm_compute; reflexivity)
                  ltac:(vm_compute; reflexivity) ltac:(vm_compute; reflexivity))
        as [Hok _]
  end.
  exact (proj2 (Hok eq_refl)).
Defined.

(** ** Reading the flags *)

Lemma IndexAny_skip (chars a b : string) :
  scheme.all_bytes (fun c => negb (url.mem_byte c chars)) a = true ->
  cli_parser.IndexAny (a ++ b) chars
  = option_map (Nat.add (String.length a)) (cli_parser.IndexAny b chars).
Proof.
  induction a as [| c a IH]; cbn; intros H.
  - now destruct (cli_parser.IndexAny b chars).
  - apply andb_true_iff in H as [Hc Ha]. apply negb_true_iff in Hc.
    rewrite Hc, (IH Ha). now destruct (cli_parser.IndexAny b chars).
Qed.


(** X22.  The name of the flag is read back from the message of the flag
    parser: it is the text from the dash up to the first space or line feed,
    or up to the end.  Without that message the name is [unknown]. *)
Theorem extractFlagName_round_trip (pre f tail : string) :
  shape.without "f" pre = true ->
  scheme.all_bytes
    (fun c => negb (url.mem_byte c (String " " (String cli_parser.newline "")))) f = true ->
  tail = ""
  \/ (exists c t, tail = String c t
                  /\ url.mem_byte c (String " " (String cli_parser.newline "")) = true) ->
  cli_parser.extractFlagName
    (pre ++ "flag provided but not defined: -" ++ f ++ tail)
  = ("-" ++ f)%string.
Proof.
  intros Hpre Hf Htail. unfold cli_parser.extractFlagName.
  rewrite (Index_skip "f" "lag provided but not defined: -" pre _ Hpre).
  rewrite Index_unfold, HasPrefix_app. cbn [option_map].
  rewrite Nat.add_0_r.
  change (String.length "flag provided but not defined: ") with 31%nat.
  replace (pre ++ "flag provided but not defined: -" ++ f ++ tail)%string
    with ((pre ++ "flag provided but not defined: ") ++ String "-" (f ++ tail))%string
    by (rewrite append_assoc; reflexivity).
  assert (Hlen : (String.length pre + 31)%nat
                 = String.length (pre ++ "flag provided but not defined: ")%string)
    by (rewrite length_append; reflexivity).
  rewrite Hlen, slice_from_app.
  change (String "-" (f ++ tail)) with (String "-" f ++ tail)%string.
  assert (Hdash : scheme.all_bytes
                    (fun c => negb (url.mem_byte c (String " " (String cli_parser.newline ""))))
                    (String "-" f) = true)
    by (cbn [scheme.all_bytes]; rewrite Hf; reflexivity).
  rewrite (IndexAny_skip _ (String "-" f) tail Hdash).
  destruct Htail as [-> | (c & t & -> & Hc)].
  - cbn [cli_parser.IndexAny option_map]. now rewrite append_empty_r.
  - cbn [cli_parser.IndexAny]. rewrite Hc. cbn [option_map].
    rewrite Nat.add_0_r.
    replace ((pre ++ "flag provided but not defined: ") ++ String "-" f ++ String c t)%string
      with (((pre ++ "flag provided but not defined: ") ++ String "-" f) ++ String c t)%string
      by (now rewrite append_assoc).
    rewrite <- length_append, slice_to_app, slice_from_app. reflexivity.
Qed.

Lemma extractFlagName_round_trip_witness :
  cli_parser.extractFlagName
    ("Incorrect Usage: flag provided but not defined: -frobnicate"
     ++ String cli_parser.newline "")
  = "-frobnicate".
Proof.
  apply (extractFlagName_round_trip "Incorrect Usage: " "frobnicate"
           (String cli_parser.newline "") eq_refl eq_refl).
  right. exists cli_parser.newline, "". split; reflexivity.
Defined.

(** A message that does not hold the text of the flag parser gives the
    name [unknown]; this is so for the other message [ParseArgs] looks
    for. *)
Lemma extractFlagName_unknown (msg : string) :
  strings.Contains msg "flag provided but not defined: -" = false ->
  cli_parser.extractFlagName msg = "unknown".
Proof.
  unfold strings.Contains, cli_parser.extractFlagName.
  now destruct (strings.Index msg _).
Qed.

(** The flags read before the protocol leave the target, the protocol
    and the timeouts as they are. *)
Lemma same_refl (o : cli.Options) : plan.same o o.
Proof. repeat split. Qed.

Lemma set_string_same (c : cli_parser.Context) (flag : string)
      (set : cli.Options -> string -> cli.Options) (o opts : cli.Options) :
  (forall o v, plan.same (set o v) o) -> plan.same o opts ->
  plan.same (cli_parser.set_string c flag set o) opts.
Proof.
  intros Hset Ho. unfold cli_parser.set_string.
  destruct (cli_parser.IsSet c flag); [| exact Ho].
  destruct (Hset o (cli_parser.String_ c flag)) as (H1 & H2 & H3 & H4).
  destruct Ho as (G1 & G2 & G3 & G4). repeat split; congruence.
Qed.

Lemma set_bool_same (c : cli_parser.Context) (flag : string)
      (set : cli.Options -> bool -> cli.Options) (o opts : cli.Options) :
  (forall o v, plan.same (set o v) o) -> plan.same o opts ->
  plan.same (cli_parser.set_bool c flag set o) opts.
Proof.
  intros Hset Ho. unfold cli_parser.set_bool.
  destruct (cli_parser.IsSet c flag); [| exact Ho].
  destruct (Hset o (cli_parser.Bool_ c flag)) as (H1 & H2 & H3 & H4).
  destruct Ho as (G1 & G2 & G3 & G4). repeat split; congruence.
Qed.

Lemma set_Headers_same (b : bool) (v : list string) (o opts : cli.Options) :
  plan.same o opts ->
  plan.same (if b then cli_parser.set_Headers o v else o) opts.
Proof. destruct b; [| auto]. intros (G1 & G2 & G3 & G4). repeat split; assumption. Qed.

Section ParseFlags.
Variable pd : string -> goerror.t + Z.
Variable c : cli_parser.Context.

(** [parseFlags] is its last four steps, on options that agree with the
    given ones on target, protocol and timeouts. *)
Lemma parseFlags_tail (opts : cli.Options) :
  exists o1,
    plan.same o1 opts
    /\ cli_parser.parseFlags pd c opts
       = (o2 <- (if cli_parser.IsSet c "proto" then
                   if negb (cli_parser.String_ c "proto" =? "auto")%string
                      && negb (cli_parser.String_ c "proto" =? "http")%string
                      && negb (cli_parser.String_ c "proto" =? "https")%string
                   then inl (goerror.mk
                               ("invalid protocol: " ++ cli_parser.String_ c "proto"
                                ++ " (must be auto, http, or https)") None)
                   else inr (cli_parser.set_Proto o1 (cli_parser.String_ c "proto"))
                 else inr o1) ;;
          o3 <- cli_parser.set_duration pd c "timeout" cli_parser.set_Timeout o2 ;;
          o4 <- cli_parser.set_duration pd c "connect-timeout"
                  cli_parser.set_ConnectTimeout o3 ;;
          o5 <- cli_parser.set_duration pd c "max-time" cli_parser.set_Timeout o4 ;;
          ret o5).
Proof.
  unfold cli_parser.parseFlags. cbv zeta.
  eexists. split; [| reflexivity].
  repeat first [ apply set_string_same; [intros; repeat split |]
               | apply set_bool_same; [intros; repeat split |]
               | apply set_Headers_same ].
  apply same_refl.
Qed.

End ParseFlags.

(** X23.  What the flags make of the options, when [parseFlags] accepts
    them: the target is not touched; the protocol is that of the flag, one
    of auto, http and https, or is left as it was; the timeout is the
    duration of [--max-time] when that flag is given, that of [--timeout]
    when only this one is, and is left as it was otherwise; the connect
    timeout is the duration of its flag. *)
Theorem parseFlags_options
        (pd : string -> goerror.t + Z) (c : cli_parser.Context)
        (opts opts' : cli.Options) :
  cli_parser.parseFlags pd c opts = inr opts' ->
  cli.Target opts' = cli.Target opts
  /\ cli.Proto opts'
     = (if cli_parser.IsSet c "proto" then cli_parser.String_ c "proto"
        else cli.Proto opts)
  /\ (In (cli.Proto opts) plan.protocols -> In (cli.Proto opts') plan.protocols)
  /\ (cli_parser.IsSet c "max-time" = true ->
      pd (cli_parser.String_ c "max-time") = inr (cli.Timeout opts'))
  /\ (cli_parser.IsSet c "max-time" = false -> cli_parser.IsSet c "timeout" = true ->
      pd (cli_parser.String_ c "timeout") = inr (cli.Timeout opts'))
  /\ (cli_parser.IsSet c "max-time" = false -> cli_parser.IsSet c "timeout" = false ->
      cli.Timeout opts' = cli.Timeout opts)
  /\ (cli_parser.IsSet c "connect-timeout" = true ->
      pd (cli_parser.String_ c "connect-timeout") = inr (cli.ConnectTimeout opts'))
  /\ (cli_parser.IsSet c "connect-timeout" = false ->
      cli.ConnectTimeout opts' = cli.ConnectTimeout opts).
Proof.
  destruct (parseFlags_tail pd c opts) as (o1 & (H1 & H2 & H3 & H4) & ->).
  unfold cli_parser.set_duration.
  destruct (cli_parser.IsSet c "proto") eqn:Eproto;
    [destruct (String.eqb_spec (cli_parser.String_ c "proto") "auto") as [Ea | Ea];
     [| destruct (String.eqb_spec (cli_parser.String_ c "proto") "http") as [Eh | Eh];
        [| destruct (String.eqb_spec (cli_parser.String_ c "proto") "https") as [Es | Es]]]
    |];
    cbn [negb andb]; try (intros H; discriminate H);
    rewrite sum_bind_inr;
    (destruct (cli_parser.IsSet c "timeout") eqn:Et;
     [destruct (pd (cli_parser.String_ c "timeout")) as [e1 | d1] eqn:Ed1;
      [intros H; discriminate H |] |]);
    rewrite sum_bind_inr;
    (destruct (cli_parser.IsSet c "connect-timeout") eqn:Ec;
     [destruct (pd (cli_parser.String_ c "connect-timeout")) as [e2 | d2] eqn:Ed2;
      [intros H; discriminate H |] |]);
    rewrite sum_bind_inr;
    (destruct (cli_parser.IsSet c "max-time") eqn:Em;
     [destruct (pd (cli_parser.String_ c "max-time")) as [e3 | d3] eqn:Ed3;
      [intros H; discriminate H |] |]);
    rewrite sum_bind_inr; intros H; inversion H; subst opts'; clear H;
    cbn [cli_parser.set_Proto cli_parser.set_Timeout cli_parser.set_ConnectTimeout
         cli.Target cli.Proto cli.Timeout cli.ConnectTimeout];
    (split; [exact H1 |]);
    (split; [first [reflexivity | exact H2] |]);
    (split; [first [ intros _; rewrite ?Ea, ?Eh, ?Es; cbn; tauto
                   | rewrite H2; tauto ] |]);
    repeat split; intros; congruence.
Qed.

Lemma parseFlags_options_witness :
  exists opts',
    cli_parser.parseFlags
      (fun s => if String.eqb s "5s" then inr (5 * time.Second)%Z
                else if String.eqb s "2s" then inr (2 * time.Second)%Z
                else inl (goerror.mk "time: invalid duration" None))
      (cli_parser.mkContext
         (fun f => String.eqb f "timeout" || String.eqb f "max-time" || String.eqb f "proto")
         (fun f => if String.eqb f "timeout" then "5s"
                   else if String.eqb f "max-time" then "2s" else "https")
         (fun _ => false) (fun _ => []) 1 (fun _ => "example.com"))
      cli_parser.initial = inr opts'
    /\ cli.Timeout opts' = (2 * time.Second)%Z
    /\ cli.Proto opts' = "https".
Proof.
  eexists. split; [vm_compute; reflexivity |].
  match goal with
  | |- cli.Timeout ?o = _ /\ _ =>
      destruct (parseFlags_options
                  (fun s => if String.eqb s "5s" then inr (5 * time.Second)%Z
                            else if String.eqb s "2s" then inr (2 * time.Second)%Z
                            else inl (goerror.mk "time: invalid duration" None))
                  (cli_parser.mkContext
                     (fun f => String.eqb f "timeout" || String.eqb f "max-time"
                               || String.eqb f "proto")
                     (fun f => if String.eqb f "timeout" then "5s"
                               else if String.eqb f "max-time" then "2s" else "https")
                     (fun _ => false) (fun _ => []) 1 (fun _ => "example.com"))
                  cli_parser.initial o ltac:(vm_compute; reflexivity))
        as (_ & Hproto & _ & Hmax & _)
  end.
  split; [| exact Hproto].
  specialize (Hmax eq_refl). cbn in Hmax. now inversion Hmax.
Defined.

(** X24.  [parseFlags] turns the flags down exactly when the protocol given
    is none of auto, http and https, or when one of the three durations
    given cannot be parsed: a [--timeout] that cannot be parsed is an error
    also when [--max-time] replaces it. *)
Theorem parseFlags_fails_iff
        (pd : string -> goerror.t + Z) (c : cli_parser.Context) (opts : cli.Options) :
  (exists e, cli_parser.parseFlags pd c opts = inl e)
  <-> (cli_parser.IsSet c "proto" = true
       /\ ~ In (cli_parser.String_ c "proto") plan.protocols)
      \/ (exists flag err,
            In flag plan.durations
            /\ cli_parser.IsSet c flag = true
            /\ pd (cli_parser.String_ c flag) = inl err).
Proof.
  destruct (parseFlags_tail pd c opts) as (o1 & _ & ->).
  unfold cli_parser.set_duration.
  assert (Hdur : forall flag, In flag plan.durations ->
                 flag = "timeout" \/ flag = "connect-timeout" \/ flag = "max-time")
    by (cbn; intuition).
  assert (Hvalid : forall s, In s plan.protocols ->
                   negb (s =? "auto")%string && negb (s =? "http")%string
                   && negb (s =? "https")%string = false).
  { intros s [<- | [<- | [<- | []]]]; reflexivity. }
  assert (Hinvalid : forall s,
             negb (s =? "auto")%string && negb (s =? "http")%string
             && negb (s =? "https")%string = true -> ~ In s plan.protocols).
  { intros s Hs Hin. rewrite (Hvalid s Hin) in Hs. discriminate Hs. }
  destruct (cli_parser.IsSet c "proto") eqn:Eproto;
    [destruct (negb (cli_parser.String_ c "proto" =? "auto")%string
               && negb (cli_parser.String_ c "proto" =? "http")%string
               && negb (cli_parser.String_ c "proto" =? "https")%string) eqn:Ev |].
  { split; [intros _; left; split; [reflexivity | exact (Hinvalid _ Ev)] |].
    intros _. eexists. reflexivity. }
  all: rewrite sum_bind_inr.
  all: destruct (cli_parser.IsSet c "timeout") eqn:Et;
    [destruct (pd (cli_parser.String_ c "timeout")) as [e1 | d1] eqn:Ed1;
     [split; [intros _; right; exists "timeout", e1; cbn; auto
             | intros _; eexists; reflexivity] |] |].
  all: rewrite sum_bind_inr.
  all: destruct (cli_parser.IsSet c "connect-timeout") eqn:Ec;
    [destruct (pd (cli_parser.String_ c "connect-timeout")) as [e2 | d2] eqn:Ed2;
     [split; [intros _; right; exists "connect-timeout", e2; cbn; auto
             | intros _; eexists; reflexivity] |] |].
  all: rewrite sum_bind_inr.
  all: destruct (cli_parser.IsSet c "max-time") eqn:Em;
    [destruct (pd (cli_parser.String_ c "max-time")) as [e3 | d3] eqn:Ed3;
     [split; [intros _; right; exists "max-time", e3; cbn; auto
             | intros _; eexists; reflexivity] |] |].
  all: rewrite sum_bind_inr.
  all: split; [intros [e H]; discriminate H |].
  all: intros [[Hset Hbad] | (flag & err & Hin & Hset & Hpd)];
    [ first [ discriminate Hset
            | exfalso; apply Hbad;
              destruct (String.eqb_spec (cli_parser.String_ c "proto") "auto") as [-> |];
              [cbn; auto |];
              destruct (String.eqb_spec (cli_parser.String_ c "proto") "http") as [-> |];
              [cbn; auto |];
              destruct (String.eqb_spec (cli_parser.String_ c "proto") "https") as [-> |];
              [cbn; auto | discriminate Ev] ]
    | destruct (Hdur flag Hin) as [-> | [-> | ->]]; congruence ].
Qed.

Lemma parseFlags_fails_iff_witness :
  exists e,
    cli_parser.parseFlags
      (fun s => if String.eqb s "2s" then inr (2 * time.Second)%Z
                else inl (goerror.mk "time: invalid duration" None))
      (cli_parser.mkContext
         (fun f => String.eqb f "timeout" || String.eqb f "max-time")
         (fun f => if String.eqb f "timeout" then "soon" else "2s")
         (fun _ => false) (fun _ => []) 1 (fun _ => "example.com"))
      cli_parser.initial = inl e.
Proof.
  apply (proj2 (parseFlags_fails_iff _ _ _)).
  right. exists "timeout", (goerror.mk "time: invalid duration" None).
  split; [cbn; auto | split; reflexivity].
Defined.

(** ** [ParseArgs] *)

(** X25.  [ParseArgs] returns the options as the application leaves them
    when it reports no error.  An error whose text holds one of the two
    messages about flags becomes an [UnknownFlagError], exit code 2, with
    the name read by [extractFlagName], which is [unknown] for the second
    message alone; every other error is returned as it is and has the exit
    code 7, that of a failed connection: so has the error of the action for
    a missing target. *)
Theorem ParseArgs_result
        (app_Run : list string -> cli.Options -> option goerror.t * cli.Options)
        (args : list string) :
  (forall opts, app_Run args cli_parser.initial = (None, opts) ->
     cli_parser.ParseArgs app_Run args = inr opts)
  /\ (forall err opts,
        app_Run args cli_parser.initial = (Some err, opts) ->
        (strings.Contains (goerror.Error err) "flag provided but not defined" = true
         \/ strings.Contains (goerror.Error err) "unknown flag" = true ->
         cli_parser.ParseArgs app_Run args
         = inl (errors.UnknownFlagError (cli_parser.extractFlagName (goerror.Error err)))
         /\ errors.MapErrorToExitCode
              (Some (errors.UnknownFlagError
                       (cli_parser.extractFlagName (goerror.Error err)))) = 2%Z)
        /\ (strings.Contains (goerror.Error err) "flag provided but not defined" = false ->
            strings.Contains (goerror.Error err) "unknown flag" = true ->
            cli_parser.ParseArgs app_Run args = inl (errors.UnknownFlagError "unknown"))
        /\ (strings.Contains (goerror.Error err) "flag provided but not defined" = false ->
            strings.Contains (goerror.Error err) "unknown flag" = false ->
            cli_parser.ParseArgs app_Run args = inl (errors.foreign err)
            /\ errors.MapErrorToExitCode (Some (errors.foreign err)) = 7%Z))
  /\ (forall pd c opts,
        cli_parser.NArg c = 0%nat ->
        app_Run args cli_parser.initial
        = (match cli_parser.Action pd c cli_parser.initial with
           | inl err => Some err
           | inr _ => None
           end, opts) ->
        cli_parser.ParseArgs app_Run args
        = inl (errors.foreign (goerror.mk "target URL required" None))).
Proof.
  split; [| split].
  - intros opts Hrun. unfold cli_parser.ParseArgs. now rewrite Hrun.
  - intros err opts Hrun. unfold cli_parser.ParseArgs. rewrite Hrun.
    split; [| split].
    + intros [H | H]; rewrite H, ?orb_true_r; cbn; auto.
    + intros H1 H2. rewrite H1, H2. cbn. f_equal. f_equal.
      apply extractFlagName_unknown.
      destruct (strings.Contains (goerror.Error err)
                  "flag provided but not defined: -") eqn:Hc; [| reflexivity].
      exfalso. revert H1 Hc. unfold strings.Contains.
      generalize (goerror.Error err) as s.
      induction s as [| x s IH]; [discriminate |].
      rewrite (Index_unfold (String x s) "flag provided but not defined").
      rewrite (Index_unfold (String x s) "flag provided but not defined: -").
      destruct (strings.HasPrefix (String x s) "flag provided but not defined") eqn:Hp;
        [discriminate |].
      assert (Hq : strings.HasPrefix (String x s) "flag provided but not defined: -"
                   = false).
      { destruct (strings.HasPrefix (String x s) "flag provided but not defined: -")
          eqn:Hq; [| reflexivity].
        exfalso. clear IH. revert Hp Hq. cbn.
        repeat match goal with
               | |- context [match ?t with "" => _ | String _ _ => _ end] =>
                   destruct t; [discriminate |]
               | |- context [Ascii.eqb ?a ?b] =>
                   destruct (Ascii.eqb a b); cbn; [| discriminate]
               end.
        discriminate. }
      rewrite Hq.
      destruct (strings.Index s "flag provided but not defined") eqn:E1;
        [discriminate |].
      destruct (strings.Index s "flag provided but not defined: -") eqn:E2;
        [| discriminate].
      intros _ _. now apply IH.
    + intros H1 H2. rewrite H1, H2. cbn. auto.
  - intros pd c opts Hn Hrun. unfold cli_parser.ParseArgs.
    unfold cli_parser.Action in Hrun. rewrite Hn in Hrun. cbn in Hrun.
    now rewrite Hrun.
Qed.

Lemma ParseArgs_result_witness :
  cli_parser.ParseArgs
    (fun _ o => (Some (goerror.mk "flag provided but not defined: -x" None), o))
    ["purl"; "-x"; "example.com"]
  = inl (errors.UnknownFlagError "-x").
Proof.
  destruct (ParseArgs_result
              (fun _ o => (Some (goerror.mk "flag provided but not defined: -x" None), o))
              ["purl"; "-x"; "example.com"]) as (_ & Herr & _).
  destruct (Herr _ _ eq_refl) as (Hflag & _).
  exact (proj1 (Hflag (or_introl eq_refl))).
Defined.
